(** * Complaint lifecycle and routing engine of ccms-backend

    A shallow embedding of [src/controllers/complaintController.js] (intake,
    status and deadline updates, forwarding, the listings, tracking and the
    forwarding history) and of the admin controller ([src/unnamed/part_000]:
    the performance aggregation, the creation and update of institutions),
    with the properties of the specification stated over it, followed by
    further properties read off the code.

    Conventions of the embedding:
    - a [Date] is its ECMAScript time value, an integer number of
      milliseconds since the epoch; the clock reading of [new Date()] is an
      explicit input ([now]);
    - a MongoDB collection addressed by [_id] is a finite map from ids to
      documents; a collection searched by other fields is the list of its
      documents in natural order;
    - every request handler is a function from the host environment, the
      request and the store to a response and the new store;
    - [sendNotification] is an external collaborator whose outcome is an
      input of the environment;
    - the store itself does not fail: of the [catch] branches that answer
      500, those are kept whose error the handler's own data can raise (a
      status outside the schema on save, a division by zero in the
      aggregation). *)

From Stdlib Require Import ZArith QArith Qround Qpower String List Bool Sorted Lia Lqa.
From stdpp Require Import base option list gmap strings.
Import ListNotations.

Local Open Scope string_scope.
Local Open Scope list_scope.
Local Open Scope Z_scope.

(** ** ECMAScript date arithmetic (ECMA-262, section "Date Objects") *)

Module JSDate.

Definition msPerDay : Z := 1000 * 60 * 60 * 24.

Definition Day (t : Z) : Z := t / msPerDay.
Definition TimeWithinDay (t : Z) : Z := t mod msPerDay.

Definition DaysInYear (y : Z) : Z :=
  if negb (y mod 4 =? 0) then 365
  else if negb (y mod 100 =? 0) then 366
  else if negb (y mod 400 =? 0) then 365
  else 366.

Definition DayFromYear (y : Z) : Z :=
  365 * (y - 1970) + (y - 1969) / 4 - (y - 1901) / 100 + (y - 1601) / 400.

(** The largest [y] with [DayFromYear y <= Day t]: an estimate from the
    mean length of a Gregorian year, corrected by at most one. *)
Definition YearFromTime (t : Z) : Z :=
  let d := Day t in
  let y := 1970 + (400 * d) / 146097 in
  if d <? DayFromYear y then y - 1
  else if DayFromYear (y + 1) <=? d then y + 1
  else y.

Definition leapDays (y : Z) : Z := if DaysInYear y =? 366 then 1 else 0.
Definition InLeapYear (t : Z) : Z := leapDays (YearFromTime t).
Definition DayWithinYear (t : Z) : Z := Day t - DayFromYear (YearFromTime t).

(** Day within the year on which month [m] (0 = January) starts. *)
Definition monthStart (leap m : Z) : Z :=
  if m =? 0 then 0
  else if m =? 1 then 31
  else if m =? 2 then 59 + leap
  else if m =? 3 then 90 + leap
  else if m =? 4 then 120 + leap
  else if m =? 5 then 151 + leap
  else if m =? 6 then 181 + leap
  else if m =? 7 then 212 + leap
  else if m =? 8 then 243 + leap
  else if m =? 9 then 273 + leap
  else if m =? 10 then 304 + leap
  else 334 + leap.

Definition MonthFromTime (t : Z) : Z :=
  let d := DayWithinYear t in
  let leap := InLeapYear t in
  if d <? 31 then 0
  else if d <? 59 + leap then 1
  else if d <? 90 + leap then 2
  else if d <? 120 + leap then 3
  else if d <? 151 + leap then 4
  else if d <? 181 + leap then 5
  else if d <? 212 + leap then 6
  else if d <? 243 + leap then 7
  else if d <? 273 + leap then 8
  else if d <? 304 + leap then 9
  else if d <? 334 + leap then 10
  else 11.

Definition DateFromTime (t : Z) : Z :=
  DayWithinYear t - monthStart (InLeapYear t) (MonthFromTime t) + 1.

(** [MakeDay]: the day number of the first of month [month] of [year]
    (months beyond 0..11 carry into the year), plus [date - 1]. *)
Definition MakeDay (year month date : Z) : Z :=
  let ym := year + month / 12 in
  let mn := month mod 12 in
  DayFromYear ym + monthStart (leapDays ym) mn + date - 1.

Definition MakeDate (day time : Z) : Z := day * msPerDay + time.

(** The host's time zone is a fixed offset [tza] from UTC, in
    milliseconds (no daylight-saving transitions). *)
Definition LocalTime (tza t : Z) : Z := t + tza.
Definition UTC (tza t : Z) : Z := t - tza.

(** [Date.prototype.getDate] and [Date.prototype.setDate]; time values
    stay inside the range that [TimeClip] lets through. *)
Definition getDate (tza t : Z) : Z := DateFromTime (LocalTime tza t).

Definition setDate (tza t dt : Z) : Z :=
  let lt := LocalTime tza t in
  let newDate :=
    MakeDate (MakeDay (YearFromTime lt) (MonthFromTime lt) dt)
             (TimeWithinDay lt) in
  UTC tza newDate.

Definition getMonth (tza t : Z) : Z := MonthFromTime (LocalTime tza t).

Definition setMonth (tza t month : Z) : Z :=
  let lt := LocalTime tza t in
  let newDate :=
    MakeDate (MakeDay (YearFromTime lt) month (DateFromTime lt))
             (TimeWithinDay lt) in
  UTC tza newDate.

Definition getFullYear (tza t : Z) : Z := YearFromTime (LocalTime tza t).

Definition setFullYear (tza t year : Z) : Z :=
  let lt := LocalTime tza t in
  let newDate :=
    MakeDate (MakeDay year (MonthFromTime lt) (DateFromTime lt))
             (TimeWithinDay lt) in
  UTC tza newDate.

End JSDate.

(** ** Documents and collections *)

(** A MongoDB [ObjectId], a 96-bit value. *)
Abbreviation ObjectId := N.

(** A document of the [users] collection, with the fields the controllers
    read. *)
Record User := mkUser {
  u_id : ObjectId;
  u_role : string;
  u_province : string;
  u_district : string;
  u_institutionName : string;
  u_email : string;
  u_phone : string
}.

(** A complaint, with the fields the controller writes and reads; its
    [_id] is the key under which the collection holds it. *)
Record Complaint := mkComplaint {
  title : string;
  description : string;
  category : string;
  province : string;
  district : string;
  citizenId : ObjectId;
  institutionId : ObjectId;
  resolutionDeadline : option Z;
  assignedDepartment : ObjectId;
  status : string;
  submissionDate : Z;
  resolutionDate : option Z;
  trackingNumber : string
}.

Record DistrictDepartment := mkDepartment {
  d_name : string;
  d_district : string;
  d_email : string;
  d_phone : string
}.

Record ForwardingRecord := mkForwardingRecord {
  complaintId : ObjectId;
  fromInstitutionId : ObjectId;
  toDepartmentId : ObjectId;
  forwardingNote : string
}.

Record Store := mkStore {
  users : list User;
  complaints : gmap N Complaint;
  departments : gmap N DistrictDepartment;
  forwardingRecords : list ForwardingRecord
}.

(** Field assignments on a complaint document. *)
Definition setStatus (s : string) (c : Complaint) : Complaint :=
  mkComplaint c.(title) c.(description) c.(category) c.(province)
    c.(district) c.(citizenId) c.(institutionId) c.(resolutionDeadline)
    c.(assignedDepartment) s c.(submissionDate) c.(resolutionDate)
    c.(trackingNumber).

Definition setResolutionDate (t : Z) (c : Complaint) : Complaint :=
  mkComplaint c.(title) c.(description) c.(category) c.(province)
    c.(district) c.(citizenId) c.(institutionId) c.(resolutionDeadline)
    c.(assignedDepartment) c.(status) c.(submissionDate) (Some t)
    c.(trackingNumber).

Definition setResolutionDeadline (d : Z) (c : Complaint) : Complaint :=
  mkComplaint c.(title) c.(description) c.(category) c.(province)
    c.(district) c.(citizenId) c.(institutionId) (Some d)
    c.(assignedDepartment) c.(status) c.(submissionDate) c.(resolutionDate)
    c.(trackingNumber).

Definition setAssignedDepartment (d : ObjectId) (c : Complaint) : Complaint :=
  mkComplaint c.(title) c.(description) c.(category) c.(province)
    c.(district) c.(citizenId) c.(institutionId) c.(resolutionDeadline)
    d c.(status) c.(submissionDate) c.(resolutionDate) c.(trackingNumber).

(** [complaint.save()] and [forwardingRecord.save()]. *)
Definition saveComplaint (id : ObjectId) (c : Complaint) (db : Store) : Store :=
  mkStore db.(users) (<[id := c]> db.(complaints)) db.(departments)
    db.(forwardingRecords).

Definition saveForwardingRecord (r : ForwardingRecord) (db : Store) : Store :=
  mkStore db.(users) db.(complaints) db.(departments)
    (db.(forwardingRecords) ++ [r]).

(** Modelled from the spec: the schema of [models/Complaint.js], which is
    not among the sources. The status is one of three case-sensitive
    values, a new complaint starts as PENDING with its submission
    timestamp set at creation and without a resolution timestamp, and the
    tracking number is generated at creation. *)
Definition statusEnum : list string := ["PENDING"; "IN_PROGRESS"; "RESOLVED"].

Definition validStatus (s : string) : bool := existsb (String.eqb s) statusEnum.

(** ** Host environment, requests and responses *)

Record Recipient := mkRecipient { r_email : string; r_phone : string }.

(** Outcome of one [sendNotification] call: it returns, or it throws an
    error with a message. *)
Inductive SendResult :=
| Delivered
| Rejected (error : string).

(** The host. Its last field tells what [document.populate(...)] of the
    installed Mongoose returns, which the sources do not fix: the document
    itself, not yet populated and open to a further [.populate(...)]
    (Mongoose 5), or a promise that populates the document and has no
    [populate] of its own (Mongoose 6 and later). *)
Record Host := mkHost {
  now : Z;                                 (* the reading of [new Date()] *)
  tza : Z;                                 (* offset of the local time zone *)
  sendNotification : string -> Recipient -> SendResult;
  newObjectId : ObjectId;                  (* [_id] given to a new document *)
  newTrackingNumber : string;
  populateReturnsDocument : bool
}.

(** The request of each handler: the authenticated user, the outcome of
    express-validator where the handler consults it, route parameters and
    body fields. A date in the body is [None] when the field is absent (or
    otherwise falsy) and [Some d] when it denotes the instant [d]. *)
Record SubmitRequest := mkSubmitRequest {
  sr_user : User;
  sr_errors : list string;
  sr_title : string;
  sr_description : string;
  sr_category : string;
  sr_province : string;
  sr_district : string
}.

Record DeadlineRequest := mkDeadlineRequest {
  dr_user : User;
  dr_id : ObjectId;
  dr_newDeadline : option Z
}.

Record StatusRequest := mkStatusRequest {
  ur_user : User;
  ur_complaintId : ObjectId;
  ur_status : string;
  ur_resolutionDeadline : option Z
}.

Record ForwardRequest := mkForwardRequest {
  fr_user : User;
  fr_errors : list string;
  fr_complaintId : ObjectId;
  fr_departmentId : ObjectId;
  fr_forwardingNote : string
}.

(** One document of the performance aggregation after [$project], and the
    system-wide totals. Numbers that MongoDB and JavaScript compute in
    double precision are exact rationals here. *)
Record PerformanceRow := mkPerformanceRow {
  p_id : ObjectId;
  p_institutionName : string;
  p_district : string;
  p_province : string;
  p_totalComplaints : Z;
  p_resolvedComplaints : Z;
  p_resolvedOnTime : Z;
  p_averageResolutionTime : option Q;
  p_resolutionRate : Q;
  p_onTimeResolutionRate : Q
}.

Record SystemStats := mkSystemStats {
  s_totalComplaints : Z;
  s_totalResolved : Z;
  s_totalResolvedOnTime : Z;
  s_systemResolutionRate : Q;
  s_systemOnTimeRate : Q
}.

(** One entry of [notificationErrors]. *)
Record NotificationError := mkNotificationError {
  ne_type : string;
  ne_error : string
}.

Inductive Body :=
| Message (message : string)
| ValidationErrors (errors : list string)
| ServerError (message : string)
| ComplaintSubmitted (id : ObjectId) (complaint : Complaint)
    (assignedTo : option string) (notificationSent : bool)
    (notificationError : option string)
| DeadlineUpdated (complaint : Complaint)
| ComplaintUpdated (complaint : Complaint) (success : bool)
    (errors : list NotificationError)
| ComplaintForwarded (forwardingRecord : ForwardingRecord) (emailSent : bool)
| PerformanceReport (timeframe : string) (systemStats : SystemStats)
    (institutionPerformance : list PerformanceRow).

Record Response := mkResponse { statusCode : Z; body : Body }.

(** [res.json(b)] answers with status 200. *)
Definition json (b : Body) : Response := mkResponse 200 b.

(** ** The complaint controller ([src/controllers/complaintController.js]) *)

Module ComplaintController.

Import JSDate.

Definition isInstitutionIn (province district : string) (u : User) : bool :=
  (u.(u_role) =? "institution")%string
  && (u.(u_province) =? province)%string
  && (u.(u_district) =? district)%string.

Definition isInstitutionOf (province : string) (u : User) : bool :=
  (u.(u_role) =? "institution")%string
  && (u.(u_province) =? province)%string.

(** [findAppropriateInstitution]: [User.findOne] yields the first
    matching document, or null. The category is not part of either
    query. *)
Definition findAppropriateInstitution (db : Store)
    (category province district : string) : option User :=
  match find (isInstitutionIn province district) db.(users) with
  | Some institution => Some institution
  | None => find (isInstitutionOf province) db.(users)
  end.

(** [calculateResolutionDeadline]: [date.setDate(date.getDate() + n)] on
    a fresh [new Date()]. *)
Definition calculateResolutionDeadline (h : Host) (category : string) : Z :=
  let date := h.(now) in
  let plus (n : Z) := setDate h.(tza) date (getDate h.(tza) date + n) in
  if (category =? "WATER")%string || (category =? "ELECTRICITY")%string
  then plus 3
  else if (category =? "PUBLIC_SAFETY")%string
  then plus 2
  else if (category =? "ROADS")%string || (category =? "SANITATION")%string
  then plus 7
  else plus 14.

(** [new Complaint({...})]: the fields the controller passes, the
    others as the schema fills them. *)
Definition newComplaint (h : Host) (req : SubmitRequest) (institution : User)
    (deadline : Z) : Complaint :=
  {| title := req.(sr_title);
     description := req.(sr_description);
     category := req.(sr_category);
     province := req.(sr_province);
     district := req.(sr_district);
     citizenId := req.(sr_user).(u_id);
     institutionId := institution.(u_id);
     resolutionDeadline := Some deadline;
     assignedDepartment := institution.(u_id);
     status := "PENDING";
     submissionDate := h.(now);
     resolutionDate := None;
     trackingNumber := h.(newTrackingNumber) |}.

Definition submitComplaint (h : Host) (req : SubmitRequest) (db : Store)
    : Response * Store :=
  match req.(sr_errors) with
  | _ :: _ => (mkResponse 400 (ValidationErrors req.(sr_errors)), db)
  | [] =>
    if negb (req.(sr_user).(u_role) =? "citizen")%string
    then (mkResponse 403 (Message "Only citizens can submit complaints"), db)
    else
      match findAppropriateInstitution db req.(sr_category)
              req.(sr_province) req.(sr_district) with
      | None =>
        (mkResponse 404
           (Message "No appropriate institution found to handle this complaint"),
         db)
      | Some institution =>
        let resolutionDeadline :=
          calculateResolutionDeadline h req.(sr_category) in
        let complaint := newComplaint h req institution resolutionDeadline in
        let db' := saveComplaint h.(newObjectId) complaint db in
        let notificationError :=
          match h.(sendNotification) "SUBMITTED"
                  (mkRecipient req.(sr_user).(u_email)
                               req.(sr_user).(u_phone)) with
          | Delivered => None
          | Rejected e => Some e
          end in
        (* [complaint.institutionId.institutionName] after
           [await complaint.populate('institutionId', 'institutionName')]:
           undefined where the populate has not taken place *)
        let assignedTo :=
          if h.(populateReturnsDocument) then None
          else Some institution.(u_institutionName) in
        (mkResponse 201
           (ComplaintSubmitted h.(newObjectId) complaint assignedTo
              (match notificationError with None => true | Some _ => false end)
              notificationError),
         db')
      end
  end.

(** [Complaint.findOne({ _id: id, institutionId: userId })]. *)
Definition findOwnedComplaint (db : Store) (id userId : ObjectId)
    : option Complaint :=
  match db.(complaints) !! id with
  | Some c => if (c.(institutionId) =? userId)%N then Some c else None
  | None => None
  end.

Definition updateComplaintDeadline (h : Host) (req : DeadlineRequest)
    (db : Store) : Response * Store :=
  let invalid :=
    mkResponse 400 (Message "Invalid deadline. Deadline must be a future date") in
  match req.(dr_newDeadline) with
  | None => (invalid, db)
  | Some newDeadline =>
    if newDeadline <? h.(now) then (invalid, db)
    else
      match findOwnedComplaint db req.(dr_id) req.(dr_user).(u_id) with
      | None =>
        (mkResponse 404
           (Message "Complaint not found or you do not have permission to update it"),
         db)
      | Some complaint =>
        let complaint := setResolutionDeadline newDeadline complaint in
        (json (DeadlineUpdated complaint),
         saveComplaint req.(dr_id) complaint db)
      end
  end.

(** One guarded notification to the citizen of a complaint, as in
    [updateComplaintStatus]: the citizen is populated from the users, a
    missing citizen makes the read of [complaint.citizenId.email] throw
    inside the same [try], with the engine's message for a property read
    on null. The result is the error entry pushed, if any. *)
Definition notifyCitizen (h : Host) (db : Store) (kind label : string)
    (c : Complaint) : list NotificationError :=
  let outcome :=
    match find (fun u => (u.(u_id) =? c.(citizenId))%N) db.(users) with
    | Some citizen =>
      h.(sendNotification) kind
        (mkRecipient citizen.(u_email) citizen.(u_phone))
    | None => Rejected "Cannot read properties of null (reading 'email')"
    end in
  match outcome with
  | Delivered => []
  | Rejected e => [mkNotificationError label e]
  end.

Definition updateComplaintStatus (h : Host) (req : StatusRequest)
    (db : Store) : Response * Store :=
  if negb (req.(ur_user).(u_role) =? "institution")%string
  then
    (mkResponse 403 (Message "Only institutions can update complaint status"),
     db)
  else
    match db.(complaints) !! req.(ur_complaintId) with
    | None => (mkResponse 404 (Message "Complaint not found"), db)
    | Some complaint =>
      if negb (complaint.(institutionId) =? req.(ur_user).(u_id))%N
      then
        (mkResponse 403 (Message "Not authorized to update this complaint"),
         db)
      else
        let complaint := setStatus req.(ur_status) complaint in
        let '(complaint, errors1) :=
          if (req.(ur_status) =? "RESOLVED")%string
          then (setResolutionDate h.(now) complaint,
                notifyCitizen h db "RESOLVED" "resolved" complaint)
          else (complaint, []) in
        let '(complaint, errors2) :=
          match req.(ur_resolutionDeadline) with
          | Some resolutionDeadline =>
            (setResolutionDeadline resolutionDeadline complaint,
             notifyCitizen h db "DEADLINE_SET" "deadline" complaint)
          | None => (complaint, [])
          end in
        let notificationErrors := errors1 ++ errors2 in
        (* [complaint.save()] validates the modified paths *)
        if validStatus complaint.(status)
        then
          (json (ComplaintUpdated complaint
                   (match notificationErrors with [] => true | _ => false end)
                   notificationErrors),
           saveComplaint req.(ur_complaintId) complaint db)
        else (mkResponse 500 (ServerError "Error updating complaint"), db)
  end.

Definition forwardComplaint (h : Host) (req : ForwardRequest) (db : Store)
    : Response * Store :=
  match req.(fr_errors) with
  | _ :: _ => (mkResponse 400 (ValidationErrors req.(fr_errors)), db)
  | [] =>
    match findOwnedComplaint db req.(fr_complaintId) req.(fr_user).(u_id) with
    | None =>
      (mkResponse 404
         (Message "Complaint not found or you do not have permission to forward it"),
       db)
    | Some complaint =>
      match db.(departments) !! req.(fr_departmentId) with
      | None => (mkResponse 404 (Message "District department not found"), db)
      | Some department =>
        if negb (department.(d_district) =? complaint.(district))%string
        then
          (mkResponse 400
             (Message "Department must be in the same district as the complaint"),
           db)
        else
          let forwardingRecord :=
            {| complaintId := req.(fr_complaintId);
               fromInstitutionId := req.(fr_user).(u_id);
               toDepartmentId := req.(fr_departmentId);
               forwardingNote := req.(fr_forwardingNote) |} in
          let db := saveForwardingRecord forwardingRecord db in
          let complaint :=
            setStatus "IN_PROGRESS"
              (setAssignedDepartment req.(fr_departmentId) complaint) in
          let db := saveComplaint req.(fr_complaintId) complaint db in
          (* the outcome of the notification is caught and dropped *)
          let _ :=
            h.(sendNotification) "COMPLAINT_FORWARDED"
              (mkRecipient department.(d_email) department.(d_phone)) in
          (* [await forwardingRecord.populate(...).populate(...)]: where
             the first call returns a promise the second one throws, and
             the [catch] of the handler answers, after both saves *)
          if h.(populateReturnsDocument)
          then (json (ComplaintForwarded forwardingRecord true), db)
          else (mkResponse 500 (ServerError "Error forwarding complaint"), db)
      end
    end
  end.

End ComplaintController.

(** ** The performance report ([getPerformance] of [src/unnamed/part_000]) *)

Module AdminController.

Import JSDate.

(** The value of [dateFilter]: the empty document, or [{ $gte: bound }]. *)
Inductive DateFilter :=
| EmptyDocument
| Gte (bound : Z).

Definition dateFilterOf (h : Host) (timeframe : option string) : DateFilter :=
  let now := h.(now) in
  match timeframe with
  | Some tf =>
    if (tf =? "week")%string
    then Gte (setDate h.(tza) now (getDate h.(tza) now - 7))
    else if (tf =? "month")%string
    then Gte (setMonth h.(tza) now (getMonth h.(tza) now - 1))
    else if (tf =? "year")%string
    then Gte (setFullYear h.(tza) now (getFullYear h.(tza) now - 1))
    else EmptyDocument
  | None => EmptyDocument
  end.

(** [$match: { submissionDate: dateFilter }]. A query value that is a
    document without operators, the empty one included, is an equality
    condition, and a date is never equal to a document. *)
Definition matchStage (f : DateFilter) (c : Complaint) : bool :=
  match f with
  | Gte bound => bound <=? c.(submissionDate)
  | EmptyDocument => false
  end.

(** The accumulators of one [$group] document. *)
Record Group := mkGroup {
  g_id : ObjectId;
  g_totalComplaints : Z;
  g_resolvedComplaints : Z;
  g_resolvedOnTime : Z;
  g_averageResolutionTime : option Q
}.

Definition isResolved (c : Complaint) : bool :=
  (c.(status) =? "RESOLVED")%string.

(** [$lte] in the aggregation's comparison order, where a missing
    field sorts before every date. *)
Definition bsonLte (a b : option Z) : bool :=
  match a, b with
  | None, _ => true
  | Some _, None => false
  | Some x, Some y => x <=? y
  end.

Definition isResolvedOnTime (c : Complaint) : bool :=
  isResolved c && bsonLte c.(resolutionDate) c.(resolutionDeadline).

Definition count (p : Complaint -> bool) (l : list Complaint) : Z :=
  Z.of_nat (length (filter (fun c => p c = true) l)).

(** The operand of [$avg] for one complaint: the days from submission to
    resolution of a resolved complaint, null otherwise. *)
Definition resolutionDays (c : Complaint) : option Q :=
  if isResolved c
  then
    match c.(resolutionDate) with
    | Some r => Some (inject_Z (r - c.(submissionDate)) / inject_Z msPerDay)%Q
    | None => None
    end
  else None.

(** [$avg]: the mean of the numeric operands, null when there is none. *)
Definition avg (l : list (option Q)) : option Q :=
  match omap id l with
  | [] => None
  | v :: vs =>
    Some (fold_left Qplus (v :: vs) 0%Q / inject_Z (Z.of_nat (length (v :: vs))))%Q
  end.

(** The distinct values of a list in the order of their first occurrence. *)
Fixpoint distinct (l : list N) : list N :=
  match l with
  | [] => []
  | x :: l' => x :: filter (fun y => y <> x) (distinct l')
  end.

Definition groupOf (docs : list Complaint) (k : ObjectId) : Group :=
  let members := filter (fun c => c.(institutionId) = k) docs in
  {| g_id := k;
     g_totalComplaints := count (fun _ => true) members;
     g_resolvedComplaints := count isResolved members;
     g_resolvedOnTime := count isResolvedOnTime members;
     g_averageResolutionTime := avg (map resolutionDays members) |}.

(** [$group] with [_id: '$institutionId']. *)
Definition groupStage (docs : list Complaint) : list Group :=
  map (groupOf docs) (distinct (map institutionId docs)).

(** [$divide] is an error when the divisor is zero. *)
Definition divide (a b : Z) : option Q :=
  if b =? 0 then None else Some (inject_Z a / inject_Z b)%Q.

(** [$round] to [places] decimal places, a tie going to the even
    neighbour. *)
Definition roundHalfEven (q : Q) : Z :=
  let f := Qfloor q in
  match (q - inject_Z f ?= 1 # 2)%Q with
  | Lt => f
  | Gt => f + 1
  | Eq => if Z.even f then f else f + 1
  end.

Definition round (q : Q) (places : Z) : Q :=
  (inject_Z (roundHalfEven (q * inject_Z (10 ^ places))) / inject_Z (10 ^ places))%Q.

(** [$project] on a group joined with its institution. *)
Definition projectStage (g : Group) (institution : User) : option PerformanceRow :=
  rate ← divide g.(g_resolvedComplaints) g.(g_totalComplaints);
  onTime ← divide g.(g_resolvedOnTime) (Z.max g.(g_resolvedComplaints) 1);
  Some {| p_id := g.(g_id);
          p_institutionName := institution.(u_institutionName);
          p_district := institution.(u_district);
          p_province := institution.(u_province);
          p_totalComplaints := g.(g_totalComplaints);
          p_resolvedComplaints := g.(g_resolvedComplaints);
          p_resolvedOnTime := g.(g_resolvedOnTime);
          p_averageResolutionTime :=
            (fun a => round a 1) <$> g.(g_averageResolutionTime);
          p_resolutionRate := (rate * 100)%Q;
          p_onTimeResolutionRate := (onTime * 100)%Q |}.

(** [$lookup] from the users by [_id], then [$unwind]: one document per
    matching user, none for a group without one. *)
Definition lookupStage (db : Store) (g : Group) : list (Group * User) :=
  map (fun u => (g, u)) (filter (fun u => u.(u_id) = g.(g_id)) db.(users)).

(** [$sort: { onTimeResolutionRate: -1 }]. *)
Fixpoint insertByRate (r : PerformanceRow) (l : list PerformanceRow)
    : list PerformanceRow :=
  match l with
  | [] => [r]
  | x :: l' =>
    if Qle_bool x.(p_onTimeResolutionRate) r.(p_onTimeResolutionRate)
    then r :: x :: l'
    else x :: insertByRate r l'
  end.

Definition sortStage (l : list PerformanceRow) : list PerformanceRow :=
  foldr insertByRate [] l.

(** [Complaint.aggregate([...])]: [None] when a stage raises an error. *)
Definition aggregate (db : Store) (f : DateFilter) : option (list PerformanceRow) :=
  let docs := filter (fun c => matchStage f c = true)
                (snd <$> map_to_list db.(complaints)) in
  let joined := concat (map (lookupStage db) (groupStage docs)) in
  sortStage <$> mapM (fun gu => projectStage (fst gu) (snd gu)) joined.

Definition sum (f : PerformanceRow -> Z) (l : list PerformanceRow) : Z :=
  fold_left (fun acc p => acc + f p) l 0.

Definition systemStatsOf (performance : list PerformanceRow) : SystemStats :=
  let totalComplaints := sum p_totalComplaints performance in
  let totalResolved := sum p_resolvedComplaints performance in
  let totalResolvedOnTime := sum p_resolvedOnTime performance in
  {| s_totalComplaints := totalComplaints;
     s_totalResolved := totalResolved;
     s_totalResolvedOnTime := totalResolvedOnTime;
     s_systemResolutionRate :=
       if totalComplaints =? 0 then 0%Q
       else (inject_Z totalResolved / inject_Z totalComplaints * 100)%Q;
     s_systemOnTimeRate :=
       if totalResolved =? 0 then 0%Q
       else (inject_Z totalResolvedOnTime / inject_Z totalResolved * 100)%Q |}.

Definition getPerformance (h : Host) (timeframe : option string) (db : Store)
    : Response :=
  match aggregate db (dateFilterOf h timeframe) with
  | Some performance =>
    json (PerformanceReport
            (match timeframe with
             | Some tf => if (tf =? "")%string then "all-time" else tf
             | None => "all-time"
             end)
            (systemStatsOf performance) performance)
  | None => mkResponse 500 (ServerError "Error fetching performance data")
  end.

(** The per-institution figure of [getInstitutions], before
    [Math.round]: the same ratio behind a guard. *)
Definition performanceOf (totalComplaints resolvedComplaints : Z) : Q :=
  if 0 <? totalComplaints
  then (inject_Z resolvedComplaints / inject_Z totalComplaints * 100)%Q
  else 0%Q.

End AdminController.

(** ** Vocabulary of the specification *)

(** The lifecycle operations on the store, each with the environment of
    its request. *)
Inductive LifecycleOp :=
| StatusUpdate (h : Host) (req : StatusRequest)
| DeadlineUpdate (h : Host) (req : DeadlineRequest)
| Forward (h : Host) (req : ForwardRequest).

Definition applyOp (db : Store) (op : LifecycleOp) : Store :=
  match op with
  | StatusUpdate h req => snd (ComplaintController.updateComplaintStatus h req db)
  | DeadlineUpdate h req => snd (ComplaintController.updateComplaintDeadline h req db)
  | Forward h req => snd (ComplaintController.forwardComplaint h req db)
  end.

Definition applyOps (ops : list LifecycleOp) (db : Store) : Store :=
  fold_left applyOp ops db.

(** The invariant of the data model: a complaint has a resolution
    timestamp exactly when it is resolved. *)
Definition timestampIffResolved (db : Store) : Prop :=
  forall id c, db.(complaints) !! id = Some c ->
    is_Some c.(resolutionDate) <-> c.(status) = "RESOLVED".

(** Its half from status to timestamp. *)
Definition resolvedIsStamped (db : Store) : Prop :=
  forall id c, db.(complaints) !! id = Some c ->
    c.(status) = "RESOLVED" -> is_Some c.(resolutionDate).

(** Every complaint of [db] that has a resolution timestamp still has one
    in [db']. *)
Definition stampsKept (db db' : Store) : Prop :=
  forall id c, db.(complaints) !! id = Some c -> is_Some c.(resolutionDate) ->
    exists c', db'.(complaints) !! id = Some c' /\ is_Some c'.(resolutionDate).

(** The number of days the deadline policy of the specification grants a
    category. *)
Definition policyDays (category : string) : Z :=
  if bool_decide (category ∈ ["WATER"; "ELECTRICITY"]) then 3
  else if bool_decide (category = "PUBLIC_SAFETY") then 2
  else if bool_decide (category ∈ ["ROADS"; "SANITATION"]) then 7
  else 14.

(** An institution of the users collection, by province and district. *)
Definition institutionIn (db : Store) (province district : string) (u : User) : Prop :=
  u ∈ db.(users) /\ u.(u_role) = "institution"
  /\ u.(u_province) = province /\ u.(u_district) = district.

Definition institutionOf (db : Store) (province : string) (u : User) : Prop :=
  u ∈ db.(users) /\ u.(u_role) = "institution" /\ u.(u_province) = province.

(** ** A concrete scenario

    Two institutions of one province, a citizen and a district department;
    the citizen submits a WATER complaint, which the first institution
    later resolves. *)

Module Scenario.

Import ComplaintController.

Definition wasac : User :=
  mkUser 10 "institution" "Kigali" "Gasabo" "WASAC" "care@wasac.example" "0788000001".
Definition reg : User :=
  mkUser 11 "institution" "Kigali" "Kicukiro" "REG" "care@reg.example" "0788000002".
Definition citizen : User :=
  mkUser 20 "citizen" "Kigali" "Gasabo" "" "alice@mail.example" "0788000003".

Definition waterDepartment : DistrictDepartment :=
  mkDepartment "Gasabo water office" "Gasabo" "water@gasabo.example" "0788000004".
Definition roadsDepartment : DistrictDepartment :=
  mkDepartment "Kicukiro roads office" "Kicukiro" "roads@kicukiro.example" "0788000005".

Definition db0 : Store :=
  mkStore [wasac; reg; citizen] ∅
    (<[30%N := waterDepartment]> (<[31%N := roadsDepartment]> ∅)) [].

(** A host at instant [t] in UTC whose notifier works or is down, with a
    Mongoose of today; and the same host with Mongoose 5. *)
Definition host (t : Z) (up : bool) : Host :=
  mkHost t 0 (fun _ _ => if up then Delivered else Rejected "connection refused")
    100%N "CMP-0001" false.

Definition legacyHost (t : Z) (up : bool) : Host :=
  mkHost t 0 (fun _ _ => if up then Delivered else Rejected "connection refused")
    100%N "CMP-0001" true.

(** 2024-02-28T12:00:00Z, and one and two days later. *)
Definition t0 : Z := 1709121600000.
Definition t1 : Z := t0 + JSDate.msPerDay.
Definition t2 : Z := t1 + JSDate.msPerDay.

Definition submitRequest : SubmitRequest :=
  mkSubmitRequest citizen [] "No water" "Dry taps since Monday" "WATER"
    "Kigali" "Gasabo".

Definition db1 : Store := snd (submitComplaint (host t0 true) submitRequest db0).

Definition resolveRequest : StatusRequest :=
  mkStatusRequest wasac 100%N "RESOLVED" None.
Definition reopenRequest : StatusRequest :=
  mkStatusRequest wasac 100%N "PENDING" None.
Definition forwardRequest : ForwardRequest :=
  mkForwardRequest wasac [] 100%N 30%N "Please check the main valve".

Definition db2 : Store :=
  snd (updateComplaintStatus (host t1 true) resolveRequest db1).

(** The complaint as submitted, and as resolved at [t1]. *)
Definition submitted : Complaint :=
  mkComplaint "No water" "Dry taps since Monday" "WATER" "Kigali" "Gasabo"
    20%N 10%N (Some (t0 + 3 * JSDate.msPerDay)) 10%N "PENDING" t0 None "CMP-0001".

Definition resolved : Complaint :=
  setResolutionDate t1 (setStatus "RESOLVED" submitted).

End Scenario.

(** ** ECMAScript numbers

    A Number is an IEEE 754 binary64 value; the result of an arithmetic
    operation is the exact result rounded to the nearest value with a
    significand of 53 bits, a tie going to the even significand. The
    values are kept as rationals. Overflow, subnormal values, NaN and the
    sign of zero are left out: the time values of two Dates differ by a
    whole number below 2^54, so their difference and its quotient by the
    milliseconds of a day are 0 or lie between 2^-27 and 2^54 in
    magnitude. *)

Module Double.

(** The exponent [k] that brings the positive [q] to a significand
    [q * 2^k] from 2^52 up to 2^53. *)
Definition shift (q : Q) : Z :=
  let k0 := 52 - (Z.log2 (Qnum q) - Z.log2 (Zpos (Qden q))) in
  if Qle_bool (2 ^ 52) (q * 2 ^ k0) then k0 else k0 + 1.

Definition roundPositive (q : Q) : Q :=
  (inject_Z (AdminController.roundHalfEven (q * 2 ^ shift q)) * 2 ^ (- shift q))%Q.

(** The Number nearest to [q]. *)
Definition round (q : Q) : Q :=
  match Qnum q with
  | Z0 => 0%Q
  | Zpos _ => roundPositive q
  | Zneg _ => (- roundPositive (- q))%Q
  end.

End Double.

(** ** The read handlers of the complaint controller

    [populate] replaces a reference by fields of the referenced document in
    the answer only; the answers below carry the stored documents, each
    with its [_id]. *)

Module ComplaintQueries.

Import JSDate.

(** The integer ceiling of [ms / (1000 * 60 * 60 * 24)]: what [Math.ceil]
    makes of the quotient for a whole number of milliseconds below 2^53 in
    magnitude. *)
Definition ceilDays (ms : Z) : Z := - ((- ms) / msPerDay).

(** [calculateResolutionTime] of [src/unnamed/part_000]:
    [Math.ceil((resolutionDate - submissionDate) / (1000 * 60 * 60 * 24))],
    where the difference of the two time values and its quotient are
    Numbers, each rounded. *)
Definition calculateResolutionTime (submissionDate resolutionDate : Z) : Z :=
  Qceiling
    (Double.round
       (Double.round (inject_Z (resolutionDate - submissionDate))
        / inject_Z msPerDay)).

(** [.sort(...)]: a stable sort of the documents found, [leb x y] telling
    that [x] may stand before [y]. *)
Fixpoint insertWith {A : Type} (leb : A -> A -> bool) (x : A) (l : list A)
    : list A :=
  match l with
  | [] => [x]
  | y :: l' => if leb x y then x :: y :: l' else y :: insertWith leb x l'
  end.

Definition sortWith {A : Type} (leb : A -> A -> bool) (l : list A) : list A :=
  foldr (insertWith leb) [] l.

(** [{ resolutionDeadline: 1 }], [{ submissionDate: 1 }] and
    [{ submissionDate: -1 }]; a missing deadline sorts first. *)
Definition deadlineAscending (x y : N * Complaint) : bool :=
  AdminController.bsonLte (snd x).(resolutionDeadline) (snd y).(resolutionDeadline).

Definition submissionAscending (x y : N * Complaint) : bool :=
  (snd x).(submissionDate) <=? (snd y).(submissionDate).

Definition submissionDescending (x y : N * Complaint) : bool :=
  (snd y).(submissionDate) <=? (snd x).(submissionDate).

(** A complaint of [getInstitutionComplaints] with its urgency fields
    [isUrgent] and [daysUntilDeadline], which are set when the complaint
    has a deadline. *)
Record ComplaintView := mkComplaintView {
  v_id : ObjectId;
  v_complaint : Complaint;
  v_urgency : option (bool * Z)
}.

Inductive QueryBody :=
| QMessage (message : string)
| QComplaint (id : ObjectId) (complaint : Complaint)
| QComplaints (complaints : list (N * Complaint))
| QInstitutionComplaints (count : Z) (complaints : list ComplaintView)
| QForwardingHistory (records : list ForwardingRecord).

Record QueryResponse := mkQueryResponse {
  q_statusCode : Z;
  q_body : QueryBody
}.

Definition qjson (b : QueryBody) : QueryResponse := mkQueryResponse 200 b.

(** [Complaint.find(query)]: the documents of the collection that pass
    the query. *)
Definition findComplaints (query : Complaint -> bool) (db : Store)
    : list (N * Complaint) :=
  List.filter (fun ic => query (snd ic)) (map_to_list db.(complaints)).

Definition getComplaintByTracking (tracking : string) (db : Store)
    : QueryResponse :=
  match find (fun ic => ((snd ic).(trackingNumber) =? tracking)%string)
          (map_to_list db.(complaints)) with
  | None => mkQueryResponse 404 (QMessage "Complaint not found")
  | Some (id, complaint) => qjson (QComplaint id complaint)
  end.

Definition getMyComplaints (user : User) (db : Store) : QueryResponse :=
  let answer (query : Complaint -> bool) :=
    qjson (QComplaints (sortWith submissionDescending (findComplaints query db))) in
  if (user.(u_role) =? "citizen")%string
  then answer (fun c => (c.(citizenId) =? user.(u_id))%N)
  else if (user.(u_role) =? "institution")%string
  then answer (fun c => (c.(institutionId) =? user.(u_id))%N)
  else mkQueryResponse 403 (QMessage "Unauthorized access").

(** The query of [getInstitutionComplaints] from the query-string
    parameters [status] and [deadlineApproaching]. A range condition on
    the deadline is not met by a complaint without one. *)
Definition institutionQuery (h : Host) (userId : ObjectId)
    (statusParam deadlineApproaching : option string) (c : Complaint) : bool :=
  let approaching :=
    match deadlineApproaching with
    | Some v => (v =? "true")%string
    | None => false
    end in
  let unresolved :=
    match statusParam with
    | Some v => (v =? "unresolved")%string
    | None => false
    end in
  let twoDaysFromNow := setDate h.(tza) h.(now) (getDate h.(tza) h.(now) + 2) in
  (c.(institutionId) =? userId)%N
  && (if unresolved || approaching
      then negb (c.(status) =? "RESOLVED")%string else true)
  && (if approaching
      then match c.(resolutionDeadline) with
           | Some d => (d <=? twoDaysFromNow) && (h.(now) <=? d)
           | None => false
           end
      else true).

(** The [switch (sortBy)], where a missing parameter stands for
    ['deadline']. *)
Definition institutionOrder (sortBy : option string)
    : (N * Complaint) -> (N * Complaint) -> bool :=
  match sortBy with
  | Some v =>
    if (v =? "deadline")%string then deadlineAscending
    else if (v =? "oldest")%string then submissionAscending
    else if (v =? "newest")%string then submissionDescending
    else deadlineAscending
  | None => deadlineAscending
  end.

Definition withUrgency (h : Host) (ic : N * Complaint) : ComplaintView :=
  let complaint := snd ic in
  mkComplaintView (fst ic) complaint
    match complaint.(resolutionDeadline) with
    | Some deadline =>
      let daysUntilDeadline := ceilDays (deadline - h.(now)) in
      Some ((daysUntilDeadline <=? 2)
            && negb (complaint.(status) =? "RESOLVED")%string,
            daysUntilDeadline)
    | None => None
    end.

Definition getInstitutionComplaints (h : Host) (user : User)
    (statusParam deadlineApproaching sortBy : option string) (db : Store)
    : QueryResponse :=
  if negb (user.(u_role) =? "institution")%string
  then
    mkQueryResponse 403
      (QMessage "Access denied. Only institutions can view these complaints")
  else
    let complaints :=
      sortWith (institutionOrder sortBy)
        (findComplaints
           (institutionQuery h user.(u_id) statusParam deadlineApproaching) db) in
    qjson (QInstitutionComplaints (Z.of_nat (length complaints))
             (map (withUrgency h) complaints)).

(** Modelled from the spec: a forwarding record carries the timestamp of
    its creation (the schema of [models/ForwardingRecord.js] is not among
    the sources). The records are only ever appended, so the collection
    holds them oldest first and [sort({ forwardedAt: -1 })] answers them in
    reverse. *)
Definition getForwardingHistory (user : User) (id : ObjectId) (db : Store)
    : QueryResponse :=
  let allowed :=
    match db.(complaints) !! id with
    | Some c =>
      (c.(institutionId) =? user.(u_id))%N || (c.(citizenId) =? user.(u_id))%N
    | None => false
    end in
  if allowed
  then
    qjson (QForwardingHistory
             (rev (List.filter (fun r => (r.(complaintId) =? id)%N)
                     db.(forwardingRecords))))
  else
    mkQueryResponse 404
      (QMessage "Complaint not found or you do not have permission to view it").

End ComplaintQueries.

(** ** Institution management ([createInstitution] and
    [updateInstitution] of [src/unnamed/part_000])

    The password hash, which no handler of this development reads, is not
    among the fields of [User]; the schema of the users, with whatever
    uniqueness it asks for, is not among the sources, and a save is taken
    to succeed. *)

Module InstitutionAdmin.

Record CreateRequest := mkCreateRequest {
  ci_errors : list string;
  ci_institutionName : string;
  ci_email : string;
  ci_phone : string;
  ci_password : string;
  ci_province : string;
  ci_district : string
}.

(** A field of the body of [updateInstitution] is [None] when it is
    undefined. *)
Record UpdateRequest := mkUpdateRequest {
  ui_errors : list string;
  ui_id : ObjectId;
  ui_institutionName : option string;
  ui_email : option string;
  ui_phone : option string;
  ui_province : option string;
  ui_district : option string
}.

Inductive AdminBody :=
| AMessage (message : string)
| AValidationErrors (errors : list string)
| AInstitution (institution : User).

Record AdminResponse := mkAdminResponse {
  a_statusCode : Z;
  a_body : AdminBody
}.

Definition createInstitution (h : Host) (req : CreateRequest) (db : Store)
    : AdminResponse * Store :=
  match req.(ci_errors) with
  | _ :: _ => (mkAdminResponse 400 (AValidationErrors req.(ci_errors)), db)
  | [] =>
    match find (fun u => (u.(u_email) =? req.(ci_email))%string) db.(users) with
    | Some _ =>
      (mkAdminResponse 400 (AMessage "Institution already exists"), db)
    | None =>
      let institution :=
        {| u_id := h.(newObjectId);
           u_role := "institution";
           u_province := req.(ci_province);
           u_district := req.(ci_district);
           u_institutionName := req.(ci_institutionName);
           u_email := req.(ci_email);
           u_phone := req.(ci_phone) |} in
      (mkAdminResponse 200 (AInstitution institution),
       mkStore (db.(users) ++ [institution]) db.(complaints) db.(departments)
         db.(forwardingRecords))
    end
  end.

(** [institution[field] = req.body[field]] when the body has the field. *)
Definition assign (value : option string) (current : string) : string :=
  match value with
  | Some v => v
  | None => current
  end.

(** [institution.save()] on a document that was found: the document of
    that [_id] is replaced. *)
Fixpoint saveUser (u : User) (l : list User) : list User :=
  match l with
  | [] => []
  | x :: l' =>
    if (x.(u_id) =? u.(u_id))%N then u :: l' else x :: saveUser u l'
  end.

Definition updateInstitution (req : UpdateRequest) (db : Store)
    : AdminResponse * Store :=
  match req.(ui_errors) with
  | _ :: _ => (mkAdminResponse 400 (AValidationErrors req.(ui_errors)), db)
  | [] =>
    match find (fun u => (u.(u_id) =? req.(ui_id))%N) db.(users) with
    | None => (mkAdminResponse 404 (AMessage "Institution not found"), db)
    | Some institution =>
      let institution :=
        {| u_id := institution.(u_id);
           u_role := institution.(u_role);
           u_province := assign req.(ui_province) institution.(u_province);
           u_district := assign req.(ui_district) institution.(u_district);
           u_institutionName :=
             assign req.(ui_institutionName) institution.(u_institutionName);
           u_email := assign req.(ui_email) institution.(u_email);
           u_phone := assign req.(ui_phone) institution.(u_phone) |} in
      (mkAdminResponse 200 (AInstitution institution),
       mkStore (saveUser institution db.(users)) db.(complaints)
         db.(departments) db.(forwardingRecords))
    end
  end.

End InstitutionAdmin.

(** ** Further vocabulary *)

(** A host with another notifier. *)
Definition withNotifier (h : Host)
    (notifier : string -> Recipient -> SendResult) : Host :=
  mkHost h.(now) h.(tza) notifier h.(newObjectId) h.(newTrackingNumber)
    h.(populateReturnsDocument).

(** The acting user and the addressed complaint of a lifecycle operation. *)
Definition opActor (op : LifecycleOp) : User :=
  match op with
  | StatusUpdate _ req => req.(ur_user)
  | DeadlineUpdate _ req => req.(dr_user)
  | Forward _ req => req.(fr_user)
  end.

Definition opTarget (op : LifecycleOp) : ObjectId :=
  match op with
  | StatusUpdate _ req => req.(ur_complaintId)
  | DeadlineUpdate _ req => req.(dr_id)
  | Forward _ req => req.(fr_complaintId)
  end.

(** The fields of a complaint that are fixed at intake. *)
Definition sameIntake (c c' : Complaint) : Prop :=
  c'.(title) = c.(title) /\ c'.(description) = c.(description)
  /\ c'.(category) = c.(category) /\ c'.(province) = c.(province)
  /\ c'.(district) = c.(district) /\ c'.(citizenId) = c.(citizenId)
  /\ c'.(institutionId) = c.(institutionId)
  /\ c'.(submissionDate) = c.(submissionDate)
  /\ c'.(trackingNumber) = c.(trackingNumber).

(** The assigned department of every complaint is its institution or a
    department of the complaint's district. *)
Definition departmentInDistrict (db : Store) : Prop :=
  forall id c, db.(complaints) !! id = Some c ->
    c.(assignedDepartment) = c.(institutionId)
    \/ exists d, db.(departments) !! c.(assignedDepartment) = Some d
                 /\ d.(d_district) = c.(district).

(** A record made by a forward on a store: its complaint belongs to the
    forwarding institution, and its department lies in the district of the
    complaint. *)
Definition recordJustified (db : Store) (r : ForwardingRecord) : Prop :=
  exists c d,
    db.(complaints) !! r.(complaintId) = Some c
    /\ r.(fromInstitutionId) = c.(institutionId)
    /\ db.(departments) !! r.(toDepartmentId) = Some d
    /\ d.(d_district) = c.(district).

(** ** Date arithmetic *)

Section DateArithmetic.

Import JSDate.

(** The year of a time value as ECMAScript characterises it: the one
    whose first day is the latest not after the day of [t]. *)
Lemma YearFromTime_spec (t : Z) :
  DayFromYear (YearFromTime t) <= Day t < DayFromYear (YearFromTime t + 1).
Proof.
  unfold YearFromTime. generalize (Day t). intros d. cbv zeta.
  destruct (Z.ltb_spec d (DayFromYear (1970 + 400 * d / 146097))) as [H1|H1].
  - unfold DayFromYear in *. Z.div_mod_to_equations. lia.
  - destruct (Z.leb_spec (DayFromYear (1970 + 400 * d / 146097 + 1)) d)
      as [H2|H2]; [|lia].
    unfold DayFromYear in *. Z.div_mod_to_equations. lia.
Qed.

Lemma DaysInYear_spec (y : Z) :
  DayFromYear (y + 1) - DayFromYear y = DaysInYear y.
Proof.
  unfold DaysInYear, DayFromYear.
  repeat match goal with
         | |- context [Z.eqb ?a ?b] => destruct (Z.eqb_spec a b)
         end; simpl; Z.div_mod_to_equations; lia.
Qed.

Lemma DayWithinYear_range (t : Z) :
  0 <= DayWithinYear t < 365 + InLeapYear t.
Proof.
  unfold DayWithinYear, InLeapYear, leapDays.
  pose proof (YearFromTime_spec t) as Hy.
  pose proof (DaysInYear_spec (YearFromTime t)) as Hd.
  assert (Hl : DaysInYear (YearFromTime t) = 365
               \/ DaysInYear (YearFromTime t) = 366)
    by (unfold DaysInYear; repeat case_match; auto).
  destruct (Z.eqb_spec (DaysInYear (YearFromTime t)) 366); lia.
Qed.

(** The day of the month lies between 1 and 31. *)
Lemma DateFromTime_range (t : Z) : 1 <= DateFromTime t <= 31.
Proof.
  pose proof (DayWithinYear_range t) as Hd.
  assert (Hl : InLeapYear t = 0 \/ InLeapYear t = 1)
    by (unfold InLeapYear, leapDays; case_match; auto).
  unfold DateFromTime, MonthFromTime, monthStart.
  repeat match goal with
         | |- context [Z.ltb ?a ?b] => destruct (Z.ltb_spec a b)
         end; simpl; lia.
Qed.

Lemma MonthFromTime_range (t : Z) : 0 <= MonthFromTime t <= 11.
Proof. unfold MonthFromTime. repeat case_match; lia. Qed.

(** For a month in range, [MakeDay] does not carry into the year. *)
Lemma MakeDay_in_year (y m d : Z) :
  0 <= m <= 11 ->
  MakeDay y m d = DayFromYear y + monthStart (leapDays y) m + d - 1.
Proof.
  intros Hm. unfold MakeDay.
  rewrite Z.div_small, Z.mod_small by lia.
  now rewrite Z.add_0_r.
Qed.

(** The day number of a time value, from its calendar date. *)
Lemma MakeDay_DateFromTime (t n : Z) :
  MakeDay (YearFromTime t) (MonthFromTime t) (DateFromTime t + n) = Day t + n.
Proof.
  rewrite MakeDay_in_year by apply MonthFromTime_range.
  unfold DateFromTime, DayWithinYear, InLeapYear. lia.
Qed.

(** Moving the day of the month by [n] moves the instant by [n] days. *)
Lemma setDate_getDate (tza t n : Z) :
  setDate tza t (getDate tza t + n) = t + n * msPerDay.
Proof.
  unfold setDate, getDate. rewrite MakeDay_DateFromTime.
  unfold UTC, MakeDate, LocalTime, Day, TimeWithinDay.
  pose proof (Z.div_mod (t + tza) msPerDay) as E.
  specialize (E ltac:(discriminate)). lia.
Qed.

End DateArithmetic.

(** ** The deadline policy *)

(** C7. For every category, the deadline computed at instant [now] is
    [now] plus 3 whole days for WATER and ELECTRICITY, 2 days for
    PUBLIC_SAFETY, 7 days for ROADS and SANITATION and 14 days for every
    other category; the computation is a total function of the category
    and the clock. *)
Theorem calculateResolutionDeadline_policy (h : Host) (category : string) :
  ComplaintController.calculateResolutionDeadline h category
  = h.(now) + policyDays category * JSDate.msPerDay.
Proof.
  unfold ComplaintController.calculateResolutionDeadline.
  destruct (String.eqb_spec category "WATER") as [->|HW];
    [simpl; now rewrite setDate_getDate|].
  destruct (String.eqb_spec category "ELECTRICITY") as [->|HE];
    [simpl; now rewrite setDate_getDate|].
  destruct (String.eqb_spec category "PUBLIC_SAFETY") as [->|HP];
    [simpl; now rewrite setDate_getDate|].
  destruct (String.eqb_spec category "ROADS") as [->|HR];
    [simpl; now rewrite setDate_getDate|].
  destruct (String.eqb_spec category "SANITATION") as [->|HS];
    [simpl; now rewrite setDate_getDate|].
  simpl. rewrite setDate_getDate. unfold policyDays.
  rewrite !bool_decide_eq_false_2; [reflexivity| | |];
    rewrite ?elem_of_cons, ?elem_of_nil; tauto.
Qed.

(** ** The lifecycle of a complaint *)

Section Lifecycle.

Import ComplaintController.

(** What a status update leaves in the store: nothing new, or the
    addressed complaint with the new status, stamped with the current
    instant when that status is RESOLVED and with its old resolution
    timestamp otherwise. *)
Lemma updateComplaintStatus_store (h : Host) (req : StatusRequest) (db : Store) :
  snd (updateComplaintStatus h req db) = db \/
  exists c c',
    db.(complaints) !! req.(ur_complaintId) = Some c
    /\ snd (updateComplaintStatus h req db)
       = saveComplaint req.(ur_complaintId) c' db
    /\ c'.(status) = req.(ur_status)
    /\ c'.(resolutionDate)
       = if (req.(ur_status) =? "RESOLVED")%string
         then Some h.(now) else c.(resolutionDate).
Proof.
  unfold updateComplaintStatus.
  destruct (negb _); [now left|].
  destruct (complaints db !! ur_complaintId req) as [c|] eqn:Hc; [|now left].
  destruct (negb _); [now left|].
  destruct (ur_status req =? "RESOLVED")%string eqn:Hs;
    destruct (ur_resolutionDeadline req) as [d|]; simpl;
    destruct (validStatus (ur_status req)); simpl; auto;
    right; eexists c, _; (split; [reflexivity|]); (split; [reflexivity|]);
    simpl; auto.
Qed.

Lemma findOwnedComplaint_Some (db : Store) (id userId : N) (c : Complaint) :
  findOwnedComplaint db id userId = Some c <->
  db.(complaints) !! id = Some c /\ c.(institutionId) = userId.
Proof.
  unfold findOwnedComplaint.
  destruct (complaints db !! id) as [c0|];
    [|split; [discriminate|intros [? _]; discriminate]].
  destruct (N.eqb_spec (institutionId c0) userId) as [E|E]; split.
  - intros [= ->]. auto.
  - intros [[= ->] _]. reflexivity.
  - discriminate.
  - intros [[= ->] E']. contradiction.
Qed.

(** A deadline update touches neither the status nor the resolution
    timestamp. *)
Lemma updateComplaintDeadline_store (h : Host) (req : DeadlineRequest) (db : Store) :
  snd (updateComplaintDeadline h req db) = db \/
  exists c c',
    db.(complaints) !! req.(dr_id) = Some c
    /\ snd (updateComplaintDeadline h req db) = saveComplaint req.(dr_id) c' db
    /\ c'.(status) = c.(status)
    /\ c'.(resolutionDate) = c.(resolutionDate).
Proof.
  unfold updateComplaintDeadline.
  destruct (dr_newDeadline req) as [d|]; [|now left].
  destruct (d <? now h); [now left|].
  destruct (findOwnedComplaint _ _ _) as [c|] eqn:Hc; [|now left].
  apply findOwnedComplaint_Some in Hc as [Hc _].
  right. exists c, (setResolutionDeadline d c). auto.
Qed.

(** A forward sets the status to IN_PROGRESS and keeps the resolution
    timestamp as it is. *)
Lemma forwardComplaint_store (h : Host) (req : ForwardRequest) (db : Store) :
  snd (forwardComplaint h req db) = db \/
  exists c c',
    db.(complaints) !! req.(fr_complaintId) = Some c
    /\ (snd (forwardComplaint h req db)).(complaints)
       = <[req.(fr_complaintId) := c']> db.(complaints)
    /\ c'.(status) = "IN_PROGRESS"
    /\ c'.(resolutionDate) = c.(resolutionDate).
Proof.
  unfold forwardComplaint.
  destruct (fr_errors req); [|now left].
  destruct (findOwnedComplaint _ _ _) as [c|] eqn:Hc; [|now left].
  apply findOwnedComplaint_Some in Hc as [Hc _].
  destruct (departments db !! fr_departmentId req) as [d|]; [|now left].
  destruct (negb _); [now left|].
  right. eexists c, _. split; [exact Hc|].
  destruct (populateReturnsDocument h); (split; [reflexivity|]); auto.
Qed.

(** Every lifecycle operation leaves the complaints as they are, or
    replaces one of them by a complaint that is stamped when it is
    resolved, provided the replaced one was, and that keeps a stamp the
    replaced one had. *)
Lemma applyOp_complaints (db : Store) (op : LifecycleOp) :
  (applyOp db op).(complaints) = db.(complaints) \/
  exists id c c',
    db.(complaints) !! id = Some c
    /\ (applyOp db op).(complaints) = <[id := c']> db.(complaints)
    /\ ((c.(status) = "RESOLVED" -> is_Some c.(resolutionDate)) ->
        c'.(status) = "RESOLVED" -> is_Some c'.(resolutionDate))
    /\ (is_Some c.(resolutionDate) -> is_Some c'.(resolutionDate)).
Proof.
  destruct op as [h req|h req|h req]; simpl.
  - destruct (updateComplaintStatus_store h req db)
      as [->|(c & c' & Hc & -> & Hs & Hd)]; [now left|].
    right. exists (ur_complaintId req), c, c'.
    split; [exact Hc|]. split; [reflexivity|]. rewrite Hd, Hs.
    destruct (String.eqb_spec (ur_status req) "RESOLVED"); split; eauto.
    intros _ ?. contradiction.
  - destruct (updateComplaintDeadline_store h req db)
      as [->|(c & c' & Hc & -> & Hs & Hd)]; [now left|].
    right. exists (dr_id req), c, c'.
    split; [exact Hc|]. split; [reflexivity|]. rewrite Hd, Hs. auto.
  - destruct (forwardComplaint_store h req db)
      as [->|(c & c' & Hc & -> & Hs & Hd)]; [now left|].
    right. exists (fr_complaintId req), c, c'.
    split; [exact Hc|]. split; [reflexivity|]. rewrite Hd, Hs.
    split; [discriminate|auto].
Qed.

Lemma applyOp_resolvedIsStamped (db : Store) (op : LifecycleOp) :
  resolvedIsStamped db -> resolvedIsStamped (applyOp db op).
Proof.
  intros Hdb id c1.
  destruct (applyOp_complaints db op)
    as [->|(id0 & c & c' & Hc & -> & Hr & _)]; [apply Hdb|].
  destruct (decide (id0 = id)) as [->|Hne].
  - rewrite lookup_insert_eq. intros [= <-]. apply Hr, (Hdb id c Hc).
  - rewrite lookup_insert_ne by done. apply Hdb.
Qed.

Lemma applyOp_stampsKept (db : Store) (op : LifecycleOp) :
  stampsKept db (applyOp db op).
Proof.
  intros id c1 Hc1 Hs.
  destruct (applyOp_complaints db op)
    as [->|(id0 & c & c' & Hc & -> & _ & Hk)]; [eauto|].
  destruct (decide (id0 = id)) as [->|Hne].
  - rewrite lookup_insert_eq. exists c'. split; [reflexivity|].
    apply Hk. congruence.
  - rewrite lookup_insert_ne by done. eauto.
Qed.

Lemma stampsKept_trans (db1 db2 db3 : Store) :
  stampsKept db1 db2 -> stampsKept db2 db3 -> stampsKept db1 db3.
Proof.
  intros H12 H23 id c Hc Hs.
  destruct (H12 id c Hc Hs) as (c2 & Hc2 & Hs2). eauto.
Qed.

(** C1, as the code has it. Along every sequence of status updates,
    deadline updates and forwards, a complaint whose status is RESOLVED
    has a resolution timestamp, and a resolution timestamp once set stays
    set; the converse direction of the invariant is not maintained, since
    no operation clears the timestamp of a complaint that leaves
    RESOLVED. *)
Theorem lifecycle_keeps_resolved_stamped (ops : list LifecycleOp) (db : Store) :
  resolvedIsStamped db ->
  resolvedIsStamped (applyOps ops db) /\ stampsKept db (applyOps ops db).
Proof.
  unfold applyOps. revert db.
  induction ops as [|op ops IH]; intros db Hdb; simpl.
  - split; [exact Hdb|]. intros id c Hc Hs. eauto.
  - destruct (IH (applyOp db op) (applyOp_resolvedIsStamped db op Hdb))
      as [Hr Hk].
    split; [exact Hr|].
    eapply stampsKept_trans; [apply applyOp_stampsKept|exact Hk].
Qed.

End Lifecycle.

(** Intake creates a PENDING complaint without a resolution timestamp,
    so the stores that intake builds satisfy the invariant's half. *)
Lemma submitComplaint_resolvedIsStamped (h : Host) (req : SubmitRequest)
    (db : Store) :
  resolvedIsStamped db ->
  resolvedIsStamped (snd (ComplaintController.submitComplaint h req db)).
Proof.
  intros Hdb. unfold ComplaintController.submitComplaint.
  destruct (sr_errors req); [|exact Hdb].
  destruct (negb _); [exact Hdb|].
  destruct (ComplaintController.findAppropriateInstitution _ _ _ _) as [i|];
    [|exact Hdb].
  intros id c. simpl.
  destruct (decide (newObjectId h = id)) as [->|Hne].
  - rewrite lookup_insert_eq. intros [= <-]. discriminate.
  - rewrite lookup_insert_ne by done. apply Hdb.
Qed.

(** The store of the scenario after intake, and after the resolution. *)
Lemma db1_complaints :
  Scenario.db1.(complaints) = {[ 100%N := Scenario.submitted ]}.
Proof. vm_compute. reflexivity. Qed.

Lemma db2_complaints :
  Scenario.db2.(complaints) = {[ 100%N := Scenario.resolved ]}.
Proof. vm_compute. reflexivity. Qed.

Lemma db1_timestampIffResolved : timestampIffResolved Scenario.db1.
Proof.
  intros id c. rewrite db1_complaints.
  intros [_ <-]%lookup_singleton_Some. simpl.
  split; [intros [t [=]]|discriminate].
Qed.

(** C1, counterexample. The submitted complaint of the scenario satisfies
    the invariant; once it is resolved, a forward leaves it IN_PROGRESS and
    a status update leaves it PENDING, both with the resolution timestamp
    of the resolution, so the invariant fails after either sequence. *)
Lemma lifecycle_invariant_broken :
  timestampIffResolved Scenario.db1
  /\ ~ timestampIffResolved
         (applyOps [StatusUpdate (Scenario.host Scenario.t1 true) Scenario.resolveRequest;
                    Forward (Scenario.host Scenario.t2 true) Scenario.forwardRequest]
            Scenario.db1)
  /\ ~ timestampIffResolved
         (applyOps [StatusUpdate (Scenario.host Scenario.t1 true) Scenario.resolveRequest;
                    StatusUpdate (Scenario.host Scenario.t2 true) Scenario.reopenRequest]
            Scenario.db1).
Proof.
  split; [exact db1_timestampIffResolved|].
  split; intros Hinv.
  - pose (c := setStatus "IN_PROGRESS"
                 (setAssignedDepartment 30%N Scenario.resolved)).
    destruct (Hinv 100%N c) as [Hstamp _]; [vm_compute; reflexivity|].
    specialize (Hstamp (ex_intro _ Scenario.t1 eq_refl)). discriminate Hstamp.
  - pose (c := setStatus "PENDING" Scenario.resolved).
    destruct (Hinv 100%N c) as [Hstamp _]; [vm_compute; reflexivity|].
    specialize (Hstamp (ex_intro _ Scenario.t1 eq_refl)). discriminate Hstamp.
Qed.

Lemma lifecycle_keeps_resolved_stamped_witness :
  resolvedIsStamped Scenario.db1
  /\ resolvedIsStamped
       (applyOps [StatusUpdate (Scenario.host Scenario.t1 true) Scenario.resolveRequest;
                  Forward (Scenario.host Scenario.t2 true) Scenario.forwardRequest]
          Scenario.db1)
  /\ stampsKept Scenario.db1
       (applyOps [StatusUpdate (Scenario.host Scenario.t1 true) Scenario.resolveRequest;
                  Forward (Scenario.host Scenario.t2 true) Scenario.forwardRequest]
          Scenario.db1).
Proof.
  assert (H : resolvedIsStamped Scenario.db1).
  { intros id c Hc Hs. apply (db1_timestampIffResolved id c Hc), Hs. }
  split; [exact H|].
  apply (lifecycle_keeps_resolved_stamped _ Scenario.db1 H).
Defined.

(** ** Status updates *)

(** A status update by the owning institution with a status of the
    schema succeeds: it answers 200 with the notification status and
    saves the complaint with the new status, the resolution timestamp of
    the current instant when that status is RESOLVED, and the new deadline
    when the request has one. *)
Lemma updateComplaintStatus_success (h : Host) (req : StatusRequest)
    (db : Store) (c : Complaint) :
  req.(ur_user).(u_role) = "institution" ->
  db.(complaints) !! req.(ur_complaintId) = Some c ->
  c.(institutionId) = req.(ur_user).(u_id) ->
  validStatus req.(ur_status) = true ->
  exists c' ok errs,
    ComplaintController.updateComplaintStatus h req db
    = (json (ComplaintUpdated c' ok errs),
       saveComplaint req.(ur_complaintId) c' db)
    /\ (ok = true <-> errs = [])
    /\ c'.(status) = req.(ur_status)
    /\ c'.(resolutionDate)
       = (if (req.(ur_status) =? "RESOLVED")%string
          then Some h.(now) else c.(resolutionDate))
    /\ c'.(resolutionDeadline)
       = match req.(ur_resolutionDeadline) with
         | Some d => Some d
         | None => c.(resolutionDeadline)
         end.
Proof.
  intros Hrole Hc Hown Hvalid.
  unfold ComplaintController.updateComplaintStatus.
  rewrite Hrole, Hc, Hown, N.eqb_refl. simpl.
  destruct (ur_status req =? "RESOLVED")%string;
    destruct (ur_resolutionDeadline req) as [d|]; simpl;
    rewrite Hvalid; eexists _, _, _; (split; [reflexivity|]);
    (split; [|simpl; now auto]);
    first [ now split
          | match goal with
            | |- match ?l with [] => _ | _ => _ end = _ <-> _ =>
              destruct l; split; (reflexivity || discriminate)
            end ].
Qed.

(** C2, counterexample. The complaint of the scenario was resolved at
    [t1]; a second update to RESOLVED at [t2] replaces its resolution
    timestamp by [t2]. *)
Lemma reresolve_restamps :
  Scenario.db2.(complaints) !! 100%N = Some Scenario.resolved
  /\ Scenario.resolved.(status) = "RESOLVED"
  /\ Scenario.resolved.(resolutionDate) = Some Scenario.t1
  /\ resolutionDate <$>
       (snd (ComplaintController.updateComplaintStatus
               (Scenario.host Scenario.t2 true) Scenario.resolveRequest
               Scenario.db2)).(complaints) !! 100%N
     = Some (Some Scenario.t2)
  /\ Scenario.t2 <> Scenario.t1.
Proof. repeat split; vm_compute; congruence. Qed.

(** C2, as the code has it. A status update to RESOLVED on a complaint
    that is already RESOLVED with resolution timestamp [t] succeeds, leaves
    the status RESOLVED and sets the resolution timestamp to the instant of
    this update; the timestamp is [t] afterwards only if the update
    happens at the instant [t] itself. *)
Theorem reresolve_stamps_current_instant (h : Host) (req : StatusRequest)
    (db : Store) (c : Complaint) (t : Z) :
  req.(ur_user).(u_role) = "institution" ->
  db.(complaints) !! req.(ur_complaintId) = Some c ->
  c.(institutionId) = req.(ur_user).(u_id) ->
  c.(status) = "RESOLVED" ->
  c.(resolutionDate) = Some t ->
  req.(ur_status) = "RESOLVED" ->
  exists c',
    (fst (ComplaintController.updateComplaintStatus h req db)).(statusCode) = 200
    /\ (snd (ComplaintController.updateComplaintStatus h req db)).(complaints)
         !! req.(ur_complaintId) = Some c'
    /\ c'.(status) = "RESOLVED"
    /\ c'.(resolutionDate) = Some h.(now)
    /\ (c'.(resolutionDate) = Some t <-> h.(now) = t).
Proof.
  intros Hrole Hc Hown _ _ Hs.
  destruct (updateComplaintStatus_success h req db c Hrole Hc Hown)
    as (c' & ok & errs & -> & _ & Hs' & Hd & _); [now rewrite Hs|].
  rewrite Hs in Hs', Hd. simpl in Hd.
  exists c'. simpl. rewrite lookup_insert_eq, Hd.
  repeat split; auto; congruence.
Qed.

Lemma reresolve_stamps_current_instant_witness :
  exists c',
    (fst (ComplaintController.updateComplaintStatus
            (Scenario.host Scenario.t2 true) Scenario.resolveRequest
            Scenario.db2)).(statusCode) = 200
    /\ (snd (ComplaintController.updateComplaintStatus
               (Scenario.host Scenario.t2 true) Scenario.resolveRequest
               Scenario.db2)).(complaints) !! 100%N = Some c'
    /\ c'.(status) = "RESOLVED"
    /\ c'.(resolutionDate) = Some Scenario.t2
    /\ (c'.(resolutionDate) = Some Scenario.t1 <-> Scenario.t2 = Scenario.t1).
Proof.
  apply (reresolve_stamps_current_instant (Scenario.host Scenario.t2 true)
           Scenario.resolveRequest Scenario.db2 Scenario.resolved Scenario.t1);
    vm_compute; reflexivity.
Defined.

(** ** Deadline updates *)

(** The deadline update on a complaint of the acting institution: a
    deadline before the current instant is refused, any other is saved. *)
Lemma updateComplaintDeadline_owned (h : Host) (req : DeadlineRequest)
    (db : Store) (c : Complaint) (d : Z) :
  db.(complaints) !! req.(dr_id) = Some c ->
  c.(institutionId) = req.(dr_user).(u_id) ->
  req.(dr_newDeadline) = Some d ->
  ComplaintController.updateComplaintDeadline h req db
  = if d <? h.(now)
    then (mkResponse 400 (Message "Invalid deadline. Deadline must be a future date"), db)
    else (json (DeadlineUpdated (setResolutionDeadline d c)),
          saveComplaint req.(dr_id) (setResolutionDeadline d c) db).
Proof.
  intros Hc Hown Hd. unfold ComplaintController.updateComplaintDeadline.
  rewrite Hd. destruct (d <? now h); [reflexivity|].
  replace (ComplaintController.findOwnedComplaint db (dr_id req) (u_id (dr_user req)))
    with (Some c); [reflexivity|].
  symmetry. now apply findOwnedComplaint_Some.
Qed.

(** C3, at the boundary. For a complaint of the acting institution, a
    deadline before the current instant is rejected with the validation
    error and a deadline after it is accepted and saved, as the claim
    says; a deadline equal to the current instant, which the claim has
    rejected, is accepted and saved as well. *)
Theorem updateComplaintDeadline_boundary (h : Host) (req : DeadlineRequest)
    (db : Store) (c : Complaint) (d : Z) :
  db.(complaints) !! req.(dr_id) = Some c ->
  c.(institutionId) = req.(dr_user).(u_id) ->
  req.(dr_newDeadline) = Some d ->
  (d < h.(now) ->
     ComplaintController.updateComplaintDeadline h req db
     = (mkResponse 400 (Message "Invalid deadline. Deadline must be a future date"), db))
  /\ (h.(now) <= d ->
      (fst (ComplaintController.updateComplaintDeadline h req db)).(statusCode) = 200
      /\ resolutionDeadline <$>
           (snd (ComplaintController.updateComplaintDeadline h req db)).(complaints)
             !! req.(dr_id)
         = Some (Some d)).
Proof.
  intros Hc Hown Hd.
  rewrite (updateComplaintDeadline_owned h req db c d Hc Hown Hd).
  split; intros Hcmp.
  - apply Z.ltb_lt in Hcmp. now rewrite Hcmp.
  - apply Z.ltb_ge in Hcmp. rewrite Hcmp. simpl.
    now rewrite lookup_insert_eq.
Qed.

Lemma updateComplaintDeadline_boundary_witness :
  (fst (ComplaintController.updateComplaintDeadline (Scenario.host Scenario.t1 true)
          (mkDeadlineRequest Scenario.wasac 100%N (Some Scenario.t1))
          Scenario.db1)).(statusCode) = 200
  /\ resolutionDeadline <$>
       (snd (ComplaintController.updateComplaintDeadline (Scenario.host Scenario.t1 true)
               (mkDeadlineRequest Scenario.wasac 100%N (Some Scenario.t1))
               Scenario.db1)).(complaints) !! 100%N
     = Some (Some Scenario.t1).
Proof.
  apply (updateComplaintDeadline_boundary (Scenario.host Scenario.t1 true)
           (mkDeadlineRequest Scenario.wasac 100%N (Some Scenario.t1))
           Scenario.db1 Scenario.submitted Scenario.t1);
    vm_compute; (reflexivity || discriminate).
Defined.

(** C10. A status update by the owning institution that carries a new
    resolution deadline succeeds and saves that deadline whatever its
    relation to the current instant; for a deadline in the past, the
    dedicated deadline update of the same institution on the same
    complaint answers with its validation error instead. *)
Theorem status_update_saves_unchecked_deadline (h : Host) (req : StatusRequest)
    (db : Store) (c : Complaint) (d : Z) :
  req.(ur_user).(u_role) = "institution" ->
  db.(complaints) !! req.(ur_complaintId) = Some c ->
  c.(institutionId) = req.(ur_user).(u_id) ->
  validStatus req.(ur_status) = true ->
  req.(ur_resolutionDeadline) = Some d ->
  (fst (ComplaintController.updateComplaintStatus h req db)).(statusCode) = 200
  /\ resolutionDeadline <$>
       (snd (ComplaintController.updateComplaintStatus h req db)).(complaints)
         !! req.(ur_complaintId)
     = Some (Some d)
  /\ (d < h.(now) ->
      ComplaintController.updateComplaintDeadline h
        (mkDeadlineRequest req.(ur_user) req.(ur_complaintId) (Some d)) db
      = (mkResponse 400 (Message "Invalid deadline. Deadline must be a future date"), db)).
Proof.
  intros Hrole Hc Hown Hvalid Hd.
  destruct (updateComplaintStatus_success h req db c Hrole Hc Hown Hvalid)
    as (c' & ok & errs & -> & _ & _ & _ & Hdl).
  rewrite Hd in Hdl. simpl. rewrite lookup_insert_eq. simpl. rewrite Hdl.
  repeat split. intros Hpast.
  rewrite (updateComplaintDeadline_owned h
             (mkDeadlineRequest (ur_user req) (ur_complaintId req) (Some d))
             db c d Hc Hown eq_refl).
  apply Z.ltb_lt in Hpast. now rewrite Hpast.
Qed.

Lemma status_update_saves_unchecked_deadline_witness :
  (fst (ComplaintController.updateComplaintStatus (Scenario.host Scenario.t1 true)
          (mkStatusRequest Scenario.wasac 100%N "IN_PROGRESS" (Some 0))
          Scenario.db1)).(statusCode) = 200
  /\ resolutionDeadline <$>
       (snd (ComplaintController.updateComplaintStatus (Scenario.host Scenario.t1 true)
               (mkStatusRequest Scenario.wasac 100%N "IN_PROGRESS" (Some 0))
               Scenario.db1)).(complaints) !! 100%N
     = Some (Some 0)
  /\ (0 < Scenario.t1 ->
      ComplaintController.updateComplaintDeadline (Scenario.host Scenario.t1 true)
        (mkDeadlineRequest Scenario.wasac 100%N (Some 0)) Scenario.db1
      = (mkResponse 400 (Message "Invalid deadline. Deadline must be a future date"),
         Scenario.db1)).
Proof.
  apply (status_update_saves_unchecked_deadline (Scenario.host Scenario.t1 true)
           (mkStatusRequest Scenario.wasac 100%N "IN_PROGRESS" (Some 0))
           Scenario.db1 Scenario.submitted 0);
    vm_compute; reflexivity.
Defined.

(** ** Forwarding *)

(** A forward whose preconditions hold saves the record and the
    complaint; its answer then depends on the chained populate alone: the
    forwarding record with [emailSent: true] where it resolves, the 500 of
    the handler's [catch] where it throws. *)
Lemma forwardComplaint_success (h : Host) (req : ForwardRequest) (db : Store)
    (c : Complaint) (d : DistrictDepartment) :
  req.(fr_errors) = [] ->
  db.(complaints) !! req.(fr_complaintId) = Some c ->
  c.(institutionId) = req.(fr_user).(u_id) ->
  db.(departments) !! req.(fr_departmentId) = Some d ->
  d.(d_district) = c.(district) ->
  ComplaintController.forwardComplaint h req db
  = let r := mkForwardingRecord req.(fr_complaintId) req.(fr_user).(u_id)
               req.(fr_departmentId) req.(fr_forwardingNote) in
    (if h.(populateReturnsDocument)
     then json (ComplaintForwarded r true)
     else mkResponse 500 (ServerError "Error forwarding complaint"),
     mkStore db.(users)
       (<[req.(fr_complaintId) :=
            setStatus "IN_PROGRESS"
              (setAssignedDepartment req.(fr_departmentId) c)]> db.(complaints))
       db.(departments)
       (db.(forwardingRecords) ++ [r])).
Proof.
  intros He Hc Hown Hd Hdist. unfold ComplaintController.forwardComplaint.
  rewrite He.
  replace (ComplaintController.findOwnedComplaint db (fr_complaintId req)
             (u_id (fr_user req))) with (Some c)
    by (symmetry; now apply findOwnedComplaint_Some).
  rewrite Hd, Hdist, String.eqb_refl. simpl.
  now destruct (populateReturnsDocument h).
Qed.

(** A forward that is answered 200 has passed its checks. *)
Lemma forwardComplaint_answered (h : Host) (req : ForwardRequest) (db : Store) :
  (fst (ComplaintController.forwardComplaint h req db)).(statusCode) = 200 ->
  req.(fr_errors) = []
  /\ exists c d,
       db.(complaints) !! req.(fr_complaintId) = Some c
       /\ c.(institutionId) = req.(fr_user).(u_id)
       /\ db.(departments) !! req.(fr_departmentId) = Some d
       /\ d.(d_district) = c.(district).
Proof.
  unfold ComplaintController.forwardComplaint.
  destruct (fr_errors req); [|discriminate].
  destruct (ComplaintController.findOwnedComplaint _ _ _) as [c|] eqn:Hc;
    [|discriminate].
  apply findOwnedComplaint_Some in Hc as [Hc Hown].
  destruct (departments db !! fr_departmentId req) as [d|]; [|discriminate].
  destruct (String.eqb_spec (d_district d) (district c)) as [Hdist|_];
    [|discriminate].
  intros _. split; [reflexivity|]. exists c, d. auto.
Qed.

(** C4. A forward that passes its checks (as every forward that is
    answered 200 has), whatever the status of the complaint before it,
    appends exactly one forwarding record (for this complaint, institution,
    department and note) to the records and leaves the complaint assigned
    to the target department with status IN_PROGRESS; where the chained
    populate of the handler resolves, the answer is that record. *)
Theorem forwardComplaint_effect (h : Host) (req : ForwardRequest) (db : Store)
    (c : Complaint) (d : DistrictDepartment) :
  req.(fr_errors) = [] ->
  db.(complaints) !! req.(fr_complaintId) = Some c ->
  c.(institutionId) = req.(fr_user).(u_id) ->
  db.(departments) !! req.(fr_departmentId) = Some d ->
  d.(d_district) = c.(district) ->
  let r := mkForwardingRecord req.(fr_complaintId) req.(fr_user).(u_id)
             req.(fr_departmentId) req.(fr_forwardingNote) in
  let db' := snd (ComplaintController.forwardComplaint h req db) in
  db'.(forwardingRecords) = db.(forwardingRecords) ++ [r]
  /\ length db'.(forwardingRecords) = S (length db.(forwardingRecords))
  /\ (exists c',
        db'.(complaints) !! req.(fr_complaintId) = Some c'
        /\ c'.(assignedDepartment) = req.(fr_departmentId)
        /\ c'.(status) = "IN_PROGRESS")
  /\ (h.(populateReturnsDocument) = true ->
      fst (ComplaintController.forwardComplaint h req db)
      = json (ComplaintForwarded r true)).
Proof.
  intros He Hc Hown Hd Hdist r db'. subst db'.
  rewrite (forwardComplaint_success h req db c d He Hc Hown Hd Hdist).
  simpl. repeat split.
  - rewrite length_app. simpl. lia.
  - eexists. rewrite lookup_insert_eq. repeat split.
  - intros ->. reflexivity.
Qed.

(** The forward of the resolved complaint of the scenario. *)
Lemma forwardComplaint_effect_witness :
  Scenario.resolved.(status) = "RESOLVED"
  /\ let db' := snd (ComplaintController.forwardComplaint
                       (Scenario.legacyHost Scenario.t2 true)
                       Scenario.forwardRequest Scenario.db2) in
     db'.(forwardingRecords)
     = Scenario.db2.(forwardingRecords)
       ++ [mkForwardingRecord 100%N 10%N 30%N "Please check the main valve"]
     /\ length db'.(forwardingRecords) = S (length Scenario.db2.(forwardingRecords))
     /\ (exists c',
           db'.(complaints) !! 100%N = Some c'
           /\ c'.(assignedDepartment) = 30%N
           /\ c'.(status) = "IN_PROGRESS")
     /\ (true = true ->
         fst (ComplaintController.forwardComplaint
                (Scenario.legacyHost Scenario.t2 true)
                Scenario.forwardRequest Scenario.db2)
         = json (ComplaintForwarded
                   (mkForwardingRecord 100%N 10%N 30%N
                      "Please check the main valve") true)).
Proof.
  split; [reflexivity|].
  apply (forwardComplaint_effect (Scenario.legacyHost Scenario.t2 true)
           Scenario.forwardRequest Scenario.db2 Scenario.resolved
           Scenario.waterDepartment);
    vm_compute; reflexivity.
Defined.

(** C5. A forward with a well-formed request checks its preconditions in
    order: a complaint that is missing or belongs to another institution
    gives one and the same 404 answer; otherwise a missing department gives
    a second 404 answer; otherwise a department of another district gives a
    400 answer; the three answers differ, and in each case the store, with
    its complaints and forwarding records, is left as it was. *)
Theorem forwardComplaint_preconditions (h : Host) (req : ForwardRequest)
    (db : Store) :
  req.(fr_errors) = [] ->
  let notFound :=
    mkResponse 404
      (Message "Complaint not found or you do not have permission to forward it") in
  let noDepartment := mkResponse 404 (Message "District department not found") in
  let crossDistrict :=
    mkResponse 400
      (Message "Department must be in the same district as the complaint") in
  (db.(complaints) !! req.(fr_complaintId) = None ->
     ComplaintController.forwardComplaint h req db = (notFound, db))
  /\ (forall c, db.(complaints) !! req.(fr_complaintId) = Some c ->
        c.(institutionId) <> req.(fr_user).(u_id) ->
        ComplaintController.forwardComplaint h req db = (notFound, db))
  /\ (forall c, db.(complaints) !! req.(fr_complaintId) = Some c ->
        c.(institutionId) = req.(fr_user).(u_id) ->
        db.(departments) !! req.(fr_departmentId) = None ->
        ComplaintController.forwardComplaint h req db = (noDepartment, db))
  /\ (forall c d, db.(complaints) !! req.(fr_complaintId) = Some c ->
        c.(institutionId) = req.(fr_user).(u_id) ->
        db.(departments) !! req.(fr_departmentId) = Some d ->
        d.(d_district) <> c.(district) ->
        ComplaintController.forwardComplaint h req db = (crossDistrict, db))
  /\ notFound <> noDepartment
  /\ notFound <> crossDistrict
  /\ noDepartment <> crossDistrict.
Proof.
  intros He notFound noDepartment crossDistrict.
  unfold ComplaintController.forwardComplaint,
    ComplaintController.findOwnedComplaint. rewrite He.
  repeat split; try discriminate.
  - intros ->. reflexivity.
  - intros c -> Hown. apply N.eqb_neq in Hown. now rewrite Hown.
  - intros c -> -> ->. now rewrite N.eqb_refl.
  - intros c d -> -> -> Hdist. rewrite N.eqb_refl.
    apply String.eqb_neq in Hdist. now rewrite Hdist.
Qed.

(** Another institution, a missing department and a department of another
    district, on the stored complaint of the scenario. *)
Lemma forwardComplaint_preconditions_witness :
  ComplaintController.forwardComplaint (Scenario.host Scenario.t1 true)
    (mkForwardRequest Scenario.reg [] 100%N 30%N "") Scenario.db1
  = (mkResponse 404
       (Message "Complaint not found or you do not have permission to forward it"),
     Scenario.db1)
  /\ ComplaintController.forwardComplaint (Scenario.host Scenario.t1 true)
       (mkForwardRequest Scenario.wasac [] 100%N 32%N "") Scenario.db1
     = (mkResponse 404 (Message "District department not found"), Scenario.db1)
  /\ ComplaintController.forwardComplaint (Scenario.host Scenario.t1 true)
       (mkForwardRequest Scenario.wasac [] 100%N 31%N "") Scenario.db1
     = (mkResponse 400
          (Message "Department must be in the same district as the complaint"),
        Scenario.db1).
Proof.
  split; [|split].
  - apply (forwardComplaint_preconditions (Scenario.host Scenario.t1 true)
             (mkForwardRequest Scenario.reg [] 100%N 30%N "") Scenario.db1
             eq_refl) with (c := Scenario.submitted);
      vm_compute; (reflexivity || discriminate).
  - apply (forwardComplaint_preconditions (Scenario.host Scenario.t1 true)
             (mkForwardRequest Scenario.wasac [] 100%N 32%N "") Scenario.db1
             eq_refl) with (c := Scenario.submitted);
      vm_compute; reflexivity.
  - apply (forwardComplaint_preconditions (Scenario.host Scenario.t1 true)
             (mkForwardRequest Scenario.wasac [] 100%N 31%N "") Scenario.db1
             eq_refl) with (c := Scenario.submitted) (d := Scenario.roadsDepartment);
      vm_compute; (reflexivity || discriminate).
Defined.

(** ** Notification outcomes *)

(** The sibling paths report the outcome of the dispatch. A resolution
    without a new deadline, for a complaint whose citizen is on file,
    succeeds either way, and its [notificationStatus.success] is true
    exactly when the RESOLVED notification was delivered. *)
Lemma updateComplaintStatus_flag_truthful (h : Host) (req : StatusRequest)
    (db : Store) (c : Complaint) (citizen : User) :
  req.(ur_user).(u_role) = "institution" ->
  db.(complaints) !! req.(ur_complaintId) = Some c ->
  c.(institutionId) = req.(ur_user).(u_id) ->
  req.(ur_status) = "RESOLVED" ->
  req.(ur_resolutionDeadline) = None ->
  find (fun u => (u.(u_id) =? c.(citizenId))%N) db.(users) = Some citizen ->
  exists c' ok errs,
    ComplaintController.updateComplaintStatus h req db
    = (json (ComplaintUpdated c' ok errs), saveComplaint req.(ur_complaintId) c' db)
    /\ (ok = true <->
        h.(sendNotification) "RESOLVED"
          (mkRecipient citizen.(u_email) citizen.(u_phone)) = Delivered).
Proof.
  intros Hrole Hc Hown Hs Hd Hcit.
  unfold ComplaintController.updateComplaintStatus,
    ComplaintController.notifyCitizen.
  rewrite Hrole, Hc, Hown, N.eqb_refl, Hs, Hd. simpl. rewrite Hcit.
  destruct (sendNotification h "RESOLVED" _) as [|e]; simpl;
    eexists _, _, _; (split; [reflexivity|]); split; done.
Qed.

(** Intake reports it as well: [notificationSent] is true exactly when
    the SUBMITTED notification was delivered, and the complaint is created
    either way. *)
Lemma submitComplaint_flag_truthful (h : Host) (req : SubmitRequest)
    (db : Store) (institution : User) :
  req.(sr_errors) = [] ->
  req.(sr_user).(u_role) = "citizen" ->
  ComplaintController.findAppropriateInstitution db req.(sr_category)
    req.(sr_province) req.(sr_district) = Some institution ->
  exists c assignedTo sent err,
    ComplaintController.submitComplaint h req db
    = (mkResponse 201
         (ComplaintSubmitted h.(newObjectId) c assignedTo sent err),
       saveComplaint h.(newObjectId) c db)
    /\ (sent = true <->
        h.(sendNotification) "SUBMITTED"
          (mkRecipient req.(sr_user).(u_email) req.(sr_user).(u_phone))
        = Delivered).
Proof.
  intros He Hrole Hi. unfold ComplaintController.submitComplaint.
  rewrite He, Hrole, Hi. simpl.
  destruct (sendNotification h "SUBMITTED" _) as [|e];
    eexists _, _, _, _; (split; [reflexivity|]); split; done.
Qed.

(** C9, on the forwarding path. When the dispatch of the
    COMPLAINT_FORWARDED notification fails, the forward keeps its record
    and its update of the complaint, as the claim says; but its answer is
    the very answer it gives when the notification is delivered, and
    whenever that answer is the forwarding record its flag is [emailSent:
    true] (so it is where the chained populate of the handler resolves):
    the flag does not tell the caller that the dispatch failed. *)
Theorem forwardComplaint_flag_ignores_dispatch (h : Host) (req : ForwardRequest)
    (db : Store) (c : Complaint) (d : DistrictDepartment) (e : string) :
  req.(fr_errors) = [] ->
  db.(complaints) !! req.(fr_complaintId) = Some c ->
  c.(institutionId) = req.(fr_user).(u_id) ->
  db.(departments) !! req.(fr_departmentId) = Some d ->
  d.(d_district) = c.(district) ->
  h.(sendNotification) "COMPLAINT_FORWARDED"
    (mkRecipient d.(d_email) d.(d_phone)) = Rejected e ->
  let r := mkForwardingRecord req.(fr_complaintId) req.(fr_user).(u_id)
             req.(fr_departmentId) req.(fr_forwardingNote) in
  (snd (ComplaintController.forwardComplaint h req db)).(forwardingRecords)
  = db.(forwardingRecords) ++ [r]
  /\ (snd (ComplaintController.forwardComplaint h req db)).(complaints)
       !! req.(fr_complaintId)
     = Some (setStatus "IN_PROGRESS"
               (setAssignedDepartment req.(fr_departmentId) c))
  /\ ComplaintController.forwardComplaint h req db
     = ComplaintController.forwardComplaint
         (withNotifier h (fun _ _ => Delivered)) req db
  /\ (forall r' sent,
        fst (ComplaintController.forwardComplaint h req db)
        = json (ComplaintForwarded r' sent) ->
        sent = true)
  /\ (h.(populateReturnsDocument) = true ->
      fst (ComplaintController.forwardComplaint h req db)
      = json (ComplaintForwarded r true)).
Proof.
  intros He Hc Hown Hd Hdist _ r.
  rewrite (forwardComplaint_success (withNotifier h (fun _ _ => Delivered))
             req db c d He Hc Hown Hd Hdist).
  rewrite (forwardComplaint_success h req db c d He Hc Hown Hd Hdist).
  simpl. rewrite lookup_insert_eq. repeat split.
  - intros r' sent. destruct (populateReturnsDocument h); [|discriminate].
    now intros [= _ <-].
  - intros ->. reflexivity.
Qed.

(** The forward of the scenario with the notifier down, on Mongoose 5. *)
Lemma forwardComplaint_flag_ignores_dispatch_witness :
  sendNotification (Scenario.legacyHost Scenario.t2 false) "COMPLAINT_FORWARDED"
    (mkRecipient Scenario.waterDepartment.(d_email)
       Scenario.waterDepartment.(d_phone))
  = Rejected "connection refused"
  /\ fst (ComplaintController.forwardComplaint
            (Scenario.legacyHost Scenario.t2 false)
            Scenario.forwardRequest Scenario.db2)
     = json (ComplaintForwarded
               (mkForwardingRecord 100%N 10%N 30%N "Please check the main valve")
               true).
Proof.
  split; [reflexivity|].
  apply (forwardComplaint_flag_ignores_dispatch
           (Scenario.legacyHost Scenario.t2 false)
           Scenario.forwardRequest Scenario.db2 Scenario.resolved
           Scenario.waterDepartment "connection refused");
    vm_compute; reflexivity.
Defined.

(** ** Assignment at intake *)

Lemma isInstitutionIn_spec (db : Store) (province district : string) (u : User) :
  u ∈ db.(users) ->
  ComplaintController.isInstitutionIn province district u = true <->
  institutionIn db province district u.
Proof.
  intros Hu. unfold ComplaintController.isInstitutionIn, institutionIn.
  rewrite !andb_true_iff, !String.eqb_eq. tauto.
Qed.

Lemma isInstitutionOf_spec (db : Store) (province : string) (u : User) :
  u ∈ db.(users) ->
  ComplaintController.isInstitutionOf province u = true <->
  institutionOf db province u.
Proof.
  intros Hu. unfold ComplaintController.isInstitutionOf, institutionOf.
  rewrite !andb_true_iff, !String.eqb_eq. tauto.
Qed.

(** [find] answers with an element that passes the test when there is
    one, and with nothing only when there is none. *)
Lemma find_Some_elem {A : Type} (p : A -> bool) (l : list A) (x : A) :
  find p l = Some x -> x ∈ l /\ p x = true.
Proof.
  intros H. apply find_some in H as [Hin Hp].
  split; [now apply list_elem_of_In|exact Hp].
Qed.

Lemma find_None_elem {A : Type} (p : A -> bool) (l : list A) :
  find p l = None <-> forall x, x ∈ l -> p x = false.
Proof.
  split.
  - intros H x Hx. apply (find_none p l H), list_elem_of_In, Hx.
  - induction l as [|a l IH]; intros H; simpl; [reflexivity|].
    rewrite (H a) by apply list_elem_of_here.
    apply IH. intros x Hx. apply H. now apply list_elem_of_further.
Qed.

(** C6. The resolver answers with an institution of the exact province
    and district when the users hold one; without one, with an institution
    of the province when the users hold one; and with nothing when the
    province has no institution, in which case the submission of a
    complaint for that province is answered with an error (404 for a
    well-formed request of a citizen) and creates nothing. The category
    plays no part. *)
Theorem findAppropriateInstitution_fallback (db : Store)
    (category province district : string) :
  ((exists u, institutionIn db province district u) ->
     exists i,
       ComplaintController.findAppropriateInstitution db category province district
       = Some i
       /\ institutionIn db province district i)
  /\ ((forall u, ~ institutionIn db province district u) ->
      (exists u, institutionOf db province u) ->
      exists i,
        ComplaintController.findAppropriateInstitution db category province district
        = Some i
        /\ institutionOf db province i)
  /\ ((forall u, ~ institutionOf db province u) ->
      ComplaintController.findAppropriateInstitution db category province district
      = None
      /\ forall h req,
           req.(sr_category) = category ->
           req.(sr_province) = province ->
           req.(sr_district) = district ->
           snd (ComplaintController.submitComplaint h req db) = db
           /\ (fst (ComplaintController.submitComplaint h req db)).(statusCode) <> 201
           /\ (req.(sr_errors) = [] ->
               req.(sr_user).(u_role) = "citizen" ->
               fst (ComplaintController.submitComplaint h req db)
               = mkResponse 404
                   (Message "No appropriate institution found to handle this complaint"))).
Proof.
  unfold ComplaintController.findAppropriateInstitution.
  split; [|split].
  - intros [u Hu].
    destruct (find _ (users db)) as [i|] eqn:Hf.
    + exists i. split; [reflexivity|].
      apply find_Some_elem in Hf as [Hi Hp]. now apply isInstitutionIn_spec.
    + exfalso. pose proof Hu as [Hin _].
      rewrite find_None_elem in Hf. specialize (Hf u Hin).
      apply (isInstitutionIn_spec db) in Hu; [congruence|exact Hin].
  - intros Hnone [u Hu].
    destruct (find (ComplaintController.isInstitutionIn _ _) (users db))
      as [i|] eqn:Hf.
    + apply find_Some_elem in Hf as [Hi Hp].
      apply (isInstitutionIn_spec db) in Hp; [|exact Hi].
      now destruct (Hnone i).
    + destruct (find (ComplaintController.isInstitutionOf _) (users db))
        as [i|] eqn:Hg.
      * exists i. split; [reflexivity|].
        apply find_Some_elem in Hg as [Hi Hp]. now apply isInstitutionOf_spec.
      * exfalso. pose proof Hu as [Hin _].
        rewrite find_None_elem in Hg. specialize (Hg u Hin).
        apply (isInstitutionOf_spec db) in Hu; [congruence|exact Hin].
  - intros Hnone.
    assert (Hfind : match find (ComplaintController.isInstitutionIn province district)
                            (users db) with
                    | Some institution => Some institution
                    | None => find (ComplaintController.isInstitutionOf province)
                                (users db)
                    end = None).
    { destruct (find (ComplaintController.isInstitutionIn _ _) (users db))
        as [i|] eqn:Hf.
      - apply find_Some_elem in Hf as [Hi Hp].
        apply (isInstitutionIn_spec db) in Hp as (? & ? & ? & ?); [|exact Hi].
        destruct (Hnone i). repeat split; assumption.
      - apply find_None_elem. intros x Hx.
        destruct (ComplaintController.isInstitutionOf province x) eqn:Hp;
          [|reflexivity].
        apply (isInstitutionOf_spec db) in Hp; [|exact Hx].
        now destruct (Hnone x). }
    split; [exact Hfind|].
    intros h req <- <- <-. unfold ComplaintController.submitComplaint,
      ComplaintController.findAppropriateInstitution.
    rewrite Hfind.
    destruct (sr_errors req); [|repeat split; discriminate].
    destruct (negb _) eqn:Hrole; simpl; repeat split; try discriminate.
    intros _ Hcit. rewrite Hcit in Hrole. discriminate.
Qed.

(** The three tiers on the users of the scenario: the exact district, a
    district without an institution of its own, and a province without
    any. *)
Lemma findAppropriateInstitution_fallback_witness :
  ComplaintController.findAppropriateInstitution Scenario.db0 "WATER" "Kigali" "Kicukiro"
  = Some Scenario.reg
  /\ ComplaintController.findAppropriateInstitution Scenario.db0 "WATER" "Kigali" "Nyarugenge"
     = Some Scenario.wasac
  /\ ComplaintController.findAppropriateInstitution Scenario.db0 "WATER" "Huye" "Ngoma"
     = None.
Proof.
  split; [reflexivity|]. split; [reflexivity|].
  apply (findAppropriateInstitution_fallback Scenario.db0 "WATER" "Huye" "Ngoma").
  intros u (Hu & _ & Hp). revert Hp.
  unfold Scenario.db0 in Hu. simpl in Hu.
  rewrite !elem_of_cons, elem_of_nil in Hu.
  destruct Hu as [->|[->|[->|[]]]]; discriminate.
Defined.

(** ** The performance report *)

Section Performance.

Import AdminController.

Lemma distinct_elem (l : list N) (x : N) : x ∈ distinct l -> x ∈ l.
Proof.
  induction l as [|a l IH]; simpl; [trivial|].
  rewrite !elem_of_cons, list_elem_of_filter. tauto.
Qed.

Lemma count_all_pos (l : list Complaint) (c : Complaint) :
  c ∈ l -> 1 <= count (fun _ => true) l.
Proof.
  intros Hc. unfold count.
  assert (Hin : c ∈ filter (fun c0 : Complaint => true = true) l)
    by (apply list_elem_of_filter; auto).
  destruct (filter _ l); [inversion Hin|]. simpl. lia.
Qed.

(** Every document of the [$group] stage stands for at least one
    complaint of its input. *)
Lemma groupStage_nonempty (docs : list Complaint) (g : Group) :
  In g (groupStage docs) ->
  1 <= g.(g_totalComplaints)
  /\ exists c, c ∈ docs /\ c.(institutionId) = g.(g_id).
Proof.
  unfold groupStage. rewrite in_map_iff. intros (k & <- & Hk).
  apply list_elem_of_In, distinct_elem, list_elem_of_In in Hk.
  apply in_map_iff in Hk as (c & Hck & Hc). apply list_elem_of_In in Hc.
  simpl. split; [|now exists c].
  apply (count_all_pos _ c). now apply list_elem_of_filter.
Qed.

(** [$project] on a group that stands for a complaint. *)
Lemma projectStage_nonempty (g : Group) (u : User) :
  1 <= g.(g_totalComplaints) ->
  exists row,
    projectStage g u = Some row
    /\ row.(p_id) = g.(g_id)
    /\ row.(p_totalComplaints) = g.(g_totalComplaints)
    /\ row.(p_resolvedComplaints) = g.(g_resolvedComplaints)
    /\ row.(p_resolutionRate)
       = (inject_Z g.(g_resolvedComplaints) / inject_Z g.(g_totalComplaints) * 100)%Q.
Proof.
  intros Hpos. unfold projectStage, divide.
  destruct (Z.eqb_spec (g_totalComplaints g) 0) as [E|_]; [lia|].
  destruct (Z.eqb_spec (Z.max (g_resolvedComplaints g) 1) 0) as [E|_]; [lia|].
  simpl. eexists. split; [reflexivity|]. simpl. auto.
Qed.

Lemma insertByRate_In (r x : PerformanceRow) (l : list PerformanceRow) :
  In x (insertByRate r l) <-> x = r \/ In x l.
Proof.
  induction l as [|a l IH]; simpl; [intuition|].
  destruct (Qle_bool _ _); simpl; [intuition|]. rewrite IH. intuition.
Qed.

Lemma sortStage_In (x : PerformanceRow) (l : list PerformanceRow) :
  In x (sortStage l) <-> In x l.
Proof.
  unfold sortStage. induction l as [|a l IH]; simpl; [tauto|].
  rewrite insertByRate_In, IH. intuition.
Qed.

Lemma Forall2_In_r {A B : Type} (R : A -> B -> Prop) (l : list A) (k : list B)
    (y : B) :
  Forall2 R l k -> In y k -> exists x, In x l /\ R x y.
Proof.
  induction 1 as [|a b l k Hab _ IH]; simpl; [tauto|].
  intros [<-|Hy]; [eauto|]. destruct (IH Hy) as (x & Hx & Hr). eauto.
Qed.

(** The aggregation over any date filter raises no error, and each of
    its rows belongs to an institution with a matching complaint. *)
Lemma aggregate_rows (db : Store) (f : DateFilter) :
  exists rows,
    aggregate db f = Some rows
    /\ forall row, In row rows ->
         1 <= row.(p_totalComplaints)
         /\ row.(p_resolutionRate)
            = (inject_Z row.(p_resolvedComplaints)
               / inject_Z row.(p_totalComplaints) * 100)%Q
         /\ exists id c,
              db.(complaints) !! id = Some c
              /\ c.(institutionId) = row.(p_id)
              /\ matchStage f c = true.
Proof.
  unfold aggregate.
  set (docs := filter (fun c => matchStage f c = true)
                 (snd <$> map_to_list (complaints db))).
  set (joined := concat (map (lookupStage db) (groupStage docs))).
  assert (Hj : forall gu, In gu joined -> In (fst gu) (groupStage docs)).
  { intros [g u] Hgu. apply in_concat in Hgu as (l & Hl & Hgu).
    apply in_map_iff in Hl as (g0 & <- & Hg0).
    unfold lookupStage in Hgu. apply in_map_iff in Hgu as (u0 & [= <- <-] & _).
    exact Hg0. }
  destruct (mapM (fun gu => projectStage (fst gu) (snd gu)) joined)
    as [rows|] eqn:Hm.
  - exists (sortStage rows). split; [reflexivity|].
    intros row Hrow. apply (proj1 (sortStage_In _ _)) in Hrow.
    apply mapM_Some in Hm.
    destruct (Forall2_In_r _ _ _ row Hm Hrow) as ([g u] & Hgu & Hp).
    simpl in Hp. apply Hj in Hgu. simpl in Hgu.
    apply groupStage_nonempty in Hgu as (Hpos & c & Hc & Hid).
    destruct (projectStage_nonempty g u Hpos)
      as (row' & Hp' & Hrid & Ht & Hr & Hrate).
    rewrite Hp in Hp'. injection Hp' as <-.
    rewrite Ht, Hr, Hrid. repeat split; [exact Hpos|exact Hrate|].
    apply list_elem_of_filter in Hc as [Hmatch Hc].
    apply list_elem_of_fmap in Hc as ([id c0] & -> & Hc).
    apply elem_of_map_to_list in Hc. exists id, c0. auto.
  - exfalso. apply eq_None_not_Some in Hm. apply Hm, mapM_is_Some_2.
    apply Forall_forall. intros [g u] Hgu.
    apply list_elem_of_In, Hj, groupStage_nonempty in Hgu as [Hpos _].
    destruct (projectStage_nonempty g u Hpos) as (row & Hrow & _).
    simpl. rewrite Hrow. eauto.
Qed.

(** The figure of [getInstitutions] is 0 for an institution without
    complaints: the sibling computation carries the guard. *)
Lemma performanceOf_without_complaints (resolvedComplaints : Z) :
  performanceOf 0 resolvedComplaints = 0%Q.
Proof. reflexivity. Qed.

End Performance.

(** C8, counterexample. REG is an institution of the scenario without a
    complaint. The [$project] expression on a group with no complaints
    is an error, not the rate 0; and the report of the last week, which
    has a row for WASAC, has no row for REG, so REG is given no
    resolution rate at all. *)
Lemma resolutionRate_undefined_without_complaints :
  AdminController.projectStage (AdminController.mkGroup 11%N 0 0 0 None) Scenario.reg
  = None
  /\ Scenario.reg ∈ Scenario.db2.(users)
  /\ Scenario.reg.(u_role) = "institution"
  /\ (forall id c, Scenario.db2.(complaints) !! id = Some c ->
        c.(institutionId) <> Scenario.reg.(u_id))
  /\ exists stats rows,
       AdminController.getPerformance (Scenario.host Scenario.t2 true)
         (Some "week") Scenario.db2
       = json (PerformanceReport "week" stats rows)
       /\ map p_id rows = [Scenario.wasac.(u_id)].
Proof.
  split; [reflexivity|].
  split; [vm_compute; apply list_elem_of_further, list_elem_of_here|].
  split; [reflexivity|].
  split.
  - intros id c. rewrite db2_complaints.
    intros [_ <-]%lookup_singleton_Some. discriminate.
  - eexists _, _. split; vm_compute; reflexivity.
Qed.

(** C8, as the code has it. For every time frame the aggregation raises
    no error and is answered with status 200; every row of the report
    belongs to an institution with at least one complaint in the window,
    so its [totalComplaints] is at least 1, and its resolution rate is
    [resolvedComplaints / totalComplaints * 100]. The division has no
    guard of its own: an institution without complaints in the window has
    no row, rather than a row with rate 0. *)
Theorem performance_rate_over_rows (h : Host) (timeframe : option string)
    (db : Store) :
  exists label stats rows,
    AdminController.getPerformance h timeframe db
    = json (PerformanceReport label stats rows)
    /\ forall row, In row rows ->
         1 <= row.(p_totalComplaints)
         /\ row.(p_resolutionRate)
            = (inject_Z row.(p_resolvedComplaints)
               / inject_Z row.(p_totalComplaints) * 100)%Q
         /\ exists id c,
              db.(complaints) !! id = Some c
              /\ c.(institutionId) = row.(p_id)
              /\ AdminController.matchStage
                   (AdminController.dateFilterOf h timeframe) c = true.
Proof.
  unfold AdminController.getPerformance.
  destruct (aggregate_rows db (AdminController.dateFilterOf h timeframe))
    as (rows & -> & Hrows).
  eexists _, _, rows. split; [reflexivity|exact Hrows].
Qed.

(** * Further properties of the code *)

(** ** Shared facts *)

Lemma msPerDay_positive : 0 < JSDate.msPerDay.
Proof. reflexivity. Qed.

(** The deadline of a category, for use below. *)
Lemma calculateResolutionDeadline_days (h : Host) (category : string) :
  exists n,
    ComplaintController.calculateResolutionDeadline h category
    = h.(now) + n * JSDate.msPerDay
    /\ n = policyDays category /\ 2 <= n <= 14.
Proof.
  exists (policyDays category).
  unfold ComplaintController.calculateResolutionDeadline, policyDays.
  rewrite !setDate_getDate.
  destruct (String.eqb_spec category "WATER") as [->|HW];
    [repeat split; vm_compute; congruence|].
  destruct (String.eqb_spec category "ELECTRICITY") as [->|HE];
    [repeat split; vm_compute; congruence|].
  destruct (String.eqb_spec category "PUBLIC_SAFETY") as [->|HP];
    [repeat split; vm_compute; congruence|].
  destruct (String.eqb_spec category "ROADS") as [->|HR];
    [repeat split; vm_compute; congruence|].
  destruct (String.eqb_spec category "SANITATION") as [->|HS];
    [repeat split; vm_compute; congruence|].
  simpl. rewrite !bool_decide_eq_false_2;
    [repeat split; lia| | |];
    rewrite ?elem_of_cons, ?elem_of_nil; tauto.
Qed.

(** ** Intake *)

(** A submission leaves the store as it was, or saves under the new id
    the complaint built for the institution that the resolver found. *)
Lemma submitComplaint_cases (h : Host) (req : SubmitRequest) (db : Store) :
  snd (ComplaintController.submitComplaint h req db) = db
  \/ exists i,
       snd (ComplaintController.submitComplaint h req db)
       = saveComplaint h.(newObjectId)
           (ComplaintController.newComplaint h req i
              (ComplaintController.calculateResolutionDeadline h
                 req.(sr_category))) db.
Proof.
  unfold ComplaintController.submitComplaint.
  destruct (sr_errors req); [|now left].
  destruct (negb _); [now left|].
  destruct (ComplaintController.findAppropriateInstitution _ _ _ _) as [i|];
    [|now left].
  right. now exists i.
Qed.


(** X1. A well-formed submission of a citizen for which the resolver finds
    an institution is answered 201 and stores, under the new id, a PENDING
    complaint of that citizen without resolution timestamp, assigned to the
    institution (also as its first assigned department), submitted now and
    due after the number of days the policy grants its category, hence
    after its submission; every other complaint, the users, the departments
    and the forwarding records stay as they were. *)
Theorem submitComplaint_creates (h : Host) (req : SubmitRequest) (db : Store)
    (institution : User) :
  req.(sr_errors) = [] ->
  req.(sr_user).(u_role) = "citizen" ->
  ComplaintController.findAppropriateInstitution db req.(sr_category)
    req.(sr_province) req.(sr_district) = Some institution ->
  let db' := snd (ComplaintController.submitComplaint h req db) in
  (fst (ComplaintController.submitComplaint h req db)).(statusCode) = 201
  /\ (exists c,
        db'.(complaints) !! h.(newObjectId) = Some c
        /\ c.(status) = "PENDING"
        /\ c.(resolutionDate) = None
        /\ c.(citizenId) = req.(sr_user).(u_id)
        /\ c.(institutionId) = institution.(u_id)
        /\ c.(assignedDepartment) = institution.(u_id)
        /\ c.(submissionDate) = h.(now)
        /\ c.(resolutionDeadline)
           = Some (h.(now) + policyDays req.(sr_category) * JSDate.msPerDay)
        /\ (forall d, c.(resolutionDeadline) = Some d -> c.(submissionDate) < d))
  /\ (forall id, id <> h.(newObjectId) ->
        db'.(complaints) !! id = db.(complaints) !! id)
  /\ db'.(users) = db.(users)
  /\ db'.(departments) = db.(departments)
  /\ db'.(forwardingRecords) = db.(forwardingRecords).
Proof.
  intros He Hrole Hi db'. subst db'.
  unfold ComplaintController.submitComplaint. rewrite He, Hrole, Hi. simpl.
  split; [reflexivity|]. split.
  - eexists. rewrite lookup_insert_eq. split; [reflexivity|]. simpl.
    destruct (calculateResolutionDeadline_days h (sr_category req))
      as (n & -> & -> & Hn).
    repeat split. intros d [= <-].
    pose proof msPerDay_positive. nia.
  - repeat split. intros id Hne. now rewrite lookup_insert_ne.
Qed.

Lemma submitComplaint_creates_witness :
  (fst (ComplaintController.submitComplaint (Scenario.host Scenario.t0 true)
          Scenario.submitRequest Scenario.db0)).(statusCode) = 201
  /\ Scenario.db1.(complaints) !! 100%N = Some Scenario.submitted.
Proof.
  destruct (submitComplaint_creates (Scenario.host Scenario.t0 true)
              Scenario.submitRequest Scenario.db0 Scenario.wasac)
    as (Hcode & _); [reflexivity..|].
  split; [exact Hcode|]. rewrite db1_complaints. apply lookup_singleton_eq.
Defined.

(** X2. A submission is answered 201 exactly when express-validator found
    no error, the user is a citizen and the resolver finds an institution
    for the province and district of the request; with any other answer
    the store is left as it was. *)
Theorem submitComplaint_accepts_iff (h : Host) (req : SubmitRequest) (db : Store) :
  ((fst (ComplaintController.submitComplaint h req db)).(statusCode) = 201 <->
   req.(sr_errors) = []
   /\ req.(sr_user).(u_role) = "citizen"
   /\ is_Some (ComplaintController.findAppropriateInstitution db
                 req.(sr_category) req.(sr_province) req.(sr_district)))
  /\ ((fst (ComplaintController.submitComplaint h req db)).(statusCode) <> 201 ->
      snd (ComplaintController.submitComplaint h req db) = db).
Proof.
  unfold ComplaintController.submitComplaint.
  destruct (sr_errors req) as [|e es];
    [|split; [split; [discriminate|intros [[=] _]]|reflexivity]].
  destruct (String.eqb_spec (u_role (sr_user req)) "citizen") as [Hr|Hr]; simpl;
    [|split; [split; [discriminate|intros (_ & ? & _); contradiction]|reflexivity]].
  destruct (ComplaintController.findAppropriateInstitution _ _ _ _) as [i|];
    simpl; split; try reflexivity; try contradiction.
  - split; [eauto|reflexivity].
  - split; [discriminate|]. intros (_ & _ & [x [=]]).
Qed.

(** ** What the lifecycle operations change *)

(** The shape of one lifecycle operation: users and departments are
    kept; either nothing else changes, or the addressed complaint is
    replaced by one with the same intake fields, and then either its
    assigned department and the forwarding records are kept, or the new
    assigned department is a department of the complaint's district and one
    record of this forward is appended. *)
Lemma applyOp_shape (db : Store) (op : LifecycleOp) :
  (applyOp db op).(users) = db.(users)
  /\ (applyOp db op).(departments) = db.(departments)
  /\ (applyOp db op = db
      \/ exists c c',
           db.(complaints) !! opTarget op = Some c
           /\ c.(institutionId) = (opActor op).(u_id)
           /\ (applyOp db op).(complaints)
              = <[opTarget op := c']> db.(complaints)
           /\ sameIntake c c'
           /\ ((c'.(assignedDepartment) = c.(assignedDepartment)
                /\ (applyOp db op).(forwardingRecords) = db.(forwardingRecords))
               \/ exists d note,
                    db.(departments) !! c'.(assignedDepartment) = Some d
                    /\ d.(d_district) = c.(district)
                    /\ (applyOp db op).(forwardingRecords)
                       = db.(forwardingRecords)
                         ++ [mkForwardingRecord (opTarget op) c.(institutionId)
                               c'.(assignedDepartment) note])).
Proof.
  destruct op as [h req|h req|h req]; simpl.
  - unfold ComplaintController.updateComplaintStatus.
    destruct (negb _); [now auto|].
    destruct (complaints db !! ur_complaintId req) as [c|] eqn:Hc; [|now auto].
    destruct (N.eqb_spec (institutionId c) (u_id (ur_user req))) as [Hown|Hown];
      simpl; [|now auto].
    destruct (ur_status req =? "RESOLVED")%string;
      destruct (ur_resolutionDeadline req) as [d|]; simpl;
      destruct (validStatus (ur_status req)); simpl; auto;
      (split; [reflexivity|]); (split; [reflexivity|]); right;
      eexists c, _; (split; [reflexivity|]); (split; [exact Hown|]);
      (split; [reflexivity|]); (split; [now repeat split|]); left; now split.
  - unfold ComplaintController.updateComplaintDeadline.
    destruct (dr_newDeadline req) as [d|]; [|now auto].
    destruct (d <? now h); [now auto|].
    destruct (ComplaintController.findOwnedComplaint _ _ _) as [c|] eqn:Hc;
      [|now auto].
    apply findOwnedComplaint_Some in Hc as [Hc Hown]. simpl.
    split; [reflexivity|]. split; [reflexivity|]. right.
    eexists c, _. split; [exact Hc|]. split; [exact Hown|].
    split; [reflexivity|]. split; [now repeat split|]. left. now split.
  - unfold ComplaintController.forwardComplaint.
    destruct (fr_errors req); [|now auto].
    destruct (ComplaintController.findOwnedComplaint _ _ _) as [c|] eqn:Hc;
      [|now auto].
    apply findOwnedComplaint_Some in Hc as [Hc Hown].
    destruct (departments db !! fr_departmentId req) as [d|] eqn:Hd; [|now auto].
    destruct (String.eqb_spec (d_district d) (district c)) as [Hdist|Hdist];
      simpl; [|now auto].
    destruct (populateReturnsDocument h); simpl;
      (split; [reflexivity|]); (split; [reflexivity|]); right;
      eexists c, _; (split; [exact Hc|]); (split; [exact Hown|]);
      (split; [reflexivity|]); (split; [now repeat split|]); right;
      exists d, (fr_forwardingNote req); simpl; rewrite Hown; auto.
Qed.

(** X3. A lifecycle operation that changes the store was issued by the
    institution that owns the complaint it addresses: for any other actor,
    and for a complaint that does not exist, the store is left as it was. *)
Theorem lifecycle_change_needs_owner (db : Store) (op : LifecycleOp) :
  applyOp db op <> db ->
  exists c,
    db.(complaints) !! opTarget op = Some c
    /\ c.(institutionId) = (opActor op).(u_id).
Proof.
  intros Hne.
  destruct (applyOp_shape db op) as (_ & _ & [E|(c & c' & Hc & Hown & _)]);
    [contradiction|eauto].
Qed.

Lemma lifecycle_change_needs_owner_witness :
  exists c,
    Scenario.db1.(complaints) !! 100%N = Some c
    /\ c.(institutionId) = Scenario.wasac.(u_id).
Proof.
  apply (lifecycle_change_needs_owner Scenario.db1
           (Forward (Scenario.host Scenario.t1 true) Scenario.forwardRequest)).
  intros E. apply (f_equal forwardingRecords) in E. vm_compute in E.
  discriminate E.
Defined.

Lemma sameIntake_refl (c : Complaint) : sameIntake c c.
Proof. now repeat split. Qed.

Lemma sameIntake_trans (c1 c2 c3 : Complaint) :
  sameIntake c1 c2 -> sameIntake c2 c3 -> sameIntake c1 c3.
Proof.
  unfold sameIntake. intros (?&?&?&?&?&?&?&?&?) (?&?&?&?&?&?&?&?&?).
  repeat split; congruence.
Qed.

(** One operation keeps the ids of the complaints and their intake fields,
    in both directions. *)
Lemma applyOp_lookup (db : Store) (op : LifecycleOp) (id : N) :
  match db.(complaints) !! id, (applyOp db op).(complaints) !! id with
  | Some c, Some c' => sameIntake c c'
  | None, None => True
  | _, _ => False
  end.
Proof.
  destruct (applyOp_shape db op)
    as (_ & _ & [->|(c & c' & Hc & _ & -> & Hsame & _)]).
  - destruct (complaints db !! id); [apply sameIntake_refl|exact I].
  - destruct (decide (opTarget op = id)) as [<-|Hne].
    + now rewrite lookup_insert_eq, Hc.
    + rewrite lookup_insert_ne by done.
      destruct (complaints db !! id); [apply sameIntake_refl|exact I].
Qed.

Lemma applyOps_lookup (ops : list LifecycleOp) (db : Store) (id : N) :
  match db.(complaints) !! id, (applyOps ops db).(complaints) !! id with
  | Some c, Some c' => sameIntake c c'
  | None, None => True
  | _, _ => False
  end.
Proof.
  unfold applyOps. revert db. induction ops as [|op ops IH]; intros db; simpl.
  - destruct (complaints db !! id); [apply sameIntake_refl|exact I].
  - pose proof (applyOp_lookup db op id) as H1. specialize (IH (applyOp db op)).
    destruct (complaints db !! id) as [c|],
      (complaints (applyOp db op) !! id) as [c1|]; try contradiction;
      destruct (complaints (fold_left applyOp ops (applyOp db op)) !! id);
      try contradiction; [eapply sameIntake_trans; eassumption|exact I].
Qed.

Lemma applyOps_users_departments (ops : list LifecycleOp) (db : Store) :
  (applyOps ops db).(users) = db.(users)
  /\ (applyOps ops db).(departments) = db.(departments).
Proof.
  unfold applyOps. revert db. induction ops as [|op ops IH]; intros db; simpl;
    [now split|].
  destruct (IH (applyOp db op)) as [-> ->].
  destruct (applyOp_shape db op) as (-> & -> & _). now split.
Qed.

(** X4. Along every sequence of status updates, deadline updates and
    forwards, no complaint is created or deleted, and every complaint keeps
    the fields it got at intake: title, description, category, province,
    district, citizen, institution, submission timestamp and tracking
    number. The users and the departments are not touched either. *)
Theorem lifecycle_keeps_intake_fields (ops : list LifecycleOp) (db : Store) :
  (applyOps ops db).(users) = db.(users)
  /\ (applyOps ops db).(departments) = db.(departments)
  /\ (forall id c, db.(complaints) !! id = Some c ->
        exists c', (applyOps ops db).(complaints) !! id = Some c'
                   /\ sameIntake c c')
  /\ (forall id, db.(complaints) !! id = None ->
        (applyOps ops db).(complaints) !! id = None).
Proof.
  destruct (applyOps_users_departments ops db) as [Hu Hd].
  split; [exact Hu|]. split; [exact Hd|]. split.
  - intros id c Hc. pose proof (applyOps_lookup ops db id) as H.
    rewrite Hc in H.
    destruct (complaints (applyOps ops db) !! id) as [c'|]; [eauto|contradiction].
  - intros id Hc. pose proof (applyOps_lookup ops db id) as H.
    rewrite Hc in H.
    destruct (complaints (applyOps ops db) !! id); [contradiction|reflexivity].
Qed.

(** X5. The forwarding records only grow: after any sequence of lifecycle
    operations the records are the old ones, in place and unchanged,
    followed by the new ones; and each new record names a complaint of the
    forwarding institution and a department in the district of that
    complaint. *)
Theorem forwardingRecords_append_only (ops : list LifecycleOp) (db : Store) :
  exists added,
    (applyOps ops db).(forwardingRecords) = db.(forwardingRecords) ++ added
    /\ forall r, In r added -> recordJustified db r.
Proof.
  unfold applyOps. revert db. induction ops as [|op ops IH]; intros db; simpl.
  - exists []. split; [now rewrite app_nil_r|intros r []].
  - destruct (IH (applyOp db op)) as (added & -> & Hadded).
    assert (Hback : forall r, recordJustified (applyOp db op) r ->
                      recordJustified db r).
    { intros r (c1 & d & Hc1 & Hfrom & Hd & Hdist).
      pose proof (applyOp_lookup db op (complaintId r)) as Hl.
      rewrite Hc1 in Hl.
      destruct (complaints db !! complaintId r) as [c|] eqn:Hc;
        [|contradiction].
      destruct Hl as (_ & _ & _ & _ & Hdi & _ & Hi & _).
      destruct (applyOp_shape db op) as (_ & Hdep & _). rewrite Hdep in Hd.
      exists c, d. repeat split; congruence. }
    destruct (applyOp_shape db op)
      as (_ & _ & [->|(c & c' & Hc & _ & _ & _ & [[_ ->]|(d & note & Hd & Hdist & ->)])]).
    + exists added. split; [reflexivity|]. intros r Hr. apply Hback, Hadded, Hr.
    + exists added. split; [reflexivity|]. intros r Hr. apply Hback, Hadded, Hr.
    + eexists (_ :: added). split; [now rewrite <- app_assoc|].
      intros r [<-|Hr]; [|apply Hback, Hadded, Hr].
      exists c, d. simpl. auto.
Qed.

(** X6. Intake and every sequence of lifecycle operations keep the
    invariant of the assigned department: it is the institution of the
    complaint, or a department of the complaint's district. *)
Theorem departmentInDistrict_kept (db : Store) :
  departmentInDistrict db ->
  (forall h req,
     departmentInDistrict (snd (ComplaintController.submitComplaint h req db)))
  /\ (forall ops, departmentInDistrict (applyOps ops db)).
Proof.
  intros Hdb. split.
  - intros h req.
    destruct (submitComplaint_cases h req db) as [->|(i & ->)]; [exact Hdb|].
    intros id c0. simpl.
    destruct (decide (newObjectId h = id)) as [->|Hne].
    + rewrite lookup_insert_eq. intros [= <-]. now left.
    + rewrite lookup_insert_ne by done. apply (Hdb id).
  - intros ops. unfold applyOps. revert db Hdb.
    induction ops as [|op ops IH]; intros db Hdb; simpl; [exact Hdb|].
    apply IH. intros id c1 Hc1.
    destruct (applyOp_shape db op)
      as (_ & Hdeps & [E|(c & c' & Hc & _ & Hcs & Hsame & Hcase)]).
    + rewrite E in *. now apply (Hdb id).
    + rewrite Hdeps. rewrite Hcs in Hc1.
      destruct (decide (opTarget op = id)) as [<-|Hne].
      * rewrite lookup_insert_eq in Hc1. injection Hc1 as <-.
        destruct Hsame as (_ & _ & _ & _ & Hdi & _ & Hi & _).
        destruct Hcase as [[Ha _]|(d & note & Hd & Hdist & _)].
        -- rewrite Ha, Hi, Hdi. now apply (Hdb (opTarget op)).
        -- right. exists d. split; [exact Hd|congruence].
      * rewrite lookup_insert_ne in Hc1 by done. now apply (Hdb id).
Qed.

Lemma departmentInDistrict_kept_witness :
  departmentInDistrict Scenario.db0
  /\ departmentInDistrict Scenario.db1
  /\ departmentInDistrict
       (applyOps [Forward (Scenario.host Scenario.t1 true) Scenario.forwardRequest]
          Scenario.db1).
Proof.
  assert (H0 : departmentInDistrict Scenario.db0)
    by (intros id c Hc; vm_compute in Hc; discriminate Hc).
  split; [exact H0|].
  assert (H1 : departmentInDistrict Scenario.db1)
    by apply (departmentInDistrict_kept Scenario.db0 H0).
  split; [exact H1|].
  apply (departmentInDistrict_kept Scenario.db1 H1).
Defined.

(** ** More on the performance report *)

Section PerformanceFigures.

Import AdminController.

Lemma percent_bounds (a b : Z) :
  0 <= a <= b -> 0 < b ->
  (0 <= inject_Z a / inject_Z b * 100 <= 100)%Q.
Proof.
  intros Ha Hb. destruct b as [|p|p]; try lia.
  unfold Qle, Qdiv, Qmult, Qinv, inject_Z. simpl. split; nia.
Qed.

Lemma count_nonneg (p : Complaint -> bool) (l : list Complaint) : 0 <= count p l.
Proof. unfold count. lia. Qed.

Lemma count_le (p q : Complaint -> bool) (l : list Complaint) :
  (forall c, p c = true -> q c = true) -> count p l <= count q l.
Proof.
  intros Hpq. unfold count. induction l as [|c l IH]; simpl; [lia|].
  rewrite !filter_cons.
  destruct (decide (p c = true)) as [Hp|Hp].
  - rewrite decide_True by now apply Hpq. simpl in *. lia.
  - destruct (decide (q c = true)); simpl in *; lia.
Qed.

(** The counters of a group: on-time resolutions among the resolutions
    among the complaints. *)
Lemma groupOf_counters (docs : list Complaint) (k : N) :
  0 <= (groupOf docs k).(g_resolvedOnTime)
    <= (groupOf docs k).(g_resolvedComplaints)
  /\ (groupOf docs k).(g_resolvedComplaints)
     <= (groupOf docs k).(g_totalComplaints).
Proof.
  simpl. split; [split|].
  - apply count_nonneg.
  - apply count_le. unfold isResolvedOnTime. intros c H.
    now apply andb_true_iff in H as [H _].
  - now apply count_le.
Qed.

(** Where a row of the aggregation comes from: a group of the matching
    complaints of one institution id, joined with a user of that id. *)
Lemma aggregate_row_origin (db : Store) (f : DateFilter)
    (rows : list PerformanceRow) (row : PerformanceRow) :
  aggregate db f = Some rows -> In row rows ->
  exists docs k u,
    projectStage (groupOf docs k) u = Some row
    /\ 1 <= (groupOf docs k).(g_totalComplaints)
    /\ u ∈ db.(users) /\ u.(u_id) = k.
Proof.
  unfold aggregate.
  set (docs := filter (fun c => matchStage f c = true)
                 (snd <$> map_to_list (complaints db))).
  destruct (mapM _ _) as [rows0|] eqn:Hm; [|discriminate].
  intros [= <-] Hrow. apply (proj1 (sortStage_In _ _)) in Hrow.
  apply mapM_Some in Hm.
  destruct (Forall2_In_r _ _ _ row Hm Hrow) as ([g u] & Hgu & Hp).
  simpl in Hp. apply in_concat in Hgu as (l & Hl & Hgu).
  apply in_map_iff in Hl as (g0 & <- & Hg0).
  unfold lookupStage in Hgu. apply in_map_iff in Hgu as (u0 & [= <- <-] & Hu).
  apply list_elem_of_In, list_elem_of_filter in Hu as [Hid Hu].
  pose proof (groupStage_nonempty docs g0 Hg0) as [Hpos _].
  unfold groupStage in Hg0. apply in_map_iff in Hg0 as (k & <- & _).
  exists docs, k, u0. auto.
Qed.

(** The aggregation raises no error, and each of its rows counts its
    on-time resolutions among its resolutions and those among its
    complaints, with rates from 0 to 100. *)
Lemma aggregate_rows_counters (db : Store) (f : DateFilter) :
  exists rows,
    aggregate db f = Some rows
    /\ forall row, In row rows ->
         0 <= row.(p_resolvedOnTime) <= row.(p_resolvedComplaints)
         /\ row.(p_resolvedComplaints) <= row.(p_totalComplaints)
         /\ (0 <= row.(p_resolutionRate) <= 100)%Q
         /\ (0 <= row.(p_onTimeResolutionRate) <= 100)%Q.
Proof.
  destruct (aggregate_rows db f) as (rows & Hagg & _).
  exists rows. split; [exact Hagg|].
  intros row Hrow.
  destruct (aggregate_row_origin db _ rows row Hagg Hrow)
    as (docs & k & u & Hp & Hpos & _).
  pose proof (groupOf_counters docs k) as [[H0 H1] H2].
  revert Hp Hpos H0 H1 H2. generalize (groupOf docs k). intros g Hp Hpos H0 H1 H2.
  unfold projectStage, divide in Hp.
  destruct (Z.eqb_spec (g_totalComplaints g) 0); [lia|].
  destruct (Z.eqb_spec (Z.max (g_resolvedComplaints g) 1) 0); [lia|].
  simpl in Hp. injection Hp as <-. simpl.
  repeat split; try lia; apply percent_bounds; lia.
Qed.

(** X7. In every performance report, each row counts its on-time
    resolutions among its resolutions and those among its complaints, and
    both of its rates lie between 0 and 100. *)
Theorem performance_rates_bounded (h : Host) (timeframe : option string)
    (db : Store) :
  exists label stats rows,
    getPerformance h timeframe db = json (PerformanceReport label stats rows)
    /\ forall row, In row rows ->
         0 <= row.(p_resolvedOnTime) <= row.(p_resolvedComplaints)
         /\ row.(p_resolvedComplaints) <= row.(p_totalComplaints)
         /\ (0 <= row.(p_resolutionRate) <= 100)%Q
         /\ (0 <= row.(p_onTimeResolutionRate) <= 100)%Q.
Proof.
  unfold getPerformance.
  destruct (aggregate_rows_counters db (dateFilterOf h timeframe))
    as (rows & -> & Hrows).
  eexists _, _, rows. split; [reflexivity|exact Hrows].
Qed.

Lemma insertByRate_Sorted (r : PerformanceRow) (l : list PerformanceRow) :
  Sorted (fun x y => (y.(p_onTimeResolutionRate) <= x.(p_onTimeResolutionRate))%Q) l ->
  Sorted (fun x y => (y.(p_onTimeResolutionRate) <= x.(p_onTimeResolutionRate))%Q)
    (insertByRate r l).
Proof.
  induction l as [|a l IH]; intros Hs; simpl.
  - repeat constructor.
  - destruct (Qle_bool _ _) eqn:Hle.
    + constructor; [exact Hs|]. constructor. now apply Qle_bool_iff.
    + apply Sorted_inv in Hs as [Hs Hhd].
      constructor; [now apply IH|].
      assert (Hlt : (p_onTimeResolutionRate r <= p_onTimeResolutionRate a)%Q).
      { apply Qnot_lt_le. intros Hlt. apply Qlt_le_weak in Hlt.
        apply Qle_bool_iff in Hlt. congruence. }
      destruct l as [|b l]; simpl.
      * now constructor.
      * destruct (Qle_bool (p_onTimeResolutionRate b) (p_onTimeResolutionRate r));
          constructor; [exact Hlt|now inversion Hhd].
Qed.

(** X8. The rows of every performance report stand in descending order of
    their on-time resolution rate. *)
Theorem performance_rows_ranked (h : Host) (timeframe : option string)
    (db : Store) :
  exists label stats rows,
    getPerformance h timeframe db = json (PerformanceReport label stats rows)
    /\ Sorted (fun x y =>
                 (y.(p_onTimeResolutionRate) <= x.(p_onTimeResolutionRate))%Q)
         rows.
Proof.
  unfold getPerformance, aggregate.
  destruct (aggregate_rows db (dateFilterOf h timeframe)) as (rows & Hagg & _).
  unfold aggregate in Hagg. rewrite Hagg.
  eexists _, _, rows. split; [reflexivity|].
  destruct (mapM _ _) as [rows0|]; [|discriminate]. injection Hagg as <-.
  unfold sortStage. induction rows0 as [|r rows0 IH]; simpl;
    [constructor|now apply insertByRate_Sorted].
Qed.

Lemma filter_none {A : Type} (l : list A) :
  filter (fun _ : A => false = true) l = [].
Proof.
  induction l as [|a l IH]; [reflexivity|].
  rewrite filter_cons, decide_False by discriminate. exact IH.
Qed.

(** X9. Without a time frame, and with any time frame other than week,
    month and year, the date filter is the empty document, which no
    submission date equals: the report has no rows and all its totals and
    rates are 0, whatever complaints the store holds. *)
Theorem performance_all_time_empty (h : Host) (timeframe : option string)
    (db : Store) :
  (forall tf, timeframe = Some tf ->
     tf <> "week" /\ tf <> "month" /\ tf <> "year") ->
  exists label,
    getPerformance h timeframe db
    = json (PerformanceReport label (mkSystemStats 0 0 0 0 0) []).
Proof.
  intros Htf.
  assert (Hf : dateFilterOf h timeframe = EmptyDocument).
  { unfold dateFilterOf. destruct timeframe as [tf|]; [|reflexivity].
    destruct (Htf tf eq_refl) as (Hw & Hm & Hy).
    apply String.eqb_neq in Hw, Hm, Hy. now rewrite Hw, Hm, Hy. }
  unfold getPerformance, aggregate. rewrite Hf. simpl.
  rewrite filter_none. simpl. eexists. reflexivity.
Qed.

Lemma performance_all_time_empty_witness :
  exists label,
    getPerformance (Scenario.host Scenario.t2 true) None Scenario.db2
    = json (PerformanceReport label (mkSystemStats 0 0 0 0 0) []).
Proof.
  apply (performance_all_time_empty (Scenario.host Scenario.t2 true) None
           Scenario.db2).
  intros tf H. discriminate H.
Defined.

End PerformanceFigures.

(** ** The time windows of the performance report *)

Section Windows.

Import JSDate.

Lemma DaysInYear_leapDays (y : Z) : DaysInYear y = 365 + leapDays y.
Proof.
  unfold leapDays, DaysInYear. repeat case_match; try reflexivity; discriminate.
Qed.

Lemma leapDays_range (y : Z) : 0 <= leapDays y <= 1.
Proof. unfold leapDays. case_match; lia. Qed.

(** The day of a time value from its year, month and day of the month. *)
Lemma Day_calendar (t : Z) :
  Day t = DayFromYear (YearFromTime t)
          + monthStart (leapDays (YearFromTime t)) (MonthFromTime t)
          + DateFromTime t - 1.
Proof. unfold DateFromTime, DayWithinYear, InLeapYear. lia. Qed.

(** Month -1 is the December of the year before. *)
Lemma MakeDay_december (y d : Z) :
  MakeDay y (-1) d = DayFromYear (y - 1) + 334 + leapDays (y - 1) + d - 1.
Proof.
  unfold MakeDay. change ((-1) / 12) with (-1). change ((-1) mod 12) with 11.
  replace (y + -1) with (y - 1) by lia. unfold monthStart. simpl. lia.
Qed.

Lemma MakeDate_Day (tza t n : Z) :
  UTC tza (MakeDate (Day (LocalTime tza t) - n) (TimeWithinDay (LocalTime tza t)))
  = t - n * msPerDay.
Proof.
  unfold UTC, MakeDate, LocalTime, Day, TimeWithinDay.
  pose proof (Z.div_mod (t + tza) msPerDay ltac:(discriminate)). lia.
Qed.

(** One month back is the length of the month before, 28 to 31 days,
    back. *)
Lemma setMonth_previous (tza t : Z) :
  exists n, 28 <= n <= 31
            /\ setMonth tza t (getMonth tza t - 1) = t - n * msPerDay.
Proof.
  unfold setMonth, getMonth. set (lt := LocalTime tza t).
  pose proof (Day_calendar lt) as Hday.
  pose proof (MonthFromTime_range lt) as Hm.
  pose proof (leapDays_range (YearFromTime lt)) as Hl.
  pose proof (DaysInYear_spec (YearFromTime lt - 1)) as Hy.
  rewrite DaysInYear_leapDays in Hy.
  replace (YearFromTime lt - 1 + 1) with (YearFromTime lt) in Hy by lia.
  destruct (decide (MonthFromTime lt = 0)) as [E|E].
  - exists 31. split; [lia|]. rewrite E in *. change (0 - 1) with (-1).
    rewrite MakeDay_december. rewrite <- (MakeDate_Day tza t 31). fold lt.
    f_equal. f_equal. unfold monthStart in Hday. simpl in Hday. lia.
  - rewrite MakeDay_in_year by lia.
    revert Hday.
    generalize (leapDays (YearFromTime lt)) (DayFromYear (YearFromTime lt))
      (DateFromTime lt) Hl.
    intros L F D HL Hday.
    assert (Hcases : MonthFromTime lt = 1 \/ MonthFromTime lt = 2
                     \/ MonthFromTime lt = 3 \/ MonthFromTime lt = 4
                     \/ MonthFromTime lt = 5 \/ MonthFromTime lt = 6
                     \/ MonthFromTime lt = 7 \/ MonthFromTime lt = 8
                     \/ MonthFromTime lt = 9 \/ MonthFromTime lt = 10
                     \/ MonthFromTime lt = 11) by lia.
    set (n := monthStart L (MonthFromTime lt)
              - monthStart L (MonthFromTime lt - 1)).
    exists n. split.
    + unfold n.
      repeat (destruct Hcases as [-> | Hcases]); try rewrite Hcases;
        unfold monthStart; simpl; lia.
    + rewrite <- (MakeDate_Day tza t n). fold lt. f_equal. f_equal.
      unfold n. lia.
Qed.

(** One year back is 365 or 366 days back. *)
Lemma setFullYear_previous (tza t : Z) :
  exists n, 365 <= n <= 366
            /\ setFullYear tza t (getFullYear tza t - 1) = t - n * msPerDay.
Proof.
  unfold setFullYear, getFullYear. set (lt := LocalTime tza t).
  pose proof (Day_calendar lt) as Hday.
  pose proof (MonthFromTime_range lt) as Hm.
  pose proof (leapDays_range (YearFromTime lt)) as Hl.
  pose proof (leapDays_range (YearFromTime lt - 1)) as Hl'.
  pose proof (DaysInYear_spec (YearFromTime lt - 1)) as Hy.
  rewrite DaysInYear_leapDays in Hy.
  replace (YearFromTime lt - 1 + 1) with (YearFromTime lt) in Hy by lia.
  rewrite MakeDay_in_year by lia.
  set (n := Day lt - (DayFromYear (YearFromTime lt - 1)
                      + monthStart (leapDays (YearFromTime lt - 1))
                          (MonthFromTime lt)
                      + DateFromTime lt - 1)).
  exists n. split.
  - unfold n. rewrite Hday. unfold monthStart.
    repeat match goal with
           | |- context [Z.eqb ?a ?b] => destruct (Z.eqb_spec a b)
           end; lia.
  - rewrite <- (MakeDate_Day tza t n). fold lt. f_equal. f_equal.
    unfold n. lia.
Qed.

(** X10. The lower bound of the reporting window on the submission date:
    for the week, the instant 7 days before now; for the month, the same
    time of day between 28 and 31 days before now; for the year, 365 or 366
    days before now. *)
Theorem performance_window (h : Host) :
  AdminController.dateFilterOf h (Some "week")
  = AdminController.Gte (h.(now) - 7 * msPerDay)
  /\ (exists n, 28 <= n <= 31
        /\ AdminController.dateFilterOf h (Some "month")
           = AdminController.Gte (h.(now) - n * msPerDay))
  /\ (exists n, 365 <= n <= 366
        /\ AdminController.dateFilterOf h (Some "year")
           = AdminController.Gte (h.(now) - n * msPerDay)).
Proof.
  unfold AdminController.dateFilterOf. simpl. split; [|split].
  - replace (getDate (tza h) (now h) - 7) with (getDate (tza h) (now h) + -7)
      by lia.
    rewrite setDate_getDate. f_equal.
  - destruct (setMonth_previous (tza h) (now h)) as (n & Hn & ->). eauto.
  - destruct (setFullYear_previous (tza h) (now h)) as (n & Hn & ->). eauto.
Qed.

End Windows.

(** ** Number arithmetic *)

Section Numbers.

Import JSDate AdminController ComplaintQueries.

Local Open Scope Q_scope.

(** Rounding to a neighbouring integer moves a value by at most a half and
    keeps an integer. *)
Lemma roundHalfEven_error (m : Q) :
  - (1 # 2) <= inject_Z (roundHalfEven m) - m <= 1 # 2.
Proof.
  unfold roundHalfEven. pose proof (Qfloor_le m) as Hf.
  pose proof (Qlt_floor m) as Hc. rewrite inject_Z_plus in Hc.
  change (inject_Z 1) with 1 in Hc.
  destruct (m - inject_Z (Qfloor m) ?= 1 # 2) eqn:E.
  - apply Qeq_alt in E. destruct (Z.even (Qfloor m));
      rewrite ?inject_Z_plus; change (inject_Z 1) with 1; lra.
  - apply Qlt_alt in E. lra.
  - apply Qgt_alt in E. rewrite inject_Z_plus. change (inject_Z 1) with 1. lra.
Qed.

Lemma roundHalfEven_integer (m : Q) (z : Z) :
  m == inject_Z z -> roundHalfEven m = z.
Proof.
  intros E. unfold roundHalfEven.
  assert (Hf : Qfloor m = z) by (rewrite (Qfloor_comp _ _ E); apply Qfloor_Z).
  rewrite Hf. destruct (m - inject_Z z ?= 1 # 2) eqn:C; [| reflexivity |].
  - apply Qeq_alt in C. lra.
  - apply Qgt_alt in C. lra.
Qed.

Lemma two_power_pos (k : Z) : 0 < 2 ^ k.
Proof. apply Qpower_0_lt. reflexivity. Qed.

(** The significand reaches 2^52. *)
Lemma shift_spec (q : Q) : 0 < q -> 2 ^ 52 <= q * 2 ^ Double.shift q.
Proof.
  intros Hq. unfold Double.shift. destruct q as [n d]. cbn [Qnum Qden].
  set (q := n # d) in *.
  set (k0 := (52 - (Z.log2 n - Z.log2 (Z.pos d)))%Z).
  destruct (Qle_bool (2 ^ 52) (q * 2 ^ k0)) eqn:E;
    [now apply Qle_bool_iff in E|].
  assert (Hhalf : 2 ^ 51 < q * 2 ^ k0).
  { unfold Qlt in Hq. simpl in Hq.
    assert (Hn : (0 < n)%Z) by lia.
    pose proof (Z.log2_spec n Hn) as [Ha _].
    pose proof (Z.log2_spec (Z.pos d) ltac:(lia)) as [_ Hb].
    pose proof (Z.log2_nonneg n) as Ha0.
    pose proof (Z.log2_nonneg (Z.pos d)) as Hb0.
    set (a := Z.log2 n) in *. set (b := Z.log2 (Z.pos d)) in *.
    replace k0 with ((52 + b) - a)%Z by (unfold k0; lia).
    unfold q.
    rewrite Qpower_minus by discriminate.
    rewrite Qpower_plus by discriminate.
    rewrite <- (Zpower_Qpower 2 a), <- (Zpower_Qpower 2 b) by assumption.
    rewrite Z.pow_succ_r in Hb by assumption.
    assert (HA : (0 < 2 ^ a)%Z) by (apply Z.pow_pos_nonneg; lia).
    assert (HB : (0 < 2 ^ b)%Z) by (apply Z.pow_pos_nonneg; lia).
    revert Ha Hb HA HB. generalize (2 ^ a)%Z (2 ^ b)%Z. intros A B Ha Hb HA HB.
    rewrite (Qmake_Qdiv n d).
    assert (HAq : 0 < inject_Z A) by (rewrite <- (Zlt_Qlt 0); exact HA).
    assert (Hdq : 0 < inject_Z (Z.pos d)) by (rewrite <- (Zlt_Qlt 0); lia).
    setoid_replace (inject_Z n / inject_Z (Z.pos d)
                    * (2 ^ 52 * inject_Z B / inject_Z A))
      with ((inject_Z n * 2 ^ 52 * inject_Z B)
            / (inject_Z (Z.pos d) * inject_Z A))
      using relation Qeq by (field; split; lra).
    apply Qlt_shift_div_l; [nra|].
    change (2 ^ 51) with (inject_Z (2 ^ 51)).
    change (2 ^ 52) with (inject_Z (2 ^ 52)).
    rewrite <- !inject_Z_mult, <- Zlt_Qlt. nia. }
  replace (k0 + 1)%Z with (1 + k0)%Z by lia.
  rewrite Qpower_plus by discriminate.
  change (2 ^ 1) with 2. change (2 ^ 52) with (2 * 2 ^ 51). lra.
Qed.

Lemma two_power_le (a b : Z) : (a <= b)%Z -> 2 ^ a <= 2 ^ b.
Proof.
  intros H. replace b with (a + (b - a))%Z by lia.
  rewrite Qpower_plus by discriminate.
  assert (1 <= 2 ^ (b - a)).
  { rewrite <- (Zpower_Qpower 2 (b - a)) by lia.
    change 1 with (inject_Z 1). rewrite <- Zle_Qle.
    pose proof (Z.pow_pos_nonneg 2 (b - a)). lia. }
  pose proof (two_power_pos a). nra.
Qed.

Lemma two_power_inv (k : Z) : 2 ^ k * 2 ^ (- k) == 1.
Proof. rewrite <- Qpower_plus by discriminate. now rewrite Z.add_opp_diag_r. Qed.

(** A value below [2^b] is scaled by more than [2^(52-b)]. *)
Lemma shift_lower (q : Q) (b : Z) :
  0 < q -> q < 2 ^ b -> (52 - b < Double.shift q)%Z.
Proof.
  intros Hq Hb. pose proof (shift_spec q Hq) as Hs.
  destruct (Z.lt_ge_cases (52 - b) (Double.shift q)) as [|Hle]; [assumption|].
  exfalso. pose proof (two_power_le _ _ Hle) as Hp.
  assert (E : 2 ^ b * 2 ^ (52 - b) == 2 ^ 52).
  { rewrite <- Qpower_plus by discriminate.
    now replace (b + (52 - b))%Z with 52%Z by lia. }
  pose proof (two_power_pos (52 - b)). pose proof (two_power_pos (Double.shift q)).
  pose proof (two_power_pos b). nra.
Qed.

(** The rounding error of a value below [2^b] is at most [2^(b-54)], and
    an integer below 2^53 is a Number. *)
Lemma roundPositive_error (q : Q) (b : Z) :
  0 < q -> q < 2 ^ b ->
  - 2 ^ (b - 54) <= Double.roundPositive q - q <= 2 ^ (b - 54).
Proof.
  intros Hq Hb. pose proof (shift_lower q b Hq Hb) as Hk.
  unfold Double.roundPositive. set (k := Double.shift q) in *.
  pose proof (roundHalfEven_error (q * 2 ^ k)) as He.
  set (m := inject_Z (roundHalfEven (q * 2 ^ k))) in *.
  pose proof (two_power_inv k) as Hi.
  pose proof (two_power_pos (- k)) as Hp.
  assert (Hle : 2 ^ (- k) <= 2 ^ (b - 53)) by (apply two_power_le; lia).
  assert (E : 2 ^ (b - 53) == 2 * 2 ^ (b - 54)).
  { change 2 with (2 ^ 1) at 2. rewrite <- Qpower_plus by discriminate.
    now replace (1 + (b - 54))%Z with (b - 53)%Z by lia. }
  assert (Hd : m * 2 ^ (- k) - q == (m - q * 2 ^ k) * 2 ^ (- k)).
  { setoid_replace q with (q * (2 ^ k * 2 ^ (- k))) using relation Qeq at 1
      by (rewrite Hi; ring).
    ring. }
  rewrite Hd. split; nra.
Qed.

Lemma roundPositive_integer (q : Q) (z : Z) :
  q == inject_Z z -> (0 < z < 2 ^ 53)%Z -> Double.roundPositive q == q.
Proof.
  intros E Hz.
  assert (Hq : 0 < q) by (rewrite E; change 0 with (inject_Z 0); rewrite <- Zlt_Qlt; lia).
  assert (Hb : q < 2 ^ 53).
  { rewrite E. change (2 ^ 53) with (inject_Z (2 ^ 53)). rewrite <- Zlt_Qlt. lia. }
  pose proof (shift_lower q 53 Hq Hb) as Hk.
  unfold Double.roundPositive. set (k := Double.shift q) in *.
  assert (Em : q * 2 ^ k == inject_Z (z * 2 ^ k)).
  { rewrite inject_Z_mult, Zpower_Qpower by lia. now rewrite E. }
  rewrite (roundHalfEven_integer _ _ Em).
  rewrite inject_Z_mult, Zpower_Qpower by lia.
  rewrite <- Qmult_assoc, two_power_inv, E. ring.
Qed.

Lemma round_positive (q : Q) : 0 < q -> Double.round q = Double.roundPositive q.
Proof.
  destruct q as [[|n|n] d]; unfold Qlt; simpl; intros H; try reflexivity; lia.
Qed.

Lemma round_negative (q : Q) :
  q < 0 -> Double.round q = - Double.roundPositive (- q).
Proof.
  destruct q as [[|n|n] d]; unfold Qlt; simpl; intros H; try reflexivity; lia.
Qed.

Lemma round_zero (q : Q) : q == 0 -> Double.round q = 0.
Proof.
  destruct q as [[|n|n] d]; unfold Qeq; simpl; intros H; try reflexivity; lia.
Qed.

Lemma round_error (q : Q) (b : Z) :
  - 2 ^ b < q -> q < 2 ^ b ->
  - 2 ^ (b - 54) <= Double.round q - q <= 2 ^ (b - 54).
Proof.
  intros Hl Hu. pose proof (two_power_pos (b - 54)).
  destruct (Q_dec q 0) as [[Hn|Hp]|Hz].
  - rewrite (round_negative q Hn).
    assert (H1 : 0 < - q) by lra. assert (H2 : - q < 2 ^ b) by lra.
    pose proof (roundPositive_error (- q) b H1 H2). lra.
  - rewrite (round_positive q Hp).
    pose proof (roundPositive_error q b Hp Hu). lra.
  - rewrite (round_zero q Hz). lra.
Qed.

Lemma round_integer (q : Q) (z : Z) :
  q == inject_Z z -> (Z.abs z < 2 ^ 53)%Z -> Double.round q == q.
Proof.
  intros E Hz. destruct (Z.lt_trichotomy z 0) as [Hn|[H0|Hp]].
  - assert (Hq : q < 0) by (rewrite E; change 0 with (inject_Z 0); rewrite <- Zlt_Qlt; lia).
    rewrite (round_negative q Hq).
    assert (E' : - q == inject_Z (- z)) by (rewrite inject_Z_opp, E; reflexivity).
    rewrite (roundPositive_integer (- q) (- z) E') by lia. ring.
  - subst z. rewrite (round_zero q E). now rewrite E.
  - assert (Hq : 0 < q) by (rewrite E; change 0 with (inject_Z 0); rewrite <- Zlt_Qlt; lia).
    rewrite (round_positive q Hq). apply (roundPositive_integer q z E). lia.
Qed.

Lemma Qceiling_unique (q : Q) (n : Z) :
  inject_Z n - 1 < q -> q <= inject_Z n -> Qceiling q = n.
Proof.
  intros Hl Hu. pose proof (Qle_ceiling q) as H1. pose proof (Qceiling_lt q) as H2.
  assert (A : inject_Z (Qceiling q - 1) < inject_Z n) by lra.
  assert (E : inject_Z (n - 1) == inject_Z n - 1).
  { unfold Z.sub. rewrite inject_Z_plus, inject_Z_opp. reflexivity. }
  assert (B : inject_Z (n - 1) < inject_Z (Qceiling q)) by lra.
  rewrite <- Zlt_Qlt in A, B. lia.
Qed.

(** For two time values less than 2^53 ms apart the two roundings do not
    move the ceiling: the result is the integer ceiling of the quotient. *)
Lemma calculateResolutionTime_exact (submissionDate resolutionDate : Z) :
  (Z.abs (resolutionDate - submissionDate) < 2 ^ 53)%Z ->
  calculateResolutionTime submissionDate resolutionDate
  = ceilDays (resolutionDate - submissionDate).
Proof.
  unfold calculateResolutionTime. generalize (resolutionDate - submissionDate)%Z.
  intros d Hd.
  pose proof (round_integer (inject_Z d) d (Qeq_refl _) Hd) as Ex.
  set (x := Double.round (inject_Z d)) in *.
  assert (HD : 0 < inject_Z msPerDay) by reflexivity.
  set (n := ceilDays d).
  assert (Hn : ((n - 1) * msPerDay < d <= n * msPerDay)%Z).
  { unfold n, ceilDays, msPerDay. Z.div_mod_to_equations. lia. }
  assert (Ey : x / inject_Z msPerDay == inject_Z d / inject_Z msPerDay)
    by now rewrite Ex.
  set (y := x / inject_Z msPerDay) in *.
  destruct (Z.eq_dec d (n * msPerDay)%Z) as [Hdiv|Hnd].
  - assert (Eyn : y == inject_Z n).
    { rewrite Ey, Hdiv, inject_Z_mult. field. lra. }
    assert (Hnb : (Z.abs n < 2 ^ 53)%Z) by (unfold msPerDay in *; lia).
    rewrite (Qceiling_comp _ _ (round_integer y n Eyn Hnb)).
    rewrite (Qceiling_comp _ _ Eyn). apply Qceiling_Z.
  - assert (Hlo : inject_Z n - 1 + 1 / inject_Z msPerDay <= y).
    { rewrite Ey. apply Qle_shift_div_l; [assumption|].
      setoid_replace ((inject_Z n - 1 + 1 / inject_Z msPerDay) * inject_Z msPerDay)
        with (inject_Z ((n - 1) * msPerDay + 1)) using relation Qeq
        by (rewrite inject_Z_plus, inject_Z_mult; unfold Z.sub;
            rewrite inject_Z_plus, inject_Z_opp; change (inject_Z 1) with 1;
            field; lra).
      rewrite <- Zle_Qle. lia. }
    assert (Hhi : y <= inject_Z n - 1 / inject_Z msPerDay).
    { rewrite Ey. apply Qle_shift_div_r; [assumption|].
      setoid_replace ((inject_Z n - 1 / inject_Z msPerDay) * inject_Z msPerDay)
        with (inject_Z (n * msPerDay - 1)) using relation Qeq
        by (unfold Z.sub; rewrite inject_Z_plus, inject_Z_mult, inject_Z_opp;
            change (inject_Z 1) with 1; field; lra).
      rewrite <- Zle_Qle. lia. }
    assert (Hnb : (Z.abs n <= 2 ^ 27 - 1)%Z) by (unfold msPerDay in *; lia).
    assert (Hyl : - 2 ^ 27 < y).
    { apply Z.abs_le in Hnb. destruct Hnb as [Hnb _].
      rewrite Zle_Qle in Hnb.
      assert (0 < 1 / inject_Z msPerDay) by reflexivity.
      change (inject_Z (- (2 ^ 27 - 1))) with (- 2 ^ 27 + 1) in Hnb. lra. }
    assert (Hyu : y < 2 ^ 27).
    { apply Z.abs_le in Hnb. destruct Hnb as [_ Hnb].
      rewrite Zle_Qle in Hnb.
      assert (0 < 1 / inject_Z msPerDay) by reflexivity.
      change (inject_Z (2 ^ 27 - 1)) with (2 ^ 27 - 1) in Hnb. lra. }
    pose proof (round_error y 27 Hyl Hyu) as Hr.
    assert (Hs : 2 ^ (27 - 54) < 1 / inject_Z msPerDay) by reflexivity.
    apply Qceiling_unique; lra.
Qed.

(** Farther apart the rounded difference can fall on the other side of a
    whole number of days: 11596411699200001 ms are one ms more than
    134217728 days, and the result is 134217728. *)
Example calculateResolutionTime_far_apart :
  calculateResolutionTime (-4000000000000000) 7596411699200001 = 134217728%Z
  /\ ceilDays (7596411699200001 - -4000000000000000) = 134217729%Z.
Proof. split; vm_compute; reflexivity. Qed.

End Numbers.

(** ** The listings of the complaint controller *)

Section Listings.

Import ComplaintQueries.

Lemma insertWith_In {A : Type} (leb : A -> A -> bool) (x y : A) (l : list A) :
  In y (insertWith leb x l) <-> y = x \/ In y l.
Proof.
  induction l as [|a l IH]; simpl; [intuition|].
  destruct (leb x a); simpl; [intuition|]. rewrite IH. intuition.
Qed.

Lemma sortWith_In {A : Type} (leb : A -> A -> bool) (y : A) (l : list A) :
  In y (sortWith leb l) <-> In y l.
Proof.
  unfold sortWith. induction l as [|a l IH]; simpl; [tauto|].
  rewrite insertWith_In, IH. intuition.
Qed.

Lemma insertWith_length {A : Type} (leb : A -> A -> bool) (x : A) (l : list A) :
  length (insertWith leb x l) = S (length l).
Proof.
  induction l as [|a l IH]; simpl; [reflexivity|].
  destruct (leb x a); simpl; [reflexivity|now rewrite IH].
Qed.

Lemma sortWith_length {A : Type} (leb : A -> A -> bool) (l : list A) :
  length (sortWith leb l) = length l.
Proof.
  unfold sortWith. induction l as [|a l IH]; simpl; [reflexivity|].
  now rewrite insertWith_length, IH.
Qed.

(** Sorting by an order in which any two documents compare one way or the
    other leaves each document in order with the next. *)
Lemma sortWith_Sorted {A : Type} (leb : A -> A -> bool) (l : list A) :
  (forall x y, leb x y = true \/ leb y x = true) ->
  Sorted (fun x y => leb x y = true) (sortWith leb l).
Proof.
  intros Htotal. unfold sortWith.
  induction l as [|x l IH]; simpl; [constructor|].
  revert IH. generalize (foldr (insertWith leb) [] l). clear l.
  intros l Hs. induction l as [|a l IH]; simpl.
  - repeat constructor.
  - destruct (leb x a) eqn:Hxa.
    + constructor; [exact Hs|]. now constructor.
    + apply Sorted_inv in Hs as [Hs Hhd].
      constructor; [now apply IH|].
      assert (Hax : leb a x = true)
        by (destruct (Htotal x a); [congruence|assumption]).
      destruct l as [|b l]; simpl; [now constructor|].
      destruct (leb x b); constructor; [exact Hax|now inversion Hhd].
Qed.

Lemma institutionOrder_total (sortBy : option string) (x y : N * Complaint) :
  institutionOrder sortBy x y = true \/ institutionOrder sortBy y x = true.
Proof.
  assert (Hd : deadlineAscending x y = true \/ deadlineAscending y x = true).
  { unfold deadlineAscending, AdminController.bsonLte.
    destruct (resolutionDeadline x.2), (resolutionDeadline y.2); auto.
    rewrite !Z.leb_le. lia. }
  assert (Ha : submissionAscending x y = true \/ submissionAscending y x = true)
    by (unfold submissionAscending; rewrite !Z.leb_le; lia).
  assert (Hn : submissionDescending x y = true \/ submissionDescending y x = true)
    by (unfold submissionDescending; rewrite !Z.leb_le; lia).
  unfold institutionOrder. destruct sortBy as [v|]; [|exact Hd].
  repeat case_match; assumption.
Qed.

Lemma findComplaints_In (query : Complaint -> bool) (db : Store) (id : N)
    (c : Complaint) :
  In (id, c) (findComplaints query db) <->
  db.(complaints) !! id = Some c /\ query c = true.
Proof.
  unfold findComplaints. rewrite filter_In. simpl.
  rewrite <- list_elem_of_In, elem_of_map_to_list. tauto.
Qed.

(** The number of whole days that [Math.ceil] makes of a number of
    milliseconds. *)
Lemma ceilDays_spec (ms : Z) :
  (ceilDays ms - 1) * JSDate.msPerDay < ms <= ceilDays ms * JSDate.msPerDay.
Proof.
  unfold ceilDays, JSDate.msPerDay. Z.div_mod_to_equations. lia.
Qed.

Lemma ceilDays_le (ms n : Z) :
  ceilDays ms <= n <-> ms <= n * JSDate.msPerDay.
Proof.
  pose proof (ceilDays_spec ms). pose proof msPerDay_positive. split; nia.
Qed.

(** X11. For a resolution and a submission less than 2^53 ms apart, the
    resolution time in days is the least whole number of days that covers
    the time from submission to resolution; it is at least 0 when the
    resolution is not before the submission and at least 1 when it is
    after it. *)
Theorem calculateResolutionTime_least_cover (submissionDate resolutionDate : Z) :
  Z.abs (resolutionDate - submissionDate) < 2 ^ 53 ->
  let n := calculateResolutionTime submissionDate resolutionDate in
  resolutionDate - submissionDate <= n * JSDate.msPerDay
  /\ (forall k, resolutionDate - submissionDate <= k * JSDate.msPerDay -> n <= k)
  /\ (submissionDate <= resolutionDate -> 0 <= n)
  /\ (submissionDate < resolutionDate -> 1 <= n).
Proof.
  intros Hrange. simpl.
  rewrite (calculateResolutionTime_exact _ _ Hrange).
  pose proof (ceilDays_spec (resolutionDate - submissionDate)) as Hs.
  pose proof msPerDay_positive.
  split; [lia|]. split; [|split].
  - intros k Hk. nia.
  - intros Hle. nia.
  - intros Hlt. nia.
Qed.

Lemma calculateResolutionTime_least_cover_witness :
  Z.abs (1709208000001 - 1709121600000) < 2 ^ 53
  /\ calculateResolutionTime 1709121600000 1709208000001 = 2
  /\ 1709208000001 - 1709121600000
     <= calculateResolutionTime 1709121600000 1709208000001 * JSDate.msPerDay.
Proof.
  split; [vm_compute; reflexivity|]. split; [vm_compute; reflexivity|].
  assert (Hrange : Z.abs (1709208000001 - 1709121600000) < 2 ^ 53)
    by (vm_compute; reflexivity).
  exact (proj1 (calculateResolutionTime_least_cover
                  1709121600000 1709208000001 Hrange)).
Defined.

(** X12. What [getInstitutionComplaints] answers to an institution: the
    count is the number of complaints listed; a complaint is listed exactly
    when it is stored for this institution, is not RESOLVED if
    [status=unresolved] or [deadlineApproaching=true] was asked, and, if
    [deadlineApproaching=true] was asked, has a deadline from now to two
    days from now. An overdue complaint is therefore not listed as
    approaching. *)
Theorem getInstitutionComplaints_selection (h : Host) (user : User)
    (statusParam deadlineApproaching sortBy : option string) (db : Store) :
  user.(u_role) = "institution" ->
  exists views,
    getInstitutionComplaints h user statusParam deadlineApproaching sortBy db
    = qjson (QInstitutionComplaints (Z.of_nat (length views)) views)
    /\ forall id c,
         (exists v, In v views /\ v.(v_id) = id /\ v.(v_complaint) = c) <->
         (db.(complaints) !! id = Some c
          /\ c.(institutionId) = user.(u_id)
          /\ (statusParam = Some "unresolved" \/ deadlineApproaching = Some "true" ->
              c.(status) <> "RESOLVED")
          /\ (deadlineApproaching = Some "true" ->
              exists d, c.(resolutionDeadline) = Some d
                        /\ h.(now) <= d <= h.(now) + 2 * JSDate.msPerDay)).
Proof.
  intros Hrole. unfold getInstitutionComplaints. rewrite Hrole. simpl.
  eexists. split; [now rewrite length_map|].
  intros id c. split.
  - intros (v & Hv & <- & <-).
    apply in_map_iff in Hv as ([id c] & <- & Hic). simpl.
    apply sortWith_In, findComplaints_In in Hic as [Hc Hq].
    split; [exact Hc|]. unfold institutionQuery in Hq.
    rewrite setDate_getDate in Hq.
    apply andb_true_iff in Hq as [Hq Hrange].
    apply andb_true_iff in Hq as [Hown Hstat].
    apply N.eqb_eq in Hown. split; [exact Hown|]. split.
    + intros [-> | ->]; simpl in Hstat;
        rewrite ?orb_true_r in Hstat; apply negb_true_iff, String.eqb_neq in Hstat;
        exact Hstat.
    + intros ->. simpl in Hrange.
      destruct (resolutionDeadline c) as [d|]; [|discriminate].
      exists d. split; [reflexivity|].
      apply andb_true_iff in Hrange as [H1 H2].
      apply Z.leb_le in H1, H2. lia.
  - intros (Hc & Hown & Hstat & Hrange).
    exists (withUrgency h (id, c)). split; [|now split].
    apply in_map, sortWith_In, findComplaints_In. split; [exact Hc|].
    unfold institutionQuery. rewrite setDate_getDate.
    rewrite Hown, N.eqb_refl. simpl.
    apply andb_true_iff. split.
    + match goal with
      | |- (if ?flag then _ else _) = true => destruct flag eqn:Hflag
      end; [|reflexivity].
      apply negb_true_iff, String.eqb_neq, Hstat.
      apply orb_true_iff in Hflag as [Hflag|Hflag];
        [destruct statusParam as [v|]|destruct deadlineApproaching as [v|]];
        try discriminate; apply String.eqb_eq in Hflag; subst; auto.
    + destruct deadlineApproaching as [w|]; [|reflexivity].
      destruct (String.eqb_spec w "true") as [->|]; [|reflexivity].
      destruct (Hrange eq_refl) as (d & -> & Hd).
      apply andb_true_iff. rewrite !Z.leb_le. lia.
Qed.

Lemma getInstitutionComplaints_selection_witness :
  Scenario.wasac.(u_role) = "institution"
  /\ exists views,
       getInstitutionComplaints (Scenario.host Scenario.t1 true) Scenario.wasac
         None (Some "true") None Scenario.db1
       = qjson (QInstitutionComplaints (Z.of_nat (length views)) views)
       /\ (exists v, In v views /\ v.(v_id) = 100%N
                     /\ v.(v_complaint) = Scenario.submitted).
Proof.
  split; [reflexivity|].
  destruct (getInstitutionComplaints_selection (Scenario.host Scenario.t1 true)
              Scenario.wasac None (Some "true") None Scenario.db1 eq_refl)
    as (views & Hv & Hsel).
  exists views. split; [exact Hv|].
  apply Hsel. rewrite db1_complaints.
  split; [apply lookup_singleton_eq|]. split; [reflexivity|].
  split; [discriminate|].
  intros _. eexists. split; [reflexivity|]. vm_compute. split; discriminate.
Defined.

(** X13. The urgency fields of [getInstitutionComplaints]: a listed
    complaint without deadline has none; for one with a deadline,
    [daysUntilDeadline] is the least whole number of days from now that
    reaches the deadline (0 or negative once it is overdue), and [isUrgent]
    holds exactly when the complaint is not RESOLVED and the deadline is at
    most two days ahead, overdue deadlines included. *)
Theorem getInstitutionComplaints_urgency (h : Host) (user : User)
    (statusParam deadlineApproaching sortBy : option string) (db : Store) :
  user.(u_role) = "institution" ->
  exists views,
    getInstitutionComplaints h user statusParam deadlineApproaching sortBy db
    = qjson (QInstitutionComplaints (Z.of_nat (length views)) views)
    /\ forall v, In v views ->
         match v.(v_complaint).(resolutionDeadline) with
         | None => v.(v_urgency) = None
         | Some d =>
           exists urgent n,
             v.(v_urgency) = Some (urgent, n)
             /\ (n - 1) * JSDate.msPerDay < d - h.(now) <= n * JSDate.msPerDay
             /\ (urgent = true <->
                 v.(v_complaint).(status) <> "RESOLVED"
                 /\ d <= h.(now) + 2 * JSDate.msPerDay)
         end.
Proof.
  intros Hrole. unfold getInstitutionComplaints. rewrite Hrole. simpl.
  eexists. split; [now rewrite length_map|].
  intros v Hv. apply in_map_iff in Hv as ([id c] & <- & _). simpl.
  destruct (resolutionDeadline c) as [d|]; [|reflexivity].
  eexists _, _. split; [reflexivity|]. split; [apply ceilDays_spec|].
  rewrite andb_true_iff, negb_true_iff, String.eqb_neq, Z.leb_le, ceilDays_le.
  split; intros [H1 H2]; split; auto; lia.
Qed.

Lemma getInstitutionComplaints_urgency_witness :
  exists views,
    getInstitutionComplaints (Scenario.host Scenario.t1 true) Scenario.wasac
      None None None Scenario.db1
    = qjson (QInstitutionComplaints (Z.of_nat (length views)) views).
Proof.
  destruct (getInstitutionComplaints_urgency (Scenario.host Scenario.t1 true)
              Scenario.wasac None None None Scenario.db1 eq_refl)
    as (views & Hv & _).
  exists views. exact Hv.
Defined.

Lemma Sorted_map {A B : Type} (f : A -> B) (R : B -> B -> Prop) (l : list A) :
  Sorted (fun x y => R (f x) (f y)) l -> Sorted R (map f l).
Proof.
  induction 1 as [|a l Hs IH Hhd]; simpl; constructor; [exact IH|].
  destruct Hhd; simpl; constructor. assumption.
Qed.

Lemma Sorted_impl {A : Type} (R R' : A -> A -> Prop) (l : list A) :
  (forall x y, R x y -> R' x y) -> Sorted R l -> Sorted R' l.
Proof.
  intros HR. induction 1 as [|a l Hs IH Hhd]; constructor; [exact IH|].
  destruct Hhd; constructor. auto.
Qed.

(** X14. The order of the complaints that [getInstitutionComplaints]
    lists: by submission date, oldest first, for [sortBy=oldest]; by
    submission date, newest first, for [sortBy=newest]; and for every other
    or no [sortBy] by deadline, soonest first, complaints without deadline
    coming before all others. *)
Theorem getInstitutionComplaints_order (h : Host) (user : User)
    (statusParam deadlineApproaching sortBy : option string) (db : Store) :
  user.(u_role) = "institution" ->
  exists views,
    getInstitutionComplaints h user statusParam deadlineApproaching sortBy db
    = qjson (QInstitutionComplaints (Z.of_nat (length views)) views)
    /\ (sortBy = Some "oldest" ->
        Sorted (fun v w => v.(v_complaint).(submissionDate)
                           <= w.(v_complaint).(submissionDate)) views)
    /\ (sortBy = Some "newest" ->
        Sorted (fun v w => w.(v_complaint).(submissionDate)
                           <= v.(v_complaint).(submissionDate)) views)
    /\ (sortBy <> Some "oldest" -> sortBy <> Some "newest" ->
        Sorted (fun v w =>
                  match v.(v_complaint).(resolutionDeadline),
                        w.(v_complaint).(resolutionDeadline) with
                  | None, _ => True
                  | Some _, None => False
                  | Some d, Some e => d <= e
                  end) views).
Proof.
  intros Hrole. unfold getInstitutionComplaints. rewrite Hrole. simpl.
  eexists. split; [now rewrite length_map|].
  set (found := findComplaints _ db).
  pose proof (sortWith_Sorted (institutionOrder sortBy) found
                (institutionOrder_total sortBy)) as Hs.
  split; [|split].
  - intros ->. apply Sorted_map. simpl in *.
    eapply Sorted_impl; [|exact Hs]. intros x y Hxy.
    now apply Z.leb_le in Hxy.
  - intros ->. apply Sorted_map. simpl in *.
    eapply Sorted_impl; [|exact Hs]. intros x y Hxy.
    now apply Z.leb_le in Hxy.
  - intros Ho Hn. apply Sorted_map.
    assert (E : institutionOrder sortBy = deadlineAscending).
    { unfold institutionOrder. destruct sortBy as [v|]; [|reflexivity].
      destruct (v =? "deadline")%string; [reflexivity|].
      destruct (String.eqb_spec v "oldest") as [->|_]; [contradiction|].
      destruct (String.eqb_spec v "newest") as [->|_]; [contradiction|].
      reflexivity. }
    rewrite E in *. eapply Sorted_impl; [|exact Hs]. intros x y. simpl.
    unfold deadlineAscending, AdminController.bsonLte.
    destruct (resolutionDeadline x.2), (resolutionDeadline y.2);
      try discriminate; auto. now rewrite Z.leb_le.
Qed.

Lemma getInstitutionComplaints_order_witness :
  exists views,
    getInstitutionComplaints (Scenario.host Scenario.t1 true) Scenario.wasac
      None None (Some "newest") Scenario.db1
    = qjson (QInstitutionComplaints (Z.of_nat (length views)) views)
    /\ Sorted (fun v w => w.(v_complaint).(submissionDate)
                          <= v.(v_complaint).(submissionDate)) views.
Proof.
  destruct (getInstitutionComplaints_order (Scenario.host Scenario.t1 true)
              Scenario.wasac None None (Some "newest") Scenario.db1 eq_refl)
    as (views & Hv & _ & Hnew & _).
  exists views. split; [exact Hv|]. apply Hnew. reflexivity.
Defined.

(** X15. [getMyComplaints] answers a citizen with exactly the complaints
    that citizen submitted and an institution with exactly the complaints
    assigned to it, newest submission first; every other role gets 403. *)
Theorem getMyComplaints_own (user : User) (db : Store) :
  (user.(u_role) = "citizen" ->
   exists l,
     getMyComplaints user db = qjson (QComplaints l)
     /\ (forall id c, In (id, c) l <->
           db.(complaints) !! id = Some c /\ c.(citizenId) = user.(u_id))
     /\ Sorted (fun x y => (snd y).(submissionDate) <= (snd x).(submissionDate)) l)
  /\ (user.(u_role) = "institution" ->
      exists l,
        getMyComplaints user db = qjson (QComplaints l)
        /\ (forall id c, In (id, c) l <->
              db.(complaints) !! id = Some c /\ c.(institutionId) = user.(u_id))
        /\ Sorted (fun x y => (snd y).(submissionDate) <= (snd x).(submissionDate)) l)
  /\ (user.(u_role) <> "citizen" -> user.(u_role) <> "institution" ->
      getMyComplaints user db
      = mkQueryResponse 403 (QMessage "Unauthorized access")).
Proof.
  assert (Hsorted : forall l,
            Sorted (fun x y : N * Complaint =>
                      (snd y).(submissionDate) <= (snd x).(submissionDate))
              (sortWith submissionDescending l)).
  { intros l. eapply Sorted_impl; [|apply sortWith_Sorted].
    - intros x y Hxy. now apply Z.leb_le in Hxy.
    - intros x y. unfold submissionDescending. rewrite !Z.leb_le. lia. }
  unfold getMyComplaints. split; [|split].
  - intros ->. simpl. eexists. split; [reflexivity|]. split; [|apply Hsorted].
    intros id c. rewrite sortWith_In, findComplaints_In, N.eqb_eq. tauto.
  - intros ->. simpl. eexists. split; [reflexivity|]. split; [|apply Hsorted].
    intros id c. rewrite sortWith_In, findComplaints_In, N.eqb_eq. tauto.
  - intros Hc Hi. apply String.eqb_neq in Hc, Hi. now rewrite Hc, Hi.
Qed.

End Listings.

(** ** Tracking and forwarding history *)

Section Tracking.

Import ComplaintQueries.

(** When a single stored complaint has a tracking number, the lookup by
    that number answers with it. *)
Lemma getComplaintByTracking_unique (tracking : string) (db : Store) (id : N)
    (c : Complaint) :
  db.(complaints) !! id = Some c -> c.(trackingNumber) = tracking ->
  (forall id' c', db.(complaints) !! id' = Some c' ->
     c'.(trackingNumber) = tracking -> id' = id) ->
  getComplaintByTracking tracking db = qjson (QComplaint id c).
Proof.
  intros Hc Ht Huniq. unfold getComplaintByTracking.
  destruct (find _ (map_to_list (complaints db))) as [[id0 c0]|] eqn:Hf.
  - apply find_Some_elem in Hf as [Hin Ht0]. simpl in Ht0.
    apply elem_of_map_to_list in Hin. apply String.eqb_eq in Ht0.
    assert (id0 = id) as -> by now apply (Huniq id0 c0).
    congruence.
  - rewrite find_None_elem in Hf.
    apply elem_of_map_to_list, Hf in Hc. simpl in Hc.
    apply String.eqb_neq in Hc. contradiction.
Qed.

(** X16. [getComplaintByTracking] answers 404 exactly when no stored
    complaint has the tracking number; a complaint it answers with is
    stored under the id given and has the tracking number; and when a
    single complaint has the tracking number, that complaint is the
    answer. *)
Theorem getComplaintByTracking_lookup (tracking : string) (db : Store) :
  (getComplaintByTracking tracking db
   = mkQueryResponse 404 (QMessage "Complaint not found") <->
   forall id c, db.(complaints) !! id = Some c -> c.(trackingNumber) <> tracking)
  /\ (forall id c,
        getComplaintByTracking tracking db = qjson (QComplaint id c) ->
        db.(complaints) !! id = Some c /\ c.(trackingNumber) = tracking)
  /\ (forall id c,
        db.(complaints) !! id = Some c -> c.(trackingNumber) = tracking ->
        (forall id' c', db.(complaints) !! id' = Some c' ->
           c'.(trackingNumber) = tracking -> id' = id) ->
        getComplaintByTracking tracking db = qjson (QComplaint id c)).
Proof.
  split; [|split; [|apply getComplaintByTracking_unique]];
    unfold getComplaintByTracking;
    destruct (find _ (map_to_list (complaints db))) as [[id0 c0]|] eqn:Hf.
  - apply find_Some_elem in Hf as [Hin Ht]. simpl in Ht.
    apply elem_of_map_to_list in Hin. apply String.eqb_eq in Ht.
    split; [discriminate|]. intros Hnone. now destruct (Hnone id0 c0).
  - rewrite find_None_elem in Hf.
    split; [|reflexivity]. intros _ id c Hc.
    apply elem_of_map_to_list, Hf in Hc. simpl in Hc.
    now apply String.eqb_neq.
  - apply find_Some_elem in Hf as [Hin Ht]. simpl in Ht.
    apply elem_of_map_to_list in Hin. apply String.eqb_eq in Ht.
    intros id c [= <- <-]. now split.
  - discriminate.
Qed.

(** X17. Intake followed by tracking: after a submission that is answered
    201, the tracking number given to the new complaint leads to a stored
    complaint; when no other complaint carries that number, it leads to the
    new complaint, as the answer to the submission showed it. *)
Theorem submit_then_track (h : Host) (req : SubmitRequest) (db : Store)
    (id : N) (c : Complaint) (assignedTo : option string) (sent : bool)
    (err : option string) :
  fst (ComplaintController.submitComplaint h req db)
  = mkResponse 201 (ComplaintSubmitted id c assignedTo sent err) ->
  let db' := snd (ComplaintController.submitComplaint h req db) in
  c.(trackingNumber) = h.(newTrackingNumber)
  /\ (exists id' c',
        getComplaintByTracking h.(newTrackingNumber) db' = qjson (QComplaint id' c'))
  /\ ((forall id' c', db.(complaints) !! id' = Some c' -> id' <> id ->
         c'.(trackingNumber) <> h.(newTrackingNumber)) ->
      getComplaintByTracking h.(newTrackingNumber) db' = qjson (QComplaint id c)).
Proof.
  intros Hresp db'. subst db'.
  unfold ComplaintController.submitComplaint in *.
  destruct (sr_errors req); [|discriminate].
  destruct (negb _); [discriminate|].
  destruct (ComplaintController.findAppropriateInstitution _ _ _ _) as [i|];
    [|discriminate].
  simpl in *. injection Hresp as <- <- _ _ _. simpl.
  split; [reflexivity|].
  set (c := ComplaintController.newComplaint h req i _).
  set (db' := saveComplaint (newObjectId h) c db).
  assert (Hc : complaints db' !! newObjectId h = Some c)
    by apply lookup_insert_eq.
  split.
  - destruct (getComplaintByTracking (newTrackingNumber h) db')
      as [code body] eqn:Hg.
    unfold getComplaintByTracking in Hg.
    destruct (find _ _) as [[id' c']|] eqn:Hf.
    + injection Hg as <- <-. eauto.
    + exfalso. rewrite find_None_elem in Hf.
      apply elem_of_map_to_list, Hf in Hc. simpl in Hc.
      now rewrite String.eqb_refl in Hc.
  - intros Hfresh.
    apply getComplaintByTracking_unique; [exact Hc|reflexivity|].
    intros id' c' Hc' Ht.
    destruct (decide (id' = newObjectId h)) as [->|Hne]; [reflexivity|].
    unfold db' in Hc'. simpl in Hc'. rewrite lookup_insert_ne in Hc' by done.
    now destruct (Hfresh id' c' Hc' Hne).
Qed.

Lemma submit_then_track_witness :
  getComplaintByTracking "CMP-0001" Scenario.db1
  = qjson (QComplaint 100%N Scenario.submitted).
Proof.
  apply (submit_then_track (Scenario.host Scenario.t0 true)
           Scenario.submitRequest Scenario.db0 100%N Scenario.submitted
           (Some "WASAC") true None); [vm_compute; reflexivity|].
  intros id' c' Hc'. vm_compute in Hc'. discriminate Hc'.
Defined.

(** X18. The forwarding history of a complaint is answered, with status
    200, exactly to the institution the complaint is assigned to and to the
    citizen who submitted it; everyone else, and everyone for a missing
    complaint, gets one and the same 404. The records answered are exactly
    the stored records of that complaint. *)
Theorem getForwardingHistory_access (user : User) (id : N) (db : Store) :
  ((exists c, db.(complaints) !! id = Some c
              /\ (c.(institutionId) = user.(u_id) \/ c.(citizenId) = user.(u_id))) ->
   exists records,
     getForwardingHistory user id db = qjson (QForwardingHistory records)
     /\ forall r, In r records <->
          In r db.(forwardingRecords) /\ r.(complaintId) = id)
  /\ (~ (exists c, db.(complaints) !! id = Some c
                   /\ (c.(institutionId) = user.(u_id)
                       \/ c.(citizenId) = user.(u_id))) ->
      getForwardingHistory user id db
      = mkQueryResponse 404
          (QMessage "Complaint not found or you do not have permission to view it")).
Proof.
  unfold getForwardingHistory. split.
  - intros (c & -> & Hown).
    replace ((institutionId c =? u_id user)%N || (citizenId c =? u_id user)%N)
      with true
      by (symmetry; rewrite orb_true_iff, !N.eqb_eq; exact Hown).
    eexists. split; [reflexivity|].
    intros r. rewrite <- in_rev, filter_In, N.eqb_eq. tauto.
  - intros Hnone. destruct (complaints db !! id) as [c|]; [|reflexivity].
    destruct (_ || _) eqn:Hb; [|reflexivity].
    exfalso. apply Hnone. exists c. split; [reflexivity|].
    now rewrite orb_true_iff, !N.eqb_eq in Hb.
Qed.

(** X19. Forwarding followed by the history: after a forward that passes
    its checks, the history of the complaint, asked by the forwarding
    institution, is the new record followed by the history as it was
    before. *)
Theorem forward_then_history (h : Host) (req : ForwardRequest) (db : Store)
    (c : Complaint) (d : DistrictDepartment) :
  req.(fr_errors) = [] ->
  db.(complaints) !! req.(fr_complaintId) = Some c ->
  c.(institutionId) = req.(fr_user).(u_id) ->
  db.(departments) !! req.(fr_departmentId) = Some d ->
  d.(d_district) = c.(district) ->
  exists before,
    getForwardingHistory req.(fr_user) req.(fr_complaintId) db
    = qjson (QForwardingHistory before)
    /\ getForwardingHistory req.(fr_user) req.(fr_complaintId)
         (snd (ComplaintController.forwardComplaint h req db))
       = qjson (QForwardingHistory
                  (mkForwardingRecord req.(fr_complaintId) req.(fr_user).(u_id)
                     req.(fr_departmentId) req.(fr_forwardingNote) :: before)).
Proof.
  intros He Hc Hown Hd Hdist.
  rewrite (forwardComplaint_success h req db c d He Hc Hown Hd Hdist).
  unfold getForwardingHistory. simpl.
  rewrite Hc, lookup_insert_eq. simpl. rewrite Hown, N.eqb_refl. simpl.
  eexists. split; [reflexivity|].
  rewrite List.filter_app, rev_app_distr. simpl. now rewrite N.eqb_refl.
Qed.

Lemma forward_then_history_witness :
  exists before,
    getForwardingHistory Scenario.wasac 100%N Scenario.db2
    = qjson (QForwardingHistory before)
    /\ getForwardingHistory Scenario.wasac 100%N
         (snd (ComplaintController.forwardComplaint
                 (Scenario.host Scenario.t2 true) Scenario.forwardRequest
                 Scenario.db2))
       = qjson (QForwardingHistory
                  (mkForwardingRecord 100%N 10%N 30%N
                     "Please check the main valve" :: before)).
Proof.
  apply (forward_then_history (Scenario.host Scenario.t2 true)
           Scenario.forwardRequest Scenario.db2 Scenario.resolved
           Scenario.waterDepartment);
    vm_compute; reflexivity.
Defined.

End Tracking.

(** ** Institution management *)

Section Institutions.

Import InstitutionAdmin.

(** The creation of an institution whose e-mail address no user has. *)
Lemma createInstitution_fresh (h : Host) (req : CreateRequest) (db : Store) :
  req.(ci_errors) = [] ->
  (forall u, u ∈ db.(users) -> u.(u_email) <> req.(ci_email)) ->
  createInstitution h req db
  = (mkAdminResponse 200
       (AInstitution
          (mkUser h.(newObjectId) "institution" req.(ci_province)
             req.(ci_district) req.(ci_institutionName) req.(ci_email)
             req.(ci_phone))),
     mkStore
       (db.(users)
        ++ [mkUser h.(newObjectId) "institution" req.(ci_province)
              req.(ci_district) req.(ci_institutionName) req.(ci_email)
              req.(ci_phone)])
       db.(complaints) db.(departments) db.(forwardingRecords)).
Proof.
  intros He Hfree. unfold createInstitution. rewrite He.
  destruct (find _ (users db)) as [u|] eqn:Hf; [|reflexivity].
  apply find_Some_elem in Hf as [Hu Hmail]. apply String.eqb_eq in Hmail.
  now destruct (Hfree u Hu).
Qed.

(** X20. [createInstitution] with a well-formed request: an e-mail address
    that any user already has, citizen or institution, is refused with 400
    and nothing is stored; otherwise the answer is the new institution,
    which is appended to the users with the role institution and the
    fields of the request, and nothing else changes. *)
Theorem createInstitution_outcome (h : Host) (req : CreateRequest) (db : Store) :
  req.(ci_errors) = [] ->
  ((exists u, u ∈ db.(users) /\ u.(u_email) = req.(ci_email)) ->
   createInstitution h req db
   = (mkAdminResponse 400 (AMessage "Institution already exists"), db))
  /\ ((forall u, u ∈ db.(users) -> u.(u_email) <> req.(ci_email)) ->
      let i := mkUser h.(newObjectId) "institution" req.(ci_province)
                 req.(ci_district) req.(ci_institutionName) req.(ci_email)
                 req.(ci_phone) in
      createInstitution h req db
      = (mkAdminResponse 200 (AInstitution i),
         mkStore (db.(users) ++ [i]) db.(complaints) db.(departments)
           db.(forwardingRecords))).
Proof.
  intros He. split.
  - intros (u & Hu & Hmail). unfold createInstitution. rewrite He.
    destruct (find _ (users db)) eqn:Hf; [reflexivity|].
    rewrite find_None_elem in Hf. specialize (Hf u Hu). simpl in Hf.
    apply String.eqb_neq in Hf. contradiction.
  - intros Hfree i. now apply createInstitution_fresh.
Qed.

Lemma createInstitution_outcome_witness :
  createInstitution (Scenario.host Scenario.t0 true)
    (mkCreateRequest [] "RURA" "care@wasac.example" "0788000009" "secret"
       "Kigali" "Nyarugenge") Scenario.db0
  = (mkAdminResponse 400 (AMessage "Institution already exists"), Scenario.db0).
Proof.
  apply (createInstitution_outcome (Scenario.host Scenario.t0 true)
           (mkCreateRequest [] "RURA" "care@wasac.example" "0788000009" "secret"
              "Kigali" "Nyarugenge") Scenario.db0 eq_refl).
  exists Scenario.wasac. split; [apply list_elem_of_here|reflexivity].
Defined.

Lemma find_app_Some {A : Type} (p : A -> bool) (l k : list A) :
  is_Some (find p k) -> is_Some (find p (l ++ k)).
Proof.
  intros Hk. induction l as [|a l IH]; simpl; [exact Hk|].
  destruct (p a); [eauto|exact IH].
Qed.

(** X21. Creation followed by intake: once an institution has been created
    for a province and district, the resolver finds an institution of
    exactly that province and district for every category, and one of the
    province for every other district of it; so a well-formed submission of
    a citizen for that province is answered 201. *)
Theorem create_then_submit (h : Host) (req : CreateRequest) (db : Store) :
  req.(ci_errors) = [] ->
  (forall u, u ∈ db.(users) -> u.(u_email) <> req.(ci_email)) ->
  let db' := snd (createInstitution h req db) in
  (forall category,
     exists i,
       ComplaintController.findAppropriateInstitution db' category
         req.(ci_province) req.(ci_district) = Some i
       /\ institutionIn db' req.(ci_province) req.(ci_district) i)
  /\ (forall category district,
        exists i,
          ComplaintController.findAppropriateInstitution db' category
            req.(ci_province) district = Some i
          /\ institutionOf db' req.(ci_province) i)
  /\ (forall h' sreq,
        sreq.(sr_errors) = [] ->
        sreq.(sr_user).(u_role) = "citizen" ->
        sreq.(sr_province) = req.(ci_province) ->
        (fst (ComplaintController.submitComplaint h' sreq db')).(statusCode) = 201).
Proof.
  intros He Hfree db'.
  subst db'. rewrite (createInstitution_fresh h req db He Hfree). simpl.
  set (i := mkUser (newObjectId h) "institution" (ci_province req)
              (ci_district req) (ci_institutionName req) (ci_email req)
              (ci_phone req)).
  set (db' := mkStore (users db ++ [i]) (complaints db) (departments db)
                (forwardingRecords db)).
  assert (Hexact : is_Some (find (ComplaintController.isInstitutionIn
                                     (ci_province req) (ci_district req))
                              (users db'))).
  { apply find_app_Some. simpl.
    unfold ComplaintController.isInstitutionIn. simpl.
    rewrite !String.eqb_refl. eauto. }
  assert (Hprov : is_Some (find (ComplaintController.isInstitutionOf
                                    (ci_province req)) (users db'))).
  { apply find_app_Some. simpl.
    unfold ComplaintController.isInstitutionOf. simpl.
    rewrite !String.eqb_refl. eauto. }
  assert (Hany : forall category district,
            exists i0,
              ComplaintController.findAppropriateInstitution db' category
                (ci_province req) district = Some i0
              /\ institutionOf db' (ci_province req) i0).
  { intros category district.
    unfold ComplaintController.findAppropriateInstitution.
    destruct (find (ComplaintController.isInstitutionIn _ district) (users db'))
      as [i0|] eqn:Hf.
    - exists i0. split; [reflexivity|].
      apply find_Some_elem in Hf as [Hin Hp].
      apply (isInstitutionIn_spec db') in Hp as (? & ? & ? & ?); [|exact Hin].
      repeat split; assumption.
    - destruct Hprov as [i0 Hg]. rewrite Hg. exists i0. split; [reflexivity|].
      apply find_Some_elem in Hg as [Hin Hp].
      now apply (isInstitutionOf_spec db'). }
  split; [|split].
  - intros category. unfold ComplaintController.findAppropriateInstitution.
    destruct Hexact as [i0 Hf]. rewrite Hf. exists i0. split; [reflexivity|].
    apply find_Some_elem in Hf as [Hin Hp]. now apply (isInstitutionIn_spec db').
  - exact Hany.
  - intros h' sreq Hse Hrole Hp.
    destruct (Hany (sr_category sreq) (sr_district sreq)) as (i0 & Hi0 & _).
    unfold ComplaintController.submitComplaint.
    rewrite Hse, Hrole, Hp, Hi0. reflexivity.
Qed.

Lemma create_then_submit_witness :
  (fst (ComplaintController.submitComplaint (Scenario.host Scenario.t0 true)
          (mkSubmitRequest Scenario.citizen [] "Dark street" "No lights" "ELECTRICITY"
             "Huye" "Ngoma")
          (snd (createInstitution (Scenario.host Scenario.t0 true)
                  (mkCreateRequest [] "Huye Power" "power@huye.example"
                     "0788000010" "secret" "Huye" "Tumba")
                  Scenario.db0)))).(statusCode) = 201.
Proof.
  apply (create_then_submit (Scenario.host Scenario.t0 true)
           (mkCreateRequest [] "Huye Power" "power@huye.example"
              "0788000010" "secret" "Huye" "Tumba") Scenario.db0 eq_refl);
    try reflexivity.
  intros u Hu. unfold Scenario.db0 in Hu. simpl in Hu.
  rewrite !elem_of_cons, elem_of_nil in Hu.
  destruct Hu as [->|[->|[->|[]]]]; discriminate.
Defined.

Lemma saveUser_found (u u' : User) (l : list User) :
  find (fun x => (x.(u_id) =? u'.(u_id))%N) l = Some u ->
  find (fun x => (x.(u_id) =? u'.(u_id))%N) (saveUser u' l) = Some u'
  /\ saveUser u' (saveUser u' l) = saveUser u' l
  /\ length (saveUser u' l) = length l
  /\ (forall v, v ∈ saveUser u' l -> v = u' \/ v ∈ l)
  /\ (forall v, v ∈ l -> v.(u_id) <> u'.(u_id) -> v ∈ saveUser u' l).
Proof.
  induction l as [|a l IH]; simpl; [discriminate|].
  destruct (N.eqb_spec (u_id a) (u_id u')) as [E|E].
  - intros _. simpl. rewrite N.eqb_refl. repeat split.
    + intros v. rewrite !elem_of_cons. tauto.
    + intros v. rewrite !elem_of_cons. intros [->|Hv] Hne; [contradiction|auto].
  - intros Hf. destruct (IH Hf) as (H1 & H2 & H3 & H4 & H5). simpl.
    apply N.eqb_neq in E. rewrite E. repeat split; try congruence.
    + intros v. rewrite !elem_of_cons. intros [->|Hv]; [auto|].
      destruct (H4 v Hv); auto.
    + intros v. rewrite !elem_of_cons. intros [->|Hv] Hne; auto.
Qed.

(** X22. [updateInstitution] with a well-formed request: an id that no
    user has gives 404 and changes nothing; otherwise the user found is
    answered and saved with each field of the body in place of its old
    value and every field the body does not have as it was, its id and its
    role kept; the number of users, the users of other ids, the complaints,
    the departments and the forwarding records are as before; and the
    request does the same if it is sent again. *)
Theorem updateInstitution_outcome (req : UpdateRequest) (db : Store) :
  req.(ui_errors) = [] ->
  (find (fun u => (u.(u_id) =? req.(ui_id))%N) db.(users) = None ->
   updateInstitution req db
   = (mkAdminResponse 404 (AMessage "Institution not found"), db))
  /\ (forall u,
        find (fun u => (u.(u_id) =? req.(ui_id))%N) db.(users) = Some u ->
        let u' := mkUser u.(u_id) u.(u_role)
                    (assign req.(ui_province) u.(u_province))
                    (assign req.(ui_district) u.(u_district))
                    (assign req.(ui_institutionName) u.(u_institutionName))
                    (assign req.(ui_email) u.(u_email))
                    (assign req.(ui_phone) u.(u_phone)) in
        let db' := snd (updateInstitution req db) in
        fst (updateInstitution req db) = mkAdminResponse 200 (AInstitution u')
        /\ find (fun u => (u.(u_id) =? req.(ui_id))%N) db'.(users) = Some u'
        /\ length db'.(users) = length db.(users)
        /\ (forall v, v ∈ db'.(users) -> v = u' \/ v ∈ db.(users))
        /\ (forall v, v ∈ db.(users) -> v.(u_id) <> req.(ui_id) ->
              v ∈ db'.(users))
        /\ db'.(complaints) = db.(complaints)
        /\ db'.(departments) = db.(departments)
        /\ db'.(forwardingRecords) = db.(forwardingRecords)
        /\ updateInstitution req db' = updateInstitution req db).
Proof.
  intros He. unfold updateInstitution. rewrite He. split.
  - intros ->. reflexivity.
  - intros u Hf. rewrite Hf. simpl.
    assert (Hid : u_id u = ui_id req).
    { apply find_Some_elem in Hf as [_ Hid]. now apply N.eqb_eq in Hid. }
    set (u' := mkUser _ _ _ _ _ _ _).
    rewrite <- Hid in Hf |- *.
    destruct (saveUser_found u u' (users db) Hf) as (H1 & H2 & H3 & H4 & H5).
    change (u_id u) with (u_id u') in Hf |- *.
    rewrite H1. repeat split; auto.
    assert (Hassign : forall v s, assign v (assign v s) = assign v s)
      by (intros [w|] s; reflexivity).
    assert (Hu' : mkUser (u_id u') (u_role u')
                    (assign (ui_province req) (u_province u'))
                    (assign (ui_district req) (u_district u'))
                    (assign (ui_institutionName req) (u_institutionName u'))
                    (assign (ui_email req) (u_email u'))
                    (assign (ui_phone req) (u_phone u')) = u')
      by (unfold u'; simpl; now rewrite !Hassign).
    now rewrite Hu', H2.
Qed.

Lemma updateInstitution_outcome_witness :
  fst (updateInstitution
         (mkUpdateRequest [] 11%N None None None None (Some "Gasabo"))
         Scenario.db0)
  = mkAdminResponse 200
      (AInstitution
         (mkUser 11 "institution" "Kigali" "Gasabo" "REG" "care@reg.example"
            "0788000002")).
Proof.
  apply (proj2 (updateInstitution_outcome
                  (mkUpdateRequest [] 11%N None None None None (Some "Gasabo"))
                  Scenario.db0 eq_refl) Scenario.reg).
  reflexivity.
Defined.

End Institutions.

(** ** Answers to unauthorized requests, and resolutions on time *)

(** X23. What a status update tells about a complaint that is not the
    caller's. A caller who is not an institution gets 403 before anything
    is looked up. An institution gets 404 exactly when no complaint has the
    id, and a different answer, 403, when the complaint exists but is
    assigned to another institution; the deadline update answers both of
    these cases with one and the same 404. In none of these cases does the
    store change. *)
Theorem status_update_reveals_existence (h : Host) (req : StatusRequest)
    (db : Store) :
  (req.(ur_user).(u_role) <> "institution" ->
   ComplaintController.updateComplaintStatus h req db
   = (mkResponse 403 (Message "Only institutions can update complaint status"), db))
  /\ (req.(ur_user).(u_role) = "institution" ->
      (db.(complaints) !! req.(ur_complaintId) = None ->
       ComplaintController.updateComplaintStatus h req db
       = (mkResponse 404 (Message "Complaint not found"), db))
      /\ (forall c, db.(complaints) !! req.(ur_complaintId) = Some c ->
            c.(institutionId) <> req.(ur_user).(u_id) ->
            ComplaintController.updateComplaintStatus h req db
            = (mkResponse 403 (Message "Not authorized to update this complaint"),
               db)))
  /\ (forall d, h.(now) <= d ->
      let dreq := mkDeadlineRequest req.(ur_user) req.(ur_complaintId) (Some d) in
      let hidden :=
        (mkResponse 404
           (Message "Complaint not found or you do not have permission to update it"),
         db) in
      (db.(complaints) !! req.(ur_complaintId) = None ->
       ComplaintController.updateComplaintDeadline h dreq db = hidden)
      /\ (forall c, db.(complaints) !! req.(ur_complaintId) = Some c ->
            c.(institutionId) <> req.(ur_user).(u_id) ->
            ComplaintController.updateComplaintDeadline h dreq db = hidden)).
Proof.
  split; [|split].
  - intros Hrole. unfold ComplaintController.updateComplaintStatus.
    apply String.eqb_neq in Hrole. now rewrite Hrole.
  - intros Hrole. unfold ComplaintController.updateComplaintStatus.
    rewrite Hrole. simpl. split.
    + intros ->. reflexivity.
    + intros c -> Hown. apply N.eqb_neq in Hown. now rewrite Hown.
  - intros d Hd dreq hidden.
    unfold ComplaintController.updateComplaintDeadline,
      ComplaintController.findOwnedComplaint. simpl.
    apply Z.ltb_ge in Hd. rewrite Hd. split.
    + intros ->. reflexivity.
    + intros c -> Hown. apply N.eqb_neq in Hown. now rewrite Hown.
Qed.

(** X24. Whether a resolution counts as on time in the performance
    report. After a successful status update to RESOLVED the complaint
    counts as resolved on time exactly when the instant of the update is
    not after its deadline, where the deadline is the one sent with the
    update if there is one, and the stored one otherwise; a complaint
    without any deadline does not count. *)
Theorem resolution_on_time (h : Host) (req : StatusRequest) (db : Store)
    (c : Complaint) :
  req.(ur_user).(u_role) = "institution" ->
  db.(complaints) !! req.(ur_complaintId) = Some c ->
  c.(institutionId) = req.(ur_user).(u_id) ->
  req.(ur_status) = "RESOLVED" ->
  exists c',
    (snd (ComplaintController.updateComplaintStatus h req db)).(complaints)
      !! req.(ur_complaintId) = Some c'
    /\ (AdminController.isResolvedOnTime c' = true <->
        match req.(ur_resolutionDeadline) with
        | Some d => h.(now) <= d
        | None => exists d, c.(resolutionDeadline) = Some d /\ h.(now) <= d
        end).
Proof.
  intros Hrole Hc Hown Hs.
  destruct (updateComplaintStatus_success h req db c Hrole Hc Hown)
    as (c' & ok & errs & -> & _ & Hs' & Hd & Hdl); [now rewrite Hs|].
  rewrite Hs in Hs', Hd. simpl in Hd.
  exists c'. simpl. rewrite lookup_insert_eq. split; [reflexivity|].
  unfold AdminController.isResolvedOnTime, AdminController.isResolved.
  rewrite Hs', Hd, Hdl. simpl.
  destruct (ur_resolutionDeadline req) as [d|]; simpl; [apply Z.leb_le|].
  destruct (resolutionDeadline c) as [d|]; simpl.
  - rewrite Z.leb_le. split; [eauto|]. now intros (d' & [= <-] & Hle).
  - split; [discriminate|]. now intros (d' & [=] & _).
Qed.

Lemma resolution_on_time_witness :
  exists c',
    Scenario.db2.(complaints) !! 100%N = Some c'
    /\ (AdminController.isResolvedOnTime c' = true <->
        exists d, Scenario.submitted.(resolutionDeadline) = Some d
                  /\ Scenario.t1 <= d).
Proof.
  apply (resolution_on_time (Scenario.host Scenario.t1 true)
           Scenario.resolveRequest Scenario.db1 Scenario.submitted);
    vm_compute; reflexivity.
Defined.

Section SystemTotals.

Import AdminController.

Lemma sum_shift (f : PerformanceRow -> Z) (l : list PerformanceRow) (a : Z) :
  fold_left (fun acc p => acc + f p) l a
  = a + fold_left (fun acc p => acc + f p) l 0.
Proof.
  revert a. induction l as [|x l IH]; intros a; simpl; [lia|].
  rewrite (IH (a + f x)), (IH (0 + f x)). lia.
Qed.

Lemma sum_le (f g : PerformanceRow -> Z) (l : list PerformanceRow) :
  (forall p, In p l -> f p <= g p) -> sum f l <= sum g l.
Proof.
  unfold sum. induction l as [|x l IH]; intros Hfg; simpl; [lia|].
  rewrite (sum_shift f l (0 + f x)), (sum_shift g l (0 + g x)).
  specialize (IH (fun p Hp => Hfg p (or_intror Hp))).
  specialize (Hfg x (or_introl eq_refl)). lia.
Qed.

(** X25. The system-wide figures of every performance report: the totals
    are the sums of the rows' counters, the on-time resolutions lie among
    the resolutions and those among the complaints, and both system rates
    lie between 0 and 100, being 0 when their divisor is 0. *)
Theorem performance_system_stats (h : Host) (timeframe : option string)
    (db : Store) :
  exists label stats rows,
    getPerformance h timeframe db = json (PerformanceReport label stats rows)
    /\ stats.(s_totalComplaints) = sum p_totalComplaints rows
    /\ stats.(s_totalResolved) = sum p_resolvedComplaints rows
    /\ stats.(s_totalResolvedOnTime) = sum p_resolvedOnTime rows
    /\ 0 <= stats.(s_totalResolvedOnTime) <= stats.(s_totalResolved)
    /\ stats.(s_totalResolved) <= stats.(s_totalComplaints)
    /\ (0 <= stats.(s_systemResolutionRate) <= 100)%Q
    /\ (0 <= stats.(s_systemOnTimeRate) <= 100)%Q
    /\ (stats.(s_totalComplaints) = 0 -> stats.(s_systemResolutionRate) = 0%Q)
    /\ (stats.(s_totalResolved) = 0 -> stats.(s_systemOnTimeRate) = 0%Q).
Proof.
  unfold getPerformance.
  destruct (aggregate_rows_counters db (dateFilterOf h timeframe))
    as (rows0 & -> & Hrows).
  eexists _, _, rows0. split; [reflexivity|]. simpl.
  assert (Hz : sum (fun _ => 0) rows0 = 0).
  { unfold sum. clear Hrows. induction rows0 as [|x l IH]; simpl; auto. }
  assert (H0 : 0 <= sum p_resolvedOnTime rows0).
  { rewrite <- Hz at 1. apply sum_le. intros p Hp. apply (Hrows p Hp). }
  assert (H1 : sum p_resolvedOnTime rows0 <= sum p_resolvedComplaints rows0)
    by (apply sum_le; intros p Hp; apply (Hrows p Hp)).
  assert (H2 : sum p_resolvedComplaints rows0 <= sum p_totalComplaints rows0)
    by (apply sum_le; intros p Hp; apply (Hrows p Hp)).
  repeat split; try lia.
  - destruct (Z.eqb_spec (sum p_totalComplaints rows0) 0); [discriminate|].
    apply percent_bounds; lia.
  - destruct (Z.eqb_spec (sum p_totalComplaints rows0) 0); [discriminate|].
    apply percent_bounds; lia.
  - destruct (Z.eqb_spec (sum p_resolvedComplaints rows0) 0); [discriminate|].
    apply percent_bounds; lia.
  - destruct (Z.eqb_spec (sum p_resolvedComplaints rows0) 0); [discriminate|].
    apply percent_bounds; lia.
  - intros ->. reflexivity.
  - intros ->. reflexivity.
Qed.

End SystemTotals.

Section OneRowEach.

Import AdminController.

Lemma distinct_NoDup (l : list N) : NoDup (distinct l).
Proof.
  induction l as [|x l IH]; simpl; [constructor|].
  apply NoDup_cons. split.
  - rewrite list_elem_of_filter. tauto.
  - now apply NoDup_filter.
Qed.

Lemma insertByRate_Permutation (r : PerformanceRow) (l : list PerformanceRow) :
  Permutation (insertByRate r l) (r :: l).
Proof.
  induction l as [|a l IH]; simpl; [reflexivity|].
  destruct (Qle_bool _ _); [reflexivity|].
  rewrite IH. apply perm_swap.
Qed.

Lemma sortStage_Permutation (l : list PerformanceRow) :
  Permutation (sortStage l) l.
Proof.
  unfold sortStage. induction l as [|a l IH]; simpl; [reflexivity|].
  rewrite insertByRate_Permutation. now constructor.
Qed.

(** With user ids that are unique, at most one user joins a group. *)
Lemma lookupStage_ids (db : Store) (g : Group) :
  NoDup (map u_id db.(users)) ->
  map (fun gu => g_id (fst gu)) (lookupStage db g) = []
  \/ map (fun gu => g_id (fst gu)) (lookupStage db g) = [g.(g_id)].
Proof.
  unfold lookupStage. rewrite map_map. simpl.
  induction (users db) as [|u l IH]; simpl; intros Hnd; [now left|].
  apply NoDup_cons in Hnd as [Hu Hnd]. rewrite filter_cons.
  destruct (decide (u_id u = g_id g)) as [E|E]; [|now apply IH].
  right. simpl. f_equal.
  destruct (filter (fun u0 => u_id u0 = g_id g) l) as [|v k] eqn:Hf;
    [reflexivity|].
  exfalso. apply Hu.
  assert (Hv : v ∈ filter (fun u0 => u_id u0 = g_id g) l)
    by (rewrite Hf; apply list_elem_of_here).
  apply list_elem_of_filter in Hv as [Hid Hv].
  rewrite E, <- Hid. apply list_elem_of_In, in_map, list_elem_of_In, Hv.
Qed.

Lemma joined_ids_NoDup (db : Store) (groups : list Group) :
  NoDup (map u_id db.(users)) ->
  NoDup (map g_id groups) ->
  NoDup (map (fun gu => g_id (fst gu)) (concat (map (lookupStage db) groups)))
  /\ forall k, k ∈ map (fun gu : Group * User => g_id (fst gu))
                     (concat (map (lookupStage db) groups)) ->
               k ∈ map g_id groups.
Proof.
  intros Hu. induction groups as [|g groups IH]; simpl; intros Hg.
  - split; [constructor|]. intros k Hk. exact Hk.
  - apply NoDup_cons in Hg as [Hg1 Hg2]. destruct (IH Hg2) as [IH1 IH2].
    rewrite map_app.
    destruct (lookupStage_ids db g Hu) as [-> | ->]; simpl.
    + split; [exact IH1|]. intros k Hk. right. now apply IH2.
    + split.
      * apply NoDup_cons. split; [|exact IH1]. intros Hin. apply Hg1, IH2, Hin.
      * intros k. rewrite !elem_of_cons. intros [->|Hk]; [now left|].
        right. now apply IH2.
Qed.

Lemma projected_ids (joined : list (Group * User)) (rows : list PerformanceRow) :
  Forall2 (fun gu row => projectStage (fst gu) (snd gu) = Some row) joined rows ->
  map p_id rows = map (fun gu => g_id (fst gu)) joined.
Proof.
  induction 1 as [|[g u] row joined rows Hp _ IH]; simpl; [reflexivity|].
  f_equal; [|exact IH]. unfold projectStage, divide in Hp. simpl in Hp.
  destruct (g_totalComplaints g =? 0); [discriminate|].
  destruct (Z.max (g_resolvedComplaints g) 1 =? 0); [discriminate|].
  simpl in Hp. now injection Hp as <-.
Qed.

(** X26. When the users have pairwise different ids, no two rows of a
    performance report belong to the same institution. *)
Theorem performance_one_row_each (h : Host) (timeframe : option string)
    (db : Store) :
  NoDup (map u_id db.(users)) ->
  exists label stats rows,
    getPerformance h timeframe db = json (PerformanceReport label stats rows)
    /\ NoDup (map p_id rows).
Proof.
  intros Hu. unfold getPerformance.
  destruct (aggregate_rows db (dateFilterOf h timeframe)) as (rows & Hagg & _).
  rewrite Hagg. eexists _, _, rows. split; [reflexivity|].
  unfold aggregate in Hagg.
  destruct (mapM _ _) as [rows0|] eqn:Hm; [|discriminate].
  injection Hagg as <-. apply mapM_Some in Hm.
  rewrite (Permutation_map p_id (sortStage_Permutation rows0)).
  rewrite (projected_ids _ _ Hm).
  apply joined_ids_NoDup; [exact Hu|].
  unfold groupStage. rewrite map_map. simpl. rewrite map_id.
  apply distinct_NoDup.
Qed.

Lemma performance_one_row_each_witness :
  exists label stats rows,
    getPerformance (Scenario.host Scenario.t2 true) (Some "week") Scenario.db2
    = json (PerformanceReport label stats rows)
    /\ NoDup (map p_id rows).
Proof.
  apply (performance_one_row_each (Scenario.host Scenario.t2 true)
           (Some "week") Scenario.db2).
  vm_compute. repeat constructor; rewrite ?elem_of_cons, ?elem_of_nil;
    intuition discriminate.
Defined.

End OneRowEach.
